(** * Cymusic plugin subsystem: loader, registry, host and search aggregation

    A shallow embedding of
    - [plugins/core/PluginLoader.ts]   (module [PluginLoader]),
    - [plugins/core/PluginRegistry.ts] (module [PluginRegistry]),
    - [plugins/core/PluginManager.ts]  (module [CorePluginManager]),
    - [helpers/PluginManager.ts]       (module [HelpersPluginManager]),
    - [helpers/searchAll.ts]           (module [SearchAll]),
    followed by the properties established about them.

    JavaScript values are modelled by what the code can observe of them:
    a property that may be [undefined] is an [option]; a call that may
    throw (or a promise that may reject) is an [Outcome]; objects that the
    code mutates in place live in an explicit store that is threaded
    through the operations. *)

From Stdlib Require Import Ascii String ZArith.
From stdpp Require Import base strings list gmap.

Local Open Scope string_scope.
Local Open Scope list_scope.
Local Open Scope Z_scope.

(** ** JavaScript preliminaries *)

(** A thrown value, as far as a caller that only logs it can tell. *)
Record JsError := mkJsError { js_message : string }.

(** The result of a call that may throw, or of an awaited promise. *)
Inductive Outcome (A : Type) : Type :=
| Returned (a : A)
| Threw (e : JsError).
Arguments Returned {A} a.
Arguments Threw {A} e.

Global Instance Outcome_ret : MRet Outcome := fun A a => Returned a.

Global Instance Outcome_bind : MBind Outcome := fun A B k m =>
  match m with
  | Returned a => k a
  | Threw e => Threw e
  end.

(** [try { body } catch (e) { handler(e) }] *)
Definition try_catch {A : Type} (body : Outcome A) (handler : JsError -> Outcome A)
  : Outcome A :=
  match body with
  | Returned a => Returned a
  | Threw e => handler e
  end.

(** Truthiness of a property holding a string or [undefined]. *)
Definition truthy (v : option string) : bool :=
  match v with
  | Some s => negb (String.eqb s "")
  | None => false
  end.

(** [a || b] on such properties. *)
Definition js_or (a b : option string) : option string :=
  if truthy a then a else b.

(** [a === b] on such properties. *)
Definition js_eq (a b : option string) : bool :=
  match a, b with
  | Some x, Some y => String.eqb x y
  | None, None => true
  | _, _ => false
  end.

(** [object[key] = value] on a plain object, of which the model keeps the
    own properties.  The name [__proto__] is an accessor that
    [Object.prototype] provides: unless the object has an own property of
    that name (as [JSON.parse] can create one), the assignment goes to the
    accessor, which replaces the prototype when the value is an object and
    does nothing otherwise; either way no own property is added. *)
Definition setProperty {V : Type} (key : string) (value : V)
  (own : gmap string V) : gmap string V :=
  if String.eqb key "__proto__" && negb (bool_decide (is_Some (own !! key)))
  then own
  else <[key := value]> own.

(** [Array.prototype.find] *)
Fixpoint find {A : Type} (p : A -> bool) (l : list A) : option A :=
  match l with
  | [] => None
  | x :: l' => if p x then Some x else find p l'
  end.

(** [Array.prototype.findIndex]; [-1] when nothing matches. *)
Fixpoint findIndex {A : Type} (p : A -> bool) (l : list A) : Z :=
  match l with
  | [] => -1
  | x :: l' =>
      if p x then 0
      else let r := findIndex p l' in if r <? 0 then -1 else r + 1
  end.

(** [Array.prototype.filter] with the three-argument callback
    [(element, index, self)]. *)
Fixpoint filter_from {A : Type} (p : A -> Z -> list A -> bool)
  (self : list A) (index : Z) (l : list A) : list A :=
  match l with
  | [] => []
  | x :: l' =>
      if p x index self then x :: filter_from p self (index + 1) l'
      else filter_from p self (index + 1) l'
  end.

Definition js_filter {A : Type} (p : A -> Z -> list A -> bool) (self : list A)
  : list A :=
  filter_from p self 0 self.

(** [Array.prototype.filter] with a one-argument callback. *)
Fixpoint keep {A : Type} (p : A -> bool) (l : list A) : list A :=
  match l with
  | [] => []
  | x :: l' => if p x then x :: keep p l' else keep p l'
  end.

(** In-place update of the object that [find] returns: the first match. *)
Fixpoint updateFirst {A : Type} (p : A -> bool) (f : A -> A) (l : list A)
  : list A :=
  match l with
  | [] => []
  | x :: l' => if p x then f x :: l' else x :: updateFirst p f l'
  end.

(** A loop over an array whose body may throw: the first exception that
    the body lets escape ends the loop. *)
Fixpoint forEachM {A S : Type} (body : S -> A -> Outcome S) (l : list A) (s : S)
  : Outcome S :=
  match l with
  | [] => Returned s
  | x :: l' => s' ← body s x; forEachM body l' s'
  end.

(** ** Shared data shapes ([types/*.d.ts]) *)

Module ICommon.

Inductive SupportMediaType := music | album | artist | sheet | lyric.

Definition SupportMediaType_eqb (a b : SupportMediaType) : bool :=
  match a, b with
  | music, music | album, album | artist, artist
  | sheet, sheet | lyric, lyric => true
  | _, _ => false
  end.

End ICommon.

(** The fields of a media item that the modelled code reads or writes. *)
Record MediaItem := mkMediaItem {
  item_id : string;
  item_platform : option string;
  item_title : option string;
  item_name : option string;
  item_artist : option string;
  item_artwork : option string;
  item_avatar : option string;
  item_url : option string;
}.

Module IPlugin.

(** [ISearchResult]: both properties may be missing at run time. *)
Record ISearchResult := mkSearchResult {
  isEnd : option bool;
  data : option (list MediaItem);
}.

Record IMediaSourceResult := mkMediaSource { url : string }.

Record IAlbumInfoResult := mkAlbumInfo {
  albumItem : option MediaItem;
  musicList : option (list MediaItem);
}.

End IPlugin.

(** ** [plugins/core/PluginLoader.ts] *)

Module PluginLoader.

Inductive PluginState := Loading | Mounted | Error.

Inductive PluginErrorReason := CannotParse | VersionNotMatch.

Record IUserVariable := mkUserVariable {
  key : option string;
  uv_name : option string;
  hint : option string;
}.

(** [IPluginInterface]: identity fields and the capability methods that
    the modelled code calls.  [platform] is declared [string] but is read
    from untrusted exports, hence may be [undefined]. *)
Record IPluginInterface := mkPlugin {
  platform : option string;
  version : option string;
  author : option string;
  supportedSearchType : option (list ICommon.SupportMediaType);
  userVariables : option (list IUserVariable);
  search : option (string -> Z -> ICommon.SupportMediaType -> Outcome IPlugin.ISearchResult);
  getMediaSource :
    option (MediaItem -> string -> Outcome (option IPlugin.IMediaSourceResult));
  getAlbumInfo : option (MediaItem -> Z -> Outcome (option IPlugin.IAlbumInfoResult));
}.

(** What the [catch] clause of [loadFromCode] can read off a thrown value:
    [e?.errorReason], [e?.instance], [e?.message]. *)
Record LoadThrown := mkLoadThrown {
  thrown_errorReason : option PluginErrorReason;
  thrown_instance : option IPluginInterface;
  thrown_message : option string;
}.

Definition plainError (msg : string) : LoadThrown :=
  {| thrown_errorReason := None; thrown_instance := None;
     thrown_message := Some msg |}.

(** What running the source text through [new Function(...)] and reading
    [module.exports] gives (lines 60-108): a thrown value, or the value
    bound to [_instance] ([None] when that value is not an object). *)
Inductive EvalResult :=
| Yields (inst : option IPluginInterface)
| Raises (e : LoadThrown).

(** The environment the loader and the registry run in: the script engine,
    [DeviceInfo.getVersion()], the imported [semver] functions ([compare]
    returns -1, 0 or 1 and throws on a malformed version) and the constant
    [pathConst.pluginPath]. *)
Record Host := mkHost {
  evalSource : string -> EvalResult;
  getVersion : string;
  satisfies : string -> string -> bool;
  compare : string -> string -> Outcome Z;
  pluginPath : string;
}.

Record LoadResult := mkLoadResult {
  instance : IPluginInterface;
  state : PluginState;
  errorReason : option PluginErrorReason;
  hash : string;
  name : option string;
  path : string;
}.

Section Loader.
Variable host : Host.

(** [validatePlugin]: [inl e] is [throw e]. *)
Definition validatePlugin (inst : IPluginInterface) : LoadThrown + bool :=
  if truthy (version inst)
     && negb (satisfies host (getVersion host) (default "" (version inst)))
  then inl {| thrown_errorReason := Some VersionNotMatch;
              thrown_instance := Some inst;
              thrown_message := None |}
  else if negb (truthy (platform inst))
  then inl (plainError "Plugin must have a platform name")
  else inr true.

(** The dummy instance built in the [catch] clause. *)
Definition dummyInstance : IPluginInterface :=
  {| platform := Some "";
     version := Some "0.0.0";
     author := None;
     supportedSearchType := None;
     userVariables := None;
     search := Some (fun _ _ _ => Returned {| IPlugin.isEnd := Some true; IPlugin.data := Some [] |});
     getMediaSource := Some (fun _ _ => Returned None);
     getAlbumInfo := Some (fun _ _ => Returned None) |}.

Definition filterUserVariables (inst : IPluginInterface) : IPluginInterface :=
  match userVariables inst with
  | Some vars =>
      {| platform := platform inst;
         version := version inst;
         author := author inst;
         supportedSearchType := supportedSearchType inst;
         userVariables := Some (keep (fun it => truthy (key it)) vars);
         search := search inst;
         getMediaSource := getMediaSource inst;
         getAlbumInfo := getAlbumInfo inst |}
  | None => inst
  end.

(** The body of the [try] block: the instance when it completes, the
    thrown value otherwise. *)
Definition tryLoad (pluginCode : string) : LoadThrown + IPluginInterface :=
  match evalSource host pluginCode with
  | Raises e => inl e
  | Yields None => inl (plainError "Cannot read properties of undefined")
  | Yields (Some inst) =>
      match validatePlugin inst with
      | inl e => inl e
      | inr _ => inr (filterUserVariables inst)
      end
  end.

(** [loadFromCode]; [nanoid] is the string that [nanoid()] returns in this
    call. *)
Definition loadFromCode (pluginCode pluginPath : string) (nanoid : string)
  : LoadResult :=
  match tryLoad pluginCode with
  | inr inst =>
      {| instance := inst; state := Mounted; errorReason := None;
         hash := nanoid; name := platform inst; path := pluginPath |}
  | inl e =>
      let inst := default dummyInstance (thrown_instance e) in
      {| instance := inst;
         state := Error;
         errorReason := Some (default CannotParse (thrown_errorReason e));
         hash := nanoid; name := platform inst; path := pluginPath |}
  end.

End Loader.

End PluginLoader.

(** ** [plugins/core/PluginRegistry.ts] *)

Module PluginRegistry.

Record IPluginMeta := mkMeta {
  enabled : bool;
  order : Z;
  userVariables : gmap string string;
}.

Record IRegisteredPlugin := mkRegistered {
  instance : PluginLoader.IPluginInterface;
  state : PluginLoader.PluginState;
  hash : string;
  name : option string;
  path : string;
  meta : IPluginMeta;
}.

Record IInstallPluginConfig := mkConfig { notCheckVersion : option bool }.

Record IInstallPluginResult := mkInstallResult {
  success : bool;
  message : option string;
  pluginName : option string;
  pluginHash : option string;
}.

(** What [eventEmitter.emit] was called with. *)
Inductive PluginEvent :=
| plugin_loaded (name : option string)
| plugin_installed (name : option string)
| plugin_enabled (name : option string) (enabled : bool).

(** The mutable fields of the registry, and the log of emitted events. *)
Record Registry := mkRegistry {
  plugins : list IRegisteredPlugin;
  builtinPlugins : list IRegisteredPlugin;
  events : list PluginEvent;
}.

(** [registerBuiltinPlugin] *)
Definition registerBuiltinPlugin (reg : Registry)
  (plugin : PluginLoader.IPluginInterface) (nanoid : string) : Registry :=
  {| plugins := plugins reg;
     builtinPlugins := builtinPlugins reg ++
       [ {| instance := plugin;
            state := PluginLoader.Mounted;
            hash := nanoid;
            name := PluginLoader.platform plugin;
            path := "builtin";
            meta := {| enabled := true; order := 0; userVariables := ∅ |} |} ];
     events := events reg |}.

Definition hasHash (h : string) (p : IRegisteredPlugin) : bool :=
  String.eqb (hash p) h.

Definition hasName (n : option string) (p : IRegisteredPlugin) : bool :=
  js_eq (name p) n.

(** [existingPluginWithSameName ? existingPluginWithSameName.meta.order
     : this.plugins.length] *)
Definition orderFor (existing : option IRegisteredPlugin)
  (current : list IRegisteredPlugin) : Z :=
  match existing with
  | Some e => order (meta e)
  | None => Z.of_nat (length current)
  end.

(** [this.plugins.filter(p => p.hash !== existing.hash)] when an entry of
    the same name exists. *)
Definition removeOld (existing : option IRegisteredPlugin)
  (current : list IRegisteredPlugin) : list IRegisteredPlugin :=
  match existing with
  | Some e => keep (fun p => negb (hasHash (hash e) p)) current
  | None => current
  end.

Section Registry.
Variable host : PluginLoader.Host.

(** [loadPlugin].  The rejection of [unlink] is swallowed by the empty
    [catch], so the call always completes. *)
Definition loadPlugin (reg : Registry) (pluginCode pluginPath : string)
  (nanoid : string) : Registry :=
  let r := PluginLoader.loadFromCode host pluginCode pluginPath nanoid in
  match find (hasHash (PluginLoader.hash r)) (plugins reg) with
  | Some _ => reg
  | None =>
      let existingPluginWithSameName :=
        find (hasName (PluginLoader.name r)) (plugins reg) in
      match PluginLoader.state r with
      | PluginLoader.Mounted =>
          let pushed := plugins reg ++
            [ {| instance := PluginLoader.instance r;
                 state := PluginLoader.state r;
                 hash := PluginLoader.hash r;
                 name := PluginLoader.name r;
                 path := PluginLoader.path r;
                 meta := {| enabled := true;
                            order := orderFor existingPluginWithSameName
                                       (plugins reg);
                            userVariables := ∅ |} |} ] in
          {| plugins := removeOld existingPluginWithSameName pushed;
             builtinPlugins := builtinPlugins reg;
             events := events reg ++ [plugin_loaded (PluginLoader.name r)] |}
      | _ => reg
      end
  end.

(** [!config?.notCheckVersion] *)
Definition checksVersion (config : option IInstallPluginConfig) : bool :=
  match config with
  | Some c => negb (default false (notCheckVersion c))
  | None => true
  end.

(** The condition of the version gate (lines 275-282): the number that
    [compare] returns is used as the condition, so any non-zero result
    takes the branch. *)
Definition newerInstalled (existing : option IRegisteredPlugin)
  (config : option IInstallPluginConfig)
  (inst : PluginLoader.IPluginInterface) : Outcome bool :=
  match existing with
  | Some e =>
      if checksVersion config then
        c ← PluginLoader.compare host
              (default "0.0.0" (PluginLoader.version (instance e)))
              (default "0.0.0" (PluginLoader.version inst));
        mret (negb (c =? 0))
      else mret false
  | None => mret false
  end.

(** [installPlugin].  [nanoid1] and [nanoid2] are what the two calls of
    [nanoid()] return (the hash in [loadFromCode], then the file name);
    [copyFile] is how the awaited [copyFile(pluginPath, newPluginPath)]
    settles.  The result pairs what the call returns or throws with the
    registry it leaves behind. *)
Definition installPlugin (reg : Registry) (pluginCode pluginPath : string)
  (config : option IInstallPluginConfig) (nanoid1 nanoid2 : string)
  (copyFile : Outcome ()) : Outcome IInstallPluginResult * Registry :=
  if String.eqb pluginCode "" then
    (Returned {| success := false; message := Some "Plugin code is empty";
                 pluginName := None; pluginHash := None |}, reg)
  else
    let r := PluginLoader.loadFromCode host pluginCode pluginPath nanoid1 in
    match find (hasHash (PluginLoader.hash r)) (plugins reg) with
    | Some _ =>
        (Returned {| success := true;
                     message := Some "Plugin is already installed";
                     pluginName := PluginLoader.name r;
                     pluginHash := Some (PluginLoader.hash r) |}, reg)
    | None =>
        let existingPluginWithSameName :=
          find (hasName (PluginLoader.name r)) (plugins reg) in
        match newerInstalled existingPluginWithSameName config
                (PluginLoader.instance r) with
        | Threw e => (Threw e, reg)
        | Returned true =>
            (Returned {| success := false;
                         message :=
                           Some "A newer version of the plugin is already installed";
                         pluginName := PluginLoader.name r;
                         pluginHash := Some (PluginLoader.hash r) |}, reg)
        | Returned false =>
            match PluginLoader.state r with
            | PluginLoader.Mounted =>
                let filename := nanoid2 in
                let remaining :=
                  removeOld existingPluginWithSameName (plugins reg) in
                let newPluginPath :=
                  PluginLoader.pluginPath host +:+ filename +:+ ".js" in
                match copyFile with
                | Threw e =>
                    (Threw e,
                     {| plugins := remaining;
                        builtinPlugins := builtinPlugins reg;
                        events := events reg |})
                | Returned _ =>
                    (Returned {| success := true; message := None;
                                 pluginName := PluginLoader.name r;
                                 pluginHash := Some (PluginLoader.hash r) |},
                     {| plugins := remaining ++
                          [ {| instance := PluginLoader.instance r;
                               state := PluginLoader.state r;
                               hash := PluginLoader.hash r;
                               name := PluginLoader.name r;
                               path := newPluginPath;
                               meta := {| enabled := true;
                                          order := orderFor
                                            existingPluginWithSameName remaining;
                                          userVariables := ∅ |} |} ];
                        builtinPlugins := builtinPlugins reg;
                        events := events reg ++
                          [plugin_installed (PluginLoader.name r)] |})
                end
            | _ =>
                (Returned {| success := false;
                             message := Some "Plugin cannot be parsed";
                             pluginName := None; pluginHash := None |}, reg)
            end
        end
    end.

End Registry.

(** [getAllPlugins] *)
Definition getAllPlugins (reg : Registry) : list IRegisteredPlugin :=
  builtinPlugins reg ++ plugins reg.

(** [getPluginByName] *)
Definition getPluginByName (reg : Registry) (n : option string)
  : option IRegisteredPlugin :=
  find (hasName n) (getAllPlugins reg).

(** [plugin.meta.enabled = enabled] on one entry. *)
Definition setEnabled (enabled' : bool) (p : IRegisteredPlugin)
  : IRegisteredPlugin :=
  {| instance := instance p; state := state p; hash := hash p;
     name := name p; path := path p;
     meta := {| enabled := enabled'; order := order (meta p);
                userVariables := userVariables (meta p) |} |}.

(** [setPluginEnabled]: the entry found by [getPluginByName] is the first
    match among the built-in entries, else among the installed ones. *)
Definition setPluginEnabled (reg : Registry) (n : string) (enabled' : bool)
  : Registry :=
  match getPluginByName reg (Some n) with
  | Some _ =>
      match find (hasName (Some n)) (builtinPlugins reg) with
      | Some _ =>
          {| plugins := plugins reg;
             builtinPlugins :=
               updateFirst (hasName (Some n)) (setEnabled enabled')
                 (builtinPlugins reg);
             events := events reg ++ [plugin_enabled (Some n) enabled'] |}
      | None =>
          {| plugins :=
               updateFirst (hasName (Some n)) (setEnabled enabled')
                 (plugins reg);
             builtinPlugins := builtinPlugins reg;
             events := events reg ++ [plugin_enabled (Some n) enabled'] |}
      end
  | None => reg
  end.

(** [isPluginEnabled]: [plugin?.meta.enabled ?? false] *)
Definition isPluginEnabled (reg : Registry) (n : string) : bool :=
  match getPluginByName reg (Some n) with
  | Some plugin => enabled (meta plugin)
  | None => false
  end.

End PluginRegistry.

(** ** [plugins/core/PluginManager.ts] *)

Module CorePluginManager.

(** [item.platform = plugin.name] *)
Definition stamp (n : option string) (item : MediaItem) : MediaItem :=
  {| item_id := item_id item;
     item_platform := n;
     item_title := item_title item;
     item_name := item_name item;
     item_artist := item_artist item;
     item_artwork := item_artwork item;
     item_avatar := item_avatar item;
     item_url := item_url item |}.

(** [if (result.data) result.data.forEach(...)] *)
Definition stampResult (n : option string) (result : IPlugin.ISearchResult)
  : IPlugin.ISearchResult :=
  {| IPlugin.isEnd := IPlugin.isEnd result;
     IPlugin.data := match IPlugin.data result with
             | Some items => Some (map (stamp n) items)
             | None => None
             end |}.

(** The property key [results[plugin.name]]. *)
Definition resultKey (plugin : PluginRegistry.IRegisteredPlugin) : string :=
  default "undefined" (PluginRegistry.name plugin).

(** The predicate of the [filter] that selects the plugins to search. *)
Definition selected (type : ICommon.SupportMediaType) (pluginNames : option (list string))
  (plugin : PluginRegistry.IRegisteredPlugin) : bool :=
  PluginRegistry.enabled (PluginRegistry.meta plugin)
  && match pluginNames with
     | None => true
     | Some names =>
         existsb (fun n => js_eq (Some n) (PluginRegistry.name plugin)) names
     end
  && match PluginLoader.supportedSearchType (PluginRegistry.instance plugin) with
     | None => true
     | Some types => existsb (ICommon.SupportMediaType_eqb type) types
     end.

(** One task of the [Promise.all]: everything happens inside its [try]. *)
Definition searchTask (query : string) (page : Z) (type : ICommon.SupportMediaType)
  (results : gmap string IPlugin.ISearchResult)
  (plugin : PluginRegistry.IRegisteredPlugin)
  : Outcome (gmap string IPlugin.ISearchResult) :=
  try_catch
    (match PluginLoader.search (PluginRegistry.instance plugin) with
     | Some search =>
         result ← search query page type;
         mret (setProperty (resultKey plugin)
                 (stampResult (PluginRegistry.name plugin) result) results)
     | None => mret results
     end)
    (fun _ => mret results).

(** [search].  The tasks of the [Promise.all] write to [results] under
    their own plugin's name, each when its awaited search has settled.
    [settled] is the order in which that happens: the positions of the
    tasks in [plugins], first settled first.  With every task settling
    once, it is a permutation of the positions. *)
Definition search (reg : PluginRegistry.Registry) (query : string) (page : Z)
  (type : ICommon.SupportMediaType) (pluginNames : option (list string))
  (settled : list nat) : Outcome (gmap string IPlugin.ISearchResult) :=
  let plugins :=
    keep (selected type pluginNames) (PluginRegistry.getAllPlugins reg) in
  forEachM (searchTask query page type)
    (omap (fun i => plugins !! i) settled) ∅.

(** [getMediaSource]; [None] is [null]. *)
Definition getMediaSource (reg : PluginRegistry.Registry) (musicItem : MediaItem)
  (quality : string) : Outcome (option IPlugin.IMediaSourceResult) :=
  match PluginRegistry.getPluginByName reg (item_platform musicItem) with
  | None => Returned None
  | Some plugin =>
      if negb (PluginRegistry.enabled (PluginRegistry.meta plugin))
      then Returned None
      else
        try_catch
          (match PluginLoader.getMediaSource (PluginRegistry.instance plugin) with
           | Some getMediaSource => getMediaSource musicItem quality
           | None =>
               if truthy (item_url musicItem)
               then Returned (Some {| IPlugin.url := default "" (item_url musicItem) |})
               else Returned None
           end)
          (fun _ => Returned None)
  end.

End CorePluginManager.

(** ** [helpers/PluginManager.ts] *)

Module HelpersPluginManager.

Record PluginUserConfig := mkUserConfig {
  userVariables : option (gmap string string);
  isEnabled : option bool;
}.

(** [IPluginDefine], as far as the modelled code reads it. *)
Record IPluginDefine := mkDefine {
  platform : string;
  search : option (string -> Z -> ICommon.SupportMediaType -> Outcome IPlugin.ISearchResult);
}.

(** [ManagedPlugin]: [spread] holds the properties copied by
    [...pluginModule]. *)
Record ManagedPlugin := mkManaged {
  spread : IPluginDefine;
  id : string;
  filePath : string;
  userConfig : PluginUserConfig;
  instance : option IPluginDefine;
}.

Definition PLUGIN_CONFIG_PREFIX : string := "plugin_config_".

(** The [plugins] map, in insertion order, and the durable store behind
    [PersistStatus], each stored JSON text standing for the configuration
    it encodes. *)
Record PluginManager := mkManager {
  plugins : list (string * ManagedPlugin);
  persisted : gmap string PluginUserConfig;
}.

Definition hasKey (k : string) (kv : string * ManagedPlugin) : bool :=
  String.eqb (fst kv) k.

(** [this.plugins.get(pluginId)] *)
Definition get (pm : PluginManager) (pluginId : string) : option ManagedPlugin :=
  snd <$> find (hasKey pluginId) (plugins pm).

(** Assignment to [plugin.userConfig] of the object held under [pluginId]. *)
Definition withUserConfig (c : PluginUserConfig) (kv : string * ManagedPlugin)
  : string * ManagedPlugin :=
  (fst kv,
   {| spread := spread (snd kv); id := id (snd kv);
      filePath := filePath (snd kv); userConfig := c;
      instance := instance (snd kv) |}).

Definition mutateUserConfig (pm : PluginManager) (pluginId : string)
  (c : PluginUserConfig) : PluginManager :=
  {| plugins := updateFirst (hasKey pluginId) (withUserConfig c) (plugins pm);
     persisted := persisted pm |}.

(** [savePluginConfig]; [set] is how the awaited [PersistStatus.set]
    settles. *)
Definition savePluginConfig (pm : PluginManager) (pluginId : string)
  (config : PluginUserConfig) (set : Outcome ()) : Outcome () * PluginManager :=
  match set with
  | Returned _ =>
      (Returned (),
       {| plugins := plugins pm;
          persisted := <[PLUGIN_CONFIG_PREFIX +:+ pluginId := config]> (persisted pm) |})
  | Threw e => (Threw e, pm)
  end.

(** [setPluginUserVariable] *)
Definition setPluginUserVariable (pm : PluginManager) (pluginId key value : string)
  (set : Outcome ()) : Outcome () * PluginManager :=
  match get pm pluginId with
  | Some plugin =>
      let vars := default ∅ (userVariables (userConfig plugin)) in
      let config :=
        {| userVariables := Some (setProperty key value vars);
           isEnabled := isEnabled (userConfig plugin) |} in
      savePluginConfig (mutateUserConfig pm pluginId config) pluginId config set
  | None => (Returned (), pm)
  end.

(** [setPluginEnabled] *)
Definition setPluginEnabled (pm : PluginManager) (pluginId : string)
  (isEnabled' : bool) (set : Outcome ()) : Outcome () * PluginManager :=
  match get pm pluginId with
  | Some plugin =>
      let config :=
        {| userVariables := userVariables (userConfig plugin);
           isEnabled := Some isEnabled' |} in
      savePluginConfig (mutateUserConfig pm pluginId config) pluginId config set
  | None => (Returned (), pm)
  end.

(** [getEnvForPlugin(pluginId).getUserVariables()] *)
Definition getUserVariables (pm : PluginManager) (pluginId : string)
  : Outcome (gmap string string) :=
  match get pm pluginId with
  | None => Threw (mkJsError ("Plugin with id " +:+ pluginId +:+ " not found."))
  | Some plugin => Returned (default ∅ (userVariables (userConfig plugin)))
  end.

(** [getActivePlugins] *)
Definition getActivePlugins (pm : PluginManager) : list ManagedPlugin :=
  keep (fun p => negb (bool_decide (isEnabled (userConfig p) = Some false))
                 && bool_decide (is_Some (instance p)))
       (map snd (plugins pm)).

End HelpersPluginManager.

(** ** [helpers/searchAll.ts] *)

Module SearchAll.

Inductive SearchAllType := songs | artists.

Definition mapSearchType (type : SearchAllType) : ICommon.SupportMediaType :=
  match type with
  | songs => ICommon.music
  | artists => ICommon.artist
  end.

(** The [Track] fields that [searchAll] fills in. *)
Record Track := mkTrack {
  id : string;
  title : option string;
  artist : option string;
  artwork : option string;
  url : string;
  platform : string;
  isArtist : option bool;
}.

Record SearchAllResult := mkResult {
  data : list Track;
  hasMore : bool;
}.

(** The callback of [result.data.map]. *)
Definition toTrack (plugin : HelpersPluginManager.ManagedPlugin)
  (pluginSearchType : ICommon.SupportMediaType) (item : MediaItem) : Track :=
  {| id := item_id item;
     title := js_or (item_title item) (item_name item);
     artist := js_or (item_artist item) (item_name item);
     artwork := js_or (item_artwork item) (item_avatar item);
     url := default "" (js_or (item_url item) (Some ""));
     platform :=
       HelpersPluginManager.platform (HelpersPluginManager.spread plugin);
     isArtist :=
       if ICommon.SupportMediaType_eqb pluginSearchType ICommon.artist then Some true else None |}.

(** [plugin.instance?.search] *)
Definition instanceSearch (plugin : HelpersPluginManager.ManagedPlugin) :=
  match HelpersPluginManager.instance plugin with
  | Some inst => HelpersPluginManager.search inst
  | None => None
  end.

(** [plugin.userConfig.isEnabled !== false] *)
Definition notDisabled (plugin : HelpersPluginManager.ManagedPlugin) : bool :=
  negb (bool_decide
          (HelpersPluginManager.isEnabled
             (HelpersPluginManager.userConfig plugin) = Some false)).

(** The body of the [for] loop, on the loop's two variables
    [(aggregatedResults, hasMoreOverall)].  The elements of [result.data]
    are objects, as [IPlugin.ISearchResult] declares them, so the callback
    of [map] completes and the [try] block can only be left by the
    exception of [search], before either variable has been assigned. *)
Definition searchOne (searchText : string) (page : Z)
  (pluginSearchType : ICommon.SupportMediaType) (acc : list Track * bool)
  (plugin : HelpersPluginManager.ManagedPlugin) : Outcome (list Track * bool) :=
  match instanceSearch plugin with
  | Some search =>
      if notDisabled plugin then
        try_catch
          (result ← search searchText page pluginSearchType;
           match IPlugin.data result with
           | Some items =>
               if 0 <? Z.of_nat (length items) then
                 let hasMoreOverall :=
                   if bool_decide (IPlugin.isEnd result = Some false) then true
                   else snd acc in
                 let mappedData := map (toTrack plugin pluginSearchType) items in
                 mret (fst acc ++ mappedData, hasMoreOverall)
               else mret acc
           | None => mret acc
           end)
          (fun _ => mret acc)
      else mret acc
  | None => mret acc
  end.

Definition sameTrack (track t : Track) : bool :=
  String.eqb (id t) (id track) && String.eqb (platform t) (platform track).

(** The de-duplicating [filter] (lines 91-93). *)
Definition uniqueResults (aggregatedResults : list Track) : list Track :=
  js_filter
    (fun track index self => index =? findIndex (sameTrack track) self)
    aggregatedResults.

(** The loop over [activePlugins], from empty results. *)
Definition aggregate (pm : HelpersPluginManager.PluginManager)
  (searchText : string) (page : Z) (type : SearchAllType)
  : Outcome (list Track * bool) :=
  forEachM (searchOne searchText page (mapSearchType type))
    (HelpersPluginManager.getActivePlugins pm) ([], false).

(** [searchAll] *)
Definition searchAll (pm : HelpersPluginManager.PluginManager)
  (searchText : string) (page : Z) (type : SearchAllType)
  : Outcome SearchAllResult :=
  acc ← aggregate pm searchText page type;
  mret {| data := uniqueResults (fst acc); hasMore := snd acc |}.

End SearchAll.


(** ** [plugins/core/PluginRegistry.ts]: the entry points around
    [installPlugin] and [loadPlugin] *)

(** [String.prototype.endsWith] *)
Definition endsWith (s suffix : string) : bool :=
  let n := String.length s in
  let m := String.length suffix in
  (m <=? n)%nat && String.eqb (substring (n - m) m s) suffix.

Module PluginRegistryEntry.

(** [getPluginByHash] *)
Definition getPluginByHash (reg : PluginRegistry.Registry) (h : string)
  : option PluginRegistry.IRegisteredPlugin :=
  find (PluginRegistry.hasHash h) (PluginRegistry.getAllPlugins reg).

(** The result built in the [catch] clauses: the message is the prefix
    followed by [e?.message ?? e]. *)
Definition failed (prefix : string) (e : JsError)
  : PluginRegistry.IInstallPluginResult :=
  {| PluginRegistry.success := false;
     PluginRegistry.message := Some (prefix +:+ js_message e);
     PluginRegistry.pluginName := None;
     PluginRegistry.pluginHash := None |}.

Section Entry.
Variable host : PluginLoader.Host.

(** [installPluginFromLocalFile]; [readFile] is how the awaited
    [readFile(pluginPath, 'utf8')] settles.  The promise of [installPlugin]
    is returned without being awaited, so the [catch] clause covers the
    read only. *)
Definition installPluginFromLocalFile (reg : PluginRegistry.Registry)
  (pluginPath : string) (config : option PluginRegistry.IInstallPluginConfig)
  (readFile : Outcome string) (nanoid1 nanoid2 : string) (copyFile : Outcome ())
  : Outcome PluginRegistry.IInstallPluginResult * PluginRegistry.Registry :=
  match readFile with
  | Returned pluginCode =>
      PluginRegistry.installPlugin host reg pluginCode pluginPath config
        nanoid1 nanoid2 copyFile
  | Threw e => (Returned (failed "Failed to install plugin: " e), reg)
  end.

(** [installPluginFromUrl]; [get] is how the awaited [axios.get(url)]
    settles, with [response.data] as its value.  The url is what
    [installPlugin] receives as the path. *)
Definition installPluginFromUrl (reg : PluginRegistry.Registry)
  (url : string) (config : option PluginRegistry.IInstallPluginConfig)
  (get : Outcome string) (nanoid1 nanoid2 : string) (copyFile : Outcome ())
  : Outcome PluginRegistry.IInstallPluginResult * PluginRegistry.Registry :=
  match get with
  | Returned pluginCode =>
      PluginRegistry.installPlugin host reg pluginCode url config
        nanoid1 nanoid2 copyFile
  | Threw e => (Returned (failed "Failed to download plugin: " e), reg)
  end.

(** One entry of the directory listing, with what the environment answers
    when the entry is loaded: how [readFile] settles and what [nanoid()]
    returns. *)
Record ReadDirItem := mkReadDirItem {
  isFile : bool;
  name : option string;
  path : string;
  readFile : Outcome string;
  nanoid : string;
}.

(** The condition of the [if] in the loop of [initialize]. *)
Definition recognised (item : ReadDirItem) : bool :=
  isFile item
  && ((match name item with Some n => endsWith n ".js" | None => false end)
      || endsWith (path item) ".js").

(** The loop of [initialize]: the first read that fails ends it. *)
Fixpoint loadAll (reg : PluginRegistry.Registry) (items : list ReadDirItem)
  : Outcome () * PluginRegistry.Registry :=
  match items with
  | [] => (Returned (), reg)
  | item :: rest =>
      if recognised item then
        match readFile item with
        | Returned pluginCode =>
            loadAll (PluginRegistry.loadPlugin host reg pluginCode (path item)
                       (nanoid item)) rest
        | Threw e => (Threw e, reg)
        end
      else loadAll reg rest
  end.

(** The registry object: its lists and its [initialized] flag. *)
Record Instance := mkInstance {
  registry : PluginRegistry.Registry;
  initialized : bool;
}.

(** [initialize]; [readDir] is how the awaited [readDir(pathConst.pluginPath)]
    settles.  The [catch] clause shows a toast, logs and throws again. *)
Definition initialize (this : Instance) (readDir : Outcome (list ReadDirItem))
  : Outcome () * Instance :=
  if initialized this then (Returned (), this)
  else
    match readDir with
    | Threw e => (Threw e, this)
    | Returned pluginsFileItems =>
        match loadAll (registry this) pluginsFileItems with
        | (Returned _, reg) =>
            (Returned (), {| registry := reg; initialized := true |})
        | (Threw e, reg) =>
            (Threw e, {| registry := reg; initialized := false |})
        end
    end.

End Entry.

End PluginRegistryEntry.

(** ** [plugins/core/PluginManager.ts]: album information *)

Module CorePluginManagerAlbum.

(** [if (result?.musicList) result.musicList.forEach(...)] *)
Definition stampAlbum (n : option string) (result : option IPlugin.IAlbumInfoResult)
  : option IPlugin.IAlbumInfoResult :=
  match result with
  | Some r =>
      Some {| IPlugin.albumItem := IPlugin.albumItem r;
              IPlugin.musicList :=
                match IPlugin.musicList r with
                | Some items => Some (map (CorePluginManager.stamp n) items)
                | None => None
                end |}
  | None => None
  end.

(** [getAlbumInfo]; [None] is [null]. *)
Definition getAlbumInfo (reg : PluginRegistry.Registry) (albumItem : MediaItem)
  (page : Z) : Outcome (option IPlugin.IAlbumInfoResult) :=
  match PluginRegistry.getPluginByName reg (item_platform albumItem) with
  | None => Returned None
  | Some plugin =>
      if negb (PluginRegistry.enabled (PluginRegistry.meta plugin))
      then Returned None
      else
        try_catch
          (match PluginLoader.getAlbumInfo (PluginRegistry.instance plugin) with
           | Some getAlbumInfo =>
               result ← getAlbumInfo albumItem page;
               mret (stampAlbum (PluginRegistry.name plugin) result)
           | None => Returned None
           end)
          (fun _ => Returned None)
  end.

End CorePluginManagerAlbum.

(** ** [helpers/PluginManager.ts]: configuration, adding, removing and
    loading plugins *)

(** [s.split('/').pop()]: what follows the last [/], the whole string when
    there is none. *)
Fixpoint lastSegmentFrom (cur s : string) : string :=
  match s with
  | EmptyString => cur
  | String c s' =>
      if Ascii.eqb c "/"%char then lastSegmentFrom EmptyString s'
      else lastSegmentFrom (cur +:+ String c EmptyString) s'
  end.

Definition lastSegment (s : string) : string := lastSegmentFrom EmptyString s.

(** The character class [a-zA-Z0-9]. *)
Definition isAlphaNumeric (c : Ascii.ascii) : bool :=
  let n := Ascii.N_of_ascii c in
  (((48 <=? n) && (n <=? 57)) || ((65 <=? n) && (n <=? 90))
   || ((97 <=? n) && (n <=? 122)))%N.

(** What one byte of the string contributes to
    [s.replace(/[^a-zA-Z0-9]/g, '_')].  The pattern has no [u] flag, so it
    is matched against the UTF-16 code units of the string, of which the
    model keeps the UTF-8 bytes: a character outside ASCII is one code unit
    when it is encoded in two or three bytes and two code units, a
    surrogate pair, when it is encoded in four.  The byte that leads the
    encoding accounts for the units, the bytes that continue it for none. *)
Definition replacementFor (c : Ascii.ascii) : string :=
  let n := Ascii.N_of_ascii c in
  if isAlphaNumeric c then String c EmptyString
  else if (n <? 128)%N then "_"
  else if (n <? 192)%N then ""
  else if (n <? 240)%N then "_"
  else "__".

(** [s.replace(/[^a-zA-Z0-9]/g, '_')] *)
Fixpoint replaceNonAlphaNumeric (s : string) : string :=
  match s with
  | EmptyString => EmptyString
  | String c s' => replacementFor c +:+ replaceNonAlphaNumeric s'
  end.

Module HelpersPluginManagerLifecycle.

(** The device the manager runs on: [FileSystem.documentDirectory] and
    what [eval] of a script leaves in [module.exports].  Exports without a
    [platform] are given the empty platform, which the code does not tell
    apart ([!pluginModule.platform]). *)
Record Device := mkDevice {
  documentDirectory : string;
  evalScript : string -> Outcome HelpersPluginManager.IPluginDefine;
}.

(** [{ userVariables: {}, isEnabled: true }] *)
Definition defaultConfig : HelpersPluginManager.PluginUserConfig :=
  {| HelpersPluginManager.userVariables := Some ∅;
     HelpersPluginManager.isEnabled := Some true |}.

(** The message of the error thrown for a script without platform; the
    word platform stands between double quotes. *)
Definition missingPlatform : string :=
  let quote := String (Ascii.ascii_of_nat 34) EmptyString in
  "Plugin script is missing " +:+ quote +:+ "platform" +:+ quote
  +:+ " identifier.".

Definition configKey (pluginId : string) : string :=
  HelpersPluginManager.PLUGIN_CONFIG_PREFIX +:+ pluginId.

(** [this.plugins.set(key, value)]: an existing key keeps its place. *)
Definition mapSet (key : string) (value : HelpersPluginManager.ManagedPlugin)
  (entries : list (string * HelpersPluginManager.ManagedPlugin))
  : list (string * HelpersPluginManager.ManagedPlugin) :=
  match find (HelpersPluginManager.hasKey key) entries with
  | Some _ =>
      updateFirst (HelpersPluginManager.hasKey key) (fun kv => (fst kv, value))
        entries
  | None => entries ++ [(key, value)]
  end.

(** [this.plugins.delete(key)] *)
Definition mapDelete (key : string)
  (entries : list (string * HelpersPluginManager.ManagedPlugin))
  : list (string * HelpersPluginManager.ManagedPlugin) :=
  keep (fun kv => negb (HelpersPluginManager.hasKey key kv)) entries.

(** [loadPluginConfig].  [read] tells whether [PersistStatus.get] and the
    [JSON.parse] of the stored text complete (a corrupted text makes
    [JSON.parse] throw); [remove] is how the [PersistStatus.remove] of the
    [catch] clause settles. *)
Definition loadPluginConfig (pm : HelpersPluginManager.PluginManager)
  (pluginId : string) (read remove : Outcome ())
  : Outcome HelpersPluginManager.PluginUserConfig
    * HelpersPluginManager.PluginManager :=
  match read with
  | Returned _ =>
      match HelpersPluginManager.persisted pm !! configKey pluginId with
      | Some config => (Returned config, pm)
      | None => (Returned defaultConfig, pm)
      end
  | Threw _ =>
      match remove with
      | Returned _ =>
          (Returned defaultConfig,
           {| HelpersPluginManager.plugins := HelpersPluginManager.plugins pm;
              HelpersPluginManager.persisted :=
                delete (configKey pluginId) (HelpersPluginManager.persisted pm) |})
      | Threw e => (Threw e, pm)
      end
  end.

(** What the environment answers during one [addPluginFromScript]: how
    [ensurePluginsDirectory], [writeAsStringAsync], the read and the remove
    of [loadPluginConfig] and [PersistStatus.set] settle, and [Date.now()]
    in decimal. *)
Record AddAnswers := mkAddAnswers {
  ensure : Outcome ();
  write : Outcome ();
  readConfig : Outcome ();
  removeConfig : Outcome ();
  saveConfig : Outcome ();
  now : string;
}.

Section Lifecycle.
Variable device : Device.

Definition PLUGINS_DIRECTORY : string := documentDirectory device +:+ "plugins/".

(** The file name that [addPluginFromScript] chooses. *)
Definition fileNameFor (pluginId : string) (filePathHint : option string)
  (now : string) : string :=
  let generated := replaceNonAlphaNumeric pluginId +:+ "_" +:+ now +:+ ".js" in
  if truthy filePathHint then
    let popped := lastSegment (default "" filePathHint) in
    if String.eqb popped "" then generated else popped
  else generated.

(** [addPluginFromScript]; the [catch] clause logs and throws again. *)
Definition addPluginFromScript (pm : HelpersPluginManager.PluginManager)
  (scriptContent : string) (filePathHint : option string) (answers : AddAnswers)
  : Outcome HelpersPluginManager.ManagedPlugin
    * HelpersPluginManager.PluginManager :=
  match evalScript device scriptContent with
  | Threw e => (Threw e, pm)
  | Returned pluginModule =>
      if String.eqb (HelpersPluginManager.platform pluginModule) "" then
        (Threw (mkJsError missingPlatform), pm)
      else
        let pluginId := HelpersPluginManager.platform pluginModule in
        match ensure answers with
        | Threw e => (Threw e, pm)
        | Returned _ =>
            let actualFilePath :=
              PLUGINS_DIRECTORY
              +:+ fileNameFor pluginId filePathHint (now answers) in
            match write answers with
            | Threw e => (Threw e, pm)
            | Returned _ =>
                match loadPluginConfig pm pluginId (readConfig answers)
                        (removeConfig answers) with
                | (Threw e, pm1) => (Threw e, pm1)
                | (Returned userConfig, pm1) =>
                    let managedPlugin :=
                      {| HelpersPluginManager.spread := pluginModule;
                         HelpersPluginManager.id := pluginId;
                         HelpersPluginManager.filePath := actualFilePath;
                         HelpersPluginManager.userConfig := userConfig;
                         HelpersPluginManager.instance := Some pluginModule |} in
                    let pm2 :=
                      {| HelpersPluginManager.plugins :=
                           mapSet pluginId managedPlugin
                             (HelpersPluginManager.plugins pm1);
                         HelpersPluginManager.persisted :=
                           HelpersPluginManager.persisted pm1 |} in
                    match HelpersPluginManager.savePluginConfig pm2 pluginId
                            userConfig (saveConfig answers) with
                    | (Threw e, pm3) => (Threw e, pm3)
                    | (Returned _, pm3) => (Returned managedPlugin, pm3)
                    end
                end
            end
        end
  end.

(** [removePlugin]; [deleteFile] and [remove] are how the awaited
    [FileSystem.deleteAsync] and [PersistStatus.remove] settle. *)
Definition removePlugin (pm : HelpersPluginManager.PluginManager)
  (pluginId : string) (deleteFile remove : Outcome ())
  : Outcome () * HelpersPluginManager.PluginManager :=
  match HelpersPluginManager.get pm pluginId with
  | None => (Returned (), pm)
  | Some plugin =>
      match deleteFile with
      | Threw e => (Threw e, pm)
      | Returned _ =>
          match remove with
          | Threw e => (Threw e, pm)
          | Returned _ =>
              (Returned (),
               {| HelpersPluginManager.plugins :=
                    mapDelete pluginId (HelpersPluginManager.plugins pm);
                  HelpersPluginManager.persisted :=
                    delete (configKey pluginId)
                      (HelpersPluginManager.persisted pm) |})
          end
      end
  end.

(** One file of the plugin directory, with what the environment answers
    when it is loaded. *)
Record PluginFile := mkPluginFile {
  fileName : string;
  readAsString : Outcome string;
  fileReadConfig : Outcome ();
  fileRemoveConfig : Outcome ();
}.

(** The body of the loop of [loadPlugins], with its [try] and [catch]:
    a file that cannot be read or evaluated, that exports no platform, or
    whose configuration cannot be loaded, is skipped. *)
Definition loadOne (pm : HelpersPluginManager.PluginManager) (file : PluginFile)
  : HelpersPluginManager.PluginManager :=
  if endsWith (fileName file) ".js" then
    match readAsString file with
    | Threw _ => pm
    | Returned scriptContent =>
        match evalScript device scriptContent with
        | Threw _ => pm
        | Returned pluginModule =>
            if String.eqb (HelpersPluginManager.platform pluginModule) "" then pm
            else
              let pluginId := HelpersPluginManager.platform pluginModule in
              match loadPluginConfig pm pluginId (fileReadConfig file)
                      (fileRemoveConfig file) with
              | (Threw _, pm1) => pm1
              | (Returned userConfig, pm1) =>
                  {| HelpersPluginManager.plugins :=
                       mapSet pluginId
                         {| HelpersPluginManager.spread := pluginModule;
                            HelpersPluginManager.id := pluginId;
                            HelpersPluginManager.filePath :=
                              PLUGINS_DIRECTORY +:+ fileName file;
                            HelpersPluginManager.userConfig := userConfig;
                            HelpersPluginManager.instance := Some pluginModule |}
                         (HelpersPluginManager.plugins pm1);
                     HelpersPluginManager.persisted :=
                       HelpersPluginManager.persisted pm1 |}
              end
        end
    end
  else pm.

(** [loadPlugins]; [ensure] and [readDirectory] are how
    [ensurePluginsDirectory] and [readDirectoryAsync] settle.  The directory
    is ensured before the map is cleared and outside every [try]. *)
Definition loadPlugins (pm : HelpersPluginManager.PluginManager)
  (ensure : Outcome ()) (readDirectory : Outcome (list PluginFile))
  : Outcome () * HelpersPluginManager.PluginManager :=
  match ensure with
  | Threw e => (Threw e, pm)
  | Returned _ =>
      let cleared :=
        {| HelpersPluginManager.plugins := [];
           HelpersPluginManager.persisted := HelpersPluginManager.persisted pm |} in
      match readDirectory with
      | Threw _ => (Returned (), cleared)
      | Returned pluginFiles => (Returned (), fold_left loadOne pluginFiles cleared)
      end
  end.

End Lifecycle.

End HelpersPluginManagerLifecycle.

(** ** [helpers/pluginDataFetchers.ts] *)

Module PluginDataFetchers.

(** [IMusic.IMusicSheetGroupItem] and its annotated form: a titled group
    of chart entries. *)
Record MusicSheetGroupItem := mkGroup {
  group_title : option string;
  group_platform : option string;
  group_data : list MediaItem;
}.

(** [IPlugin.IGetRecommendSheetTagsResult] and its annotated form. *)
Record RecommendSheetTagsResult := mkTags {
  tags_platform : option string;
  pinned : option (list MediaItem);
  tags_data : option (list MusicSheetGroupItem);
}.

(** [ICommon.PaginationResponse] *)
Record PaginationResponse := mkPage {
  page_isEnd : option bool;
  page_data : option (list MediaItem);
}.

(** The members of a plugin's [instance] object that the fetchers call.
    [HelpersPluginManager.IPluginDefine] lists the members that [searchAll]
    reads; [methods] below gives these other members of the same object. *)
Record OtherMethods := mkOtherMethods {
  getAlbumInfo : option (MediaItem -> Z -> Outcome (option IPlugin.IAlbumInfoResult));
  getMusicSheetInfo :
    option (MediaItem -> Z -> Outcome (option IPlugin.IAlbumInfoResult));
  getArtistWorks :
    option (MediaItem -> Z -> ICommon.SupportMediaType
            -> Outcome (option IPlugin.ISearchResult));
  getTopListDetail :
    option (MediaItem -> Z -> Outcome (option IPlugin.IAlbumInfoResult));
  importMusicItem : option (string -> Outcome (option MediaItem));
  importMusicSheet : option (string -> Outcome (option (list MediaItem)));
  getTopLists : option (Outcome (option (list MusicSheetGroupItem)));
  getRecommendSheetTags : option (Outcome (option RecommendSheetTagsResult));
  getRecommendSheetsByTag :
    option (MediaItem -> Z -> Outcome (option PaginationResponse));
}.

Section Fetchers.
Variable methods : HelpersPluginManager.IPluginDefine -> OtherMethods.

(** [plugin.instance?.m], for a member [m] of [OtherMethods]. *)
Definition member {M : Type} (m : OtherMethods -> option M)
  (plugin : HelpersPluginManager.ManagedPlugin) : option M :=
  match HelpersPluginManager.instance plugin with
  | Some inst => m (methods inst)
  | None => None
  end.

(** [plugin && plugin.instance?.m && plugin.userConfig.isEnabled !== false],
    giving the plugin and the member when it holds. *)
Definition usable {M : Type} (m : OtherMethods -> option M)
  (pm : HelpersPluginManager.PluginManager) (platform : string)
  : option (HelpersPluginManager.ManagedPlugin * M) :=
  match HelpersPluginManager.get pm platform with
  | Some plugin =>
      match member m plugin with
      | Some method =>
          if SearchAll.notDisabled plugin then Some (plugin, method) else None
      | None => None
      end
  | None => None
  end.

(** [fetchPluginAlbumInfo]; [None] is [null]. *)
Definition fetchPluginAlbumInfo (pm : HelpersPluginManager.PluginManager)
  (albumItemBase : MediaItem) (page : Z)
  : Outcome (option IPlugin.IAlbumInfoResult) :=
  if negb (truthy (item_platform albumItemBase)) then Returned None
  else
    match usable getAlbumInfo pm (default "" (item_platform albumItemBase)) with
    | Some (_, getAlbumInfo) =>
        try_catch (getAlbumInfo albumItemBase page) (fun _ => Returned None)
    | None => Returned None
    end.

(** [fetchPluginMusicSheetInfo] *)
Definition fetchPluginMusicSheetInfo (pm : HelpersPluginManager.PluginManager)
  (sheetItem : MediaItem) (page : Z)
  : Outcome (option IPlugin.IAlbumInfoResult) :=
  if negb (truthy (item_platform sheetItem)) then Returned None
  else
    match usable getMusicSheetInfo pm (default "" (item_platform sheetItem)) with
    | Some (_, getMusicSheetInfo) =>
        try_catch (getMusicSheetInfo sheetItem page) (fun _ => Returned None)
    | None => Returned None
    end.

(** [fetchPluginArtistWorks] *)
Definition fetchPluginArtistWorks (pm : HelpersPluginManager.PluginManager)
  (artistItem : MediaItem) (page : Z) (type : ICommon.SupportMediaType)
  : Outcome (option IPlugin.ISearchResult) :=
  if negb (truthy (item_platform artistItem)) then Returned None
  else
    match usable getArtistWorks pm (default "" (item_platform artistItem)) with
    | Some (_, getArtistWorks) =>
        try_catch (getArtistWorks artistItem page type) (fun _ => Returned None)
    | None => Returned None
    end.

(** [fetchPluginTopListDetail] *)
Definition fetchPluginTopListDetail (pm : HelpersPluginManager.PluginManager)
  (topListItem : MediaItem) (page : Z)
  : Outcome (option IPlugin.IAlbumInfoResult) :=
  if negb (truthy (item_platform topListItem)) then Returned None
  else
    match usable getTopListDetail pm (default "" (item_platform topListItem)) with
    | Some (_, getTopListDetail) =>
        try_catch (getTopListDetail topListItem page) (fun _ => Returned None)
    | None => Returned None
    end.

(** [if (!item.platform) item.platform = platform] *)
Definition stampIfMissing (platform : string) (item : MediaItem) : MediaItem :=
  if truthy (item_platform item) then item
  else
    {| item_id := item_id item;
       item_platform := Some platform;
       item_title := item_title item;
       item_name := item_name item;
       item_artist := item_artist item;
       item_artwork := item_artwork item;
       item_avatar := item_avatar item;
       item_url := item_url item |}.

(** [importMusicItemFromPlugin] *)
Definition importMusicItemFromPlugin (pm : HelpersPluginManager.PluginManager)
  (platform urlLike : string) : Outcome (option MediaItem) :=
  if String.eqb platform "" then Returned None
  else
    match usable importMusicItem pm platform with
    | Some (_, importMusicItem) =>
        try_catch
          (importMusicItem urlLike ≫= fun result : option MediaItem =>
           mret (stampIfMissing platform <$> result))
          (fun _ => Returned None)
    | None => Returned None
    end.

(** [importMusicSheetFromPlugin] *)
Definition importMusicSheetFromPlugin (pm : HelpersPluginManager.PluginManager)
  (platform urlLike : string) : Outcome (option (list MediaItem)) :=
  if String.eqb platform "" then Returned None
  else
    match usable importMusicSheet pm platform with
    | Some (_, importMusicSheet) =>
        try_catch
          (importMusicSheet urlLike ≫= fun result : option (list MediaItem) =>
           mret (map (stampIfMissing platform) <$> result))
          (fun _ => Returned None)
    | None => Returned None
    end.

(** [fetchPluginRecommendSheetsByTag]; [tag] is [None] for a missing tag. *)
Definition fetchPluginRecommendSheetsByTag
  (pm : HelpersPluginManager.PluginManager) (tag : option MediaItem) (page : Z)
  (platform : string) : Outcome (option PaginationResponse) :=
  if String.eqb platform "" then Returned None
  else
    match tag with
    | None => Returned None
    | Some tag =>
        if String.eqb (item_id tag) "" then Returned None
        else
          match usable getRecommendSheetsByTag pm platform with
          | Some (_, getRecommendSheetsByTag) =>
              try_catch
                (getRecommendSheetsByTag tag page
                 ≫= fun result : option PaginationResponse =>
                 mret ((fun r =>
                          {| page_isEnd := page_isEnd r;
                             page_data :=
                               map (stampIfMissing platform) <$> page_data r |})
                       <$> result))
                (fun _ => Returned None)
          | None => Returned None
          end
    end.

(** [{ ...item, platform: plugin.platform }] *)
Definition annotateItem (platform : string) (item : MediaItem) : MediaItem :=
  CorePluginManager.stamp (Some platform) item.

(** [{ ...group, platform: plugin.platform, data: group.data.map(...) }] *)
Definition annotateGroup (platform : string) (group : MusicSheetGroupItem)
  : MusicSheetGroupItem :=
  {| group_title := group_title group;
     group_platform := Some platform;
     group_data := map (annotateItem platform) (group_data group) |}.

(** The body of the loop of [fetchAllPluginsTopLists]. *)
Definition topListsOf (aggregatedTopLists : list MusicSheetGroupItem)
  (plugin : HelpersPluginManager.ManagedPlugin)
  : Outcome (list MusicSheetGroupItem) :=
  match member getTopLists plugin with
  | Some getTopLists =>
      if SearchAll.notDisabled plugin then
        try_catch
          (getTopLists ≫= fun topLists : option (list MusicSheetGroupItem) =>
           match topLists with
           | Some groups =>
               mret (aggregatedTopLists
                     ++ map (annotateGroup
                               (HelpersPluginManager.platform
                                  (HelpersPluginManager.spread plugin)))
                          groups)
           | None => mret aggregatedTopLists
           end)
          (fun _ => mret aggregatedTopLists)
      else mret aggregatedTopLists
  | None => mret aggregatedTopLists
  end.

(** [fetchAllPluginsTopLists] *)
Definition fetchAllPluginsTopLists (pm : HelpersPluginManager.PluginManager)
  : Outcome (list MusicSheetGroupItem) :=
  forEachM topListsOf (HelpersPluginManager.getActivePlugins pm) [].

(** The body of the loop of [fetchAllPluginsRecommendSheetTags]. *)
Definition tagsOf (aggregatedTags : list RecommendSheetTagsResult)
  (plugin : HelpersPluginManager.ManagedPlugin)
  : Outcome (list RecommendSheetTagsResult) :=
  match member getRecommendSheetTags plugin with
  | Some getRecommendSheetTags =>
      if SearchAll.notDisabled plugin then
        try_catch
          (getRecommendSheetTags
           ≫= fun tagsResult : option RecommendSheetTagsResult =>
           match tagsResult with
           | Some tags =>
               mret (aggregatedTags ++
                     [ {| tags_platform :=
                            Some (HelpersPluginManager.platform
                                    (HelpersPluginManager.spread plugin));
                          pinned := pinned tags;
                          tags_data := tags_data tags |} ])
           | None => mret aggregatedTags
           end)
          (fun _ => mret aggregatedTags)
      else mret aggregatedTags
  | None => mret aggregatedTags
  end.

(** [fetchAllPluginsRecommendSheetTags] *)
Definition fetchAllPluginsRecommendSheetTags
  (pm : HelpersPluginManager.PluginManager)
  : Outcome (list RecommendSheetTagsResult) :=
  forEachM tagsOf (HelpersPluginManager.getActivePlugins pm) [].

End Fetchers.

End PluginDataFetchers.

(** ** [plugins/builtin/LocalFilesPlugin.ts] *)

Module LocalFilesPlugin.

(** [item.$], the media extra, as far as the plugin reads and writes it. *)
Record MediaExtra := mkExtra { localPath : option string }.

Record LocalMusicItem := mkLocalItem {
  extra : option MediaExtra;
  url : option string;
}.

(** [item.$?.localPath] *)
Definition extraLocalPath (item : LocalMusicItem) : option string :=
  match extra item with
  | Some x => localPath x
  | None => None
  end.

(** [v || null] *)
Definition orNull (v : option string) : option string :=
  if truthy v then v else None.

(** [getLocalPath]: [item.$?.localPath || item.url || null] *)
Definition getLocalPath (item : LocalMusicItem) : option string :=
  orNull (js_or (extraLocalPath item) (url item)).

(** [addFileScheme] *)
Definition addFileScheme (path : string) : string :=
  if String.prefix "file://" path then path else "file://" +:+ path.

(** [getMediaExtraProperty(item, 'localPath')] *)
Definition getMediaExtraProperty (item : LocalMusicItem) : option string :=
  orNull (extraLocalPath item).

(** [patchMediaExtra(item, { localPath })] *)
Definition patchMediaExtra (item : LocalMusicItem) (value : option string)
  : LocalMusicItem :=
  {| extra := Some {| localPath := value |}; url := url item |}.

(** [getMediaSource]; [exists] is how the awaited [exists(localPath)]
    settles when it is called.  The result pairs what the call returns or
    throws with the item as the call leaves it.  [addFileScheme(undefined)]
    throws a [TypeError]. *)
Definition getMediaSource (musicItem : LocalMusicItem) (quality : string)
  (exists_ : Outcome bool)
  : Outcome (option IPlugin.IMediaSourceResult) * LocalMusicItem :=
  let localPathInMediaExtra := getMediaExtraProperty musicItem in
  let fallThrough :=
    let item :=
      if truthy localPathInMediaExtra then patchMediaExtra musicItem None
      else musicItem in
    if String.eqb quality "128k" then
      match js_or (extraLocalPath item) (url item) with
      | Some path => (Returned (Some {| IPlugin.url := addFileScheme path |}), item)
      | None =>
          (Threw (mkJsError "Cannot read properties of undefined"), item)
      end
    else (Returned None, item) in
  match getLocalPath musicItem with
  | Some path =>
      match exists_ with
      | Threw e => (Threw e, musicItem)
      | Returned true =>
          (Returned (Some {| IPlugin.url := addFileScheme path |}),
           if js_eq localPathInMediaExtra (Some path) then musicItem
           else patchMediaExtra musicItem (Some path))
      | Returned false => fallThrough
      end
  | None => fallThrough
  end.

End LocalFilesPlugin.
(** ** A reference environment

    A concrete [Host] on which the definitions above can be evaluated:
    [semver] restricted to plain MAJOR.MINOR.PATCH versions, and a script
    engine that knows a handful of sample sources. *)

Module Reference.

Definition digit (a : Ascii.ascii) : option N :=
  let n := Ascii.N_of_ascii a in
  if ((48 <=? n) && (n <=? 57))%N then Some (n - 48)%N else None.

Fixpoint number (s : string) (acc : N) : option N :=
  match s with
  | EmptyString => Some acc
  | String a s' =>
      match digit a with
      | Some d => number s' (acc * 10 + d)%N
      | None => None
      end
  end.

Fixpoint fields (s cur : string) : list string :=
  match s with
  | EmptyString => [cur]
  | String a s' =>
      if Ascii.eqb a "."%char then cur :: fields s' EmptyString
      else fields s' (cur +:+ String a EmptyString)
  end.

Definition component (s : string) : option N :=
  if String.eqb s "" then None else number s 0%N.

Definition parse (v : string) : option (N * N * N) :=
  match fields v EmptyString with
  | [a; b; c] =>
      match component a, component b, component c with
      | Some x, Some y, Some z => Some (x, y, z)
      | _, _, _ => None
      end
  | _ => None
  end.

Definition ordering (c : comparison) : Z :=
  match c with Lt => -1 | Eq => 0 | Gt => 1 end.

(** [semver.compare(a, b)] on plain versions. *)
Definition compare (a b : string) : Outcome Z :=
  match parse a, parse b with
  | Some (x1, y1, z1), Some (x2, y2, z2) =>
      Returned (ordering
        match (x1 ?= x2)%N with
        | Eq => match (y1 ?= y2)%N with Eq => (z1 ?= z2)%N | c => c end
        | c => c
        end)
  | _, _ => Threw (mkJsError "Invalid Version")
  end.

(** [semver.satisfies(version, range)] when the range is a plain version:
    only that version satisfies it; a malformed range satisfies nothing. *)
Definition satisfies (v range : string) : bool :=
  match compare v range with
  | Returned 0 => true
  | _ => false
  end.

Definition bare (p v : option string) : PluginLoader.IPluginInterface :=
  {| PluginLoader.platform := p;
     PluginLoader.version := v;
     PluginLoader.author := None;
     PluginLoader.supportedSearchType := None;
     PluginLoader.userVariables := None;
     PluginLoader.search := None;
     PluginLoader.getMediaSource := None;
     PluginLoader.getAlbumInfo := None |}.

Definition sourceA1 : string := "module.exports = { platform: 'A', version: '1.0.0' }".
Definition sourceA2 : string := "module.exports = { platform: 'A', version: '2.0.0' }".
Definition sourceA3 : string := "module.exports = { platform: 'A', version: '3.0.0' }".
Definition sourceB : string := "module.exports = { platform: 'B' }".
Definition sourceNoPlatform : string := "module.exports = { version: '2.0.0' }".
Definition sourceEmpty : string := "module.exports = {}".
Definition sourceBroken : string := "module.exports = {".

Definition sources : list (string * PluginLoader.EvalResult) :=
  [ (sourceA1, PluginLoader.Yields (Some (bare (Some "A") (Some "1.0.0"))));
    (sourceA2, PluginLoader.Yields (Some (bare (Some "A") (Some "2.0.0"))));
    (sourceA3, PluginLoader.Yields (Some (bare (Some "A") (Some "3.0.0"))));
    (sourceB, PluginLoader.Yields (Some (bare (Some "B") None)));
    (sourceNoPlatform, PluginLoader.Yields (Some (bare None (Some "2.0.0"))));
    (sourceEmpty, PluginLoader.Yields (Some (bare None None))) ].

Definition evalSource (code : string) : PluginLoader.EvalResult :=
  match find (fun kv => String.eqb (fst kv) code) sources with
  | Some kv => snd kv
  | None => PluginLoader.Raises (PluginLoader.plainError "Unexpected end of input")
  end.

(** The application at version [appVersion]. *)
Definition host (appVersion : string) : PluginLoader.Host :=
  {| PluginLoader.evalSource := evalSource;
     PluginLoader.getVersion := appVersion;
     PluginLoader.satisfies := satisfies;
     PluginLoader.compare := compare;
     PluginLoader.pluginPath := "/data/plugins/" |}.

End Reference.


(** ** Sample registries and items *)

Module Sample.

Definition entry (n h : string) (v : option string) (enabled : bool)
  : PluginRegistry.IRegisteredPlugin :=
  {| PluginRegistry.instance := Reference.bare (Some n) v;
     PluginRegistry.state := PluginLoader.Mounted;
     PluginRegistry.hash := h;
     PluginRegistry.name := Some n;
     PluginRegistry.path := "/data/plugins/" +:+ h +:+ ".js";
     PluginRegistry.meta :=
       {| PluginRegistry.enabled := enabled;
          PluginRegistry.order := 0;
          PluginRegistry.userVariables := ∅ |} |}.

(** A built-in entry, an enabled installed entry [A] at version 3.0.0 and a
    disabled installed entry [B]; none implements [getMediaSource]. *)
Definition registry : PluginRegistry.Registry :=
  {| PluginRegistry.plugins :=
       [entry "A" "hashA" (Some "3.0.0") true; entry "B" "hashB" None false];
     PluginRegistry.builtinPlugins := [entry "local" "hashL" (Some "1.0.0") true];
     PluginRegistry.events := [] |}.

(** A registry whose installed entry [A] declares version 2.0.0. *)
Definition upgradable : PluginRegistry.Registry :=
  {| PluginRegistry.plugins := [entry "A" "hashA" (Some "2.0.0") true];
     PluginRegistry.builtinPlugins := [];
     PluginRegistry.events := [] |}.

Definition song (p : string) (u : option string) : MediaItem :=
  {| item_id := "42";
     item_platform := Some p;
     item_title := Some "Song";
     item_name := None;
     item_artist := Some "Singer";
     item_artwork := None;
     item_avatar := None;
     item_url := u |}.

(** A manager holding one plugin [A] whose user variable [token] is set. *)
Definition managed (n : string) (vars : option (gmap string string))
  (isEnabled : option bool) (inst : option HelpersPluginManager.IPluginDefine)
  : HelpersPluginManager.ManagedPlugin :=
  {| HelpersPluginManager.spread :=
       {| HelpersPluginManager.platform := n;
          HelpersPluginManager.search := None |};
     HelpersPluginManager.id := n;
     HelpersPluginManager.filePath := "/documents/plugins/" +:+ n +:+ ".js";
     HelpersPluginManager.userConfig :=
       {| HelpersPluginManager.userVariables := vars;
          HelpersPluginManager.isEnabled := isEnabled |};
     HelpersPluginManager.instance := inst |}.

Definition manager : HelpersPluginManager.PluginManager :=
  {| HelpersPluginManager.plugins :=
       [("A", managed "A" (Some {[ "token" := "old" ]}) (Some true) None)];
     HelpersPluginManager.persisted :=
       {[ "plugin_config_A" :=
            {| HelpersPluginManager.userVariables := Some {[ "token" := "old" ]};
               HelpersPluginManager.isEnabled := Some true |} ]} |}.

Definition quotaExceeded : JsError := mkJsError "QuotaExceededError".

(** Three enabled providers: [A] answers with [searchA], [B] returns no
    item, [C] throws. *)
Definition item (i t : string) : MediaItem :=
  {| item_id := i;
     item_platform := None;
     item_title := Some t;
     item_name := None;
     item_artist := Some "Singer";
     item_artwork := None;
     item_avatar := None;
     item_url := None |}.

Definition provider (n : string)
  (search : string -> Z -> ICommon.SupportMediaType -> Outcome IPlugin.ISearchResult)
  : HelpersPluginManager.ManagedPlugin :=
  let define :=
    {| HelpersPluginManager.platform := n;
       HelpersPluginManager.search := Some search |} in
  {| HelpersPluginManager.spread := define;
     HelpersPluginManager.id := n;
     HelpersPluginManager.filePath := "/documents/plugins/" +:+ n +:+ ".js";
     HelpersPluginManager.userConfig :=
       {| HelpersPluginManager.userVariables := Some ∅;
          HelpersPluginManager.isEnabled := Some true |};
     HelpersPluginManager.instance := Some define |}.

Definition twoItems : IPlugin.ISearchResult :=
  {| IPlugin.isEnd := Some false;
     IPlugin.data := Some [item "1" "One"; item "2" "Two"] |}.

Definition sameItemTwice : IPlugin.ISearchResult :=
  {| IPlugin.isEnd := Some false;
     IPlugin.data := Some [item "1" "One"; item "1" "One, live"] |}.

Definition noItems : IPlugin.ISearchResult :=
  {| IPlugin.isEnd := None; IPlugin.data := Some [] |}.

Definition networkError : JsError := mkJsError "Network Error".

Definition providerA (result : IPlugin.ISearchResult) :=
  provider "A" (fun _ _ _ => Returned result).
Definition providerB := provider "B" (fun _ _ _ => Returned noItems).
Definition providerC := provider "C" (fun _ _ _ => Threw networkError).

Definition threeProviders (result : IPlugin.ISearchResult)
  : HelpersPluginManager.PluginManager :=
  {| HelpersPluginManager.plugins :=
       [("A", providerA result); ("B", providerB); ("C", providerC)];
     HelpersPluginManager.persisted := ∅ |}.

End Sample.

(** ** A sample device for [helpers/PluginManager.ts] *)

Module SampleDevice.

Definition scriptA : string := "module.exports = { platform: 'A' }".
Definition scriptC : string := "module.exports = { platform: 'C' }".
Definition scriptNoPlatform : string := "module.exports = {}".

Definition define (n : string) : HelpersPluginManager.IPluginDefine :=
  {| HelpersPluginManager.platform := n; HelpersPluginManager.search := None |}.

Definition evalScript (script : string)
  : Outcome HelpersPluginManager.IPluginDefine :=
  if String.eqb script scriptA then Returned (define "A")
  else if String.eqb script scriptC then Returned (define "C")
  else if String.eqb script scriptNoPlatform then Returned (define "")
  else Threw (mkJsError "Unexpected token").

Definition device : HelpersPluginManagerLifecycle.Device :=
  {| HelpersPluginManagerLifecycle.documentDirectory := "/documents/";
     HelpersPluginManagerLifecycle.evalScript := evalScript |}.

(** The environment answering every request of [addPluginFromScript]. *)
Definition allFine : HelpersPluginManagerLifecycle.AddAnswers :=
  {| HelpersPluginManagerLifecycle.ensure := Returned ();
     HelpersPluginManagerLifecycle.write := Returned ();
     HelpersPluginManagerLifecycle.readConfig := Returned ();
     HelpersPluginManagerLifecycle.removeConfig := Returned ();
     HelpersPluginManagerLifecycle.saveConfig := Returned ();
     HelpersPluginManagerLifecycle.now := "1700000000000" |}.

(** The same, except that the final [PersistStatus.set] fails. *)
Definition saveFails : HelpersPluginManagerLifecycle.AddAnswers :=
  {| HelpersPluginManagerLifecycle.ensure := Returned ();
     HelpersPluginManagerLifecycle.write := Returned ();
     HelpersPluginManagerLifecycle.readConfig := Returned ();
     HelpersPluginManagerLifecycle.removeConfig := Returned ();
     HelpersPluginManagerLifecycle.saveConfig := Threw Sample.quotaExceeded;
     HelpersPluginManagerLifecycle.now := "1700000000000" |}.

End SampleDevice.
(** ** Vocabulary of the properties *)

(** A source fails structural validation when it does not yield an object
    with a non-empty [platform]. *)
Definition failsStructuralValidation (r : PluginLoader.EvalResult) : Prop :=
  match r with
  | PluginLoader.Yields (Some inst) => truthy (PluginLoader.platform inst) = false
  | _ => True
  end.

(** The failure reaches the [catch] clause of [loadFromCode] as an
    ordinary error: a raised value has no [errorReason] or [instance] of its
    own, and an object that was yielded is not rejected by the version check
    that [validatePlugin] makes before it looks at [platform]. *)
Definition ordinaryFailure (host : PluginLoader.Host) (r : PluginLoader.EvalResult)
  : Prop :=
  match r with
  | PluginLoader.Raises e =>
      PluginLoader.thrown_errorReason e = None
      /\ PluginLoader.thrown_instance e = None
  | PluginLoader.Yields None => True
  | PluginLoader.Yields (Some inst) =>
      truthy (PluginLoader.version inst) = false
      \/ PluginLoader.satisfies host (PluginLoader.getVersion host)
           (default "" (PluginLoader.version inst)) = true
  end.

(** The calls that change the registry, each with what its environment
    answers during the call. *)
Inductive Call :=
| LoadPlugin (pluginCode pluginPath nanoid : string)
| InstallPlugin (pluginCode pluginPath : string)
    (config : option PluginRegistry.IInstallPluginConfig)
    (nanoid1 nanoid2 : string) (copyFile : Outcome ())
| SetPluginEnabled (name : string) (enabled : bool).

(** The registry after one call has settled, whether it returned or threw. *)
Definition perform (host : PluginLoader.Host) (reg : PluginRegistry.Registry)
  (call : Call) : PluginRegistry.Registry :=
  match call with
  | LoadPlugin pluginCode pluginPath nanoid =>
      PluginRegistry.loadPlugin host reg pluginCode pluginPath nanoid
  | InstallPlugin pluginCode pluginPath config nanoid1 nanoid2 copyFile =>
      snd (PluginRegistry.installPlugin host reg pluginCode pluginPath config
             nanoid1 nanoid2 copyFile)
  | SetPluginEnabled name enabled =>
      PluginRegistry.setPluginEnabled reg name enabled
  end.

(** Calls made one after the other, each settled before the next starts. *)
Definition performAll (host : PluginLoader.Host) (calls : list Call)
  (reg : PluginRegistry.Registry) : PluginRegistry.Registry :=
  fold_left (perform host) calls reg.

(** The registry as its constructor leaves it: the built-in entries and no
    installed entry. *)
Definition freshRegistry (builtins : list PluginRegistry.IRegisteredPlugin)
  : PluginRegistry.Registry :=
  {| PluginRegistry.plugins := [];
     PluginRegistry.builtinPlugins := builtins;
     PluginRegistry.events := [] |}.

Definition installedNames (reg : PluginRegistry.Registry) : list (option string) :=
  map PluginRegistry.name (PluginRegistry.plugins reg).

(** Reading one user variable of a plugin, as the plugin itself does,
    from [getEnvForPlugin(pluginId).getUserVariables()]: the property [key]
    that the object of variables holds itself, [None] when it holds no
    property of that name (what [Object.prototype] lends every object is
    no user variable). *)
Definition readUserVariable (pm : HelpersPluginManager.PluginManager)
  (pluginId key : string) : Outcome (option string) :=
  vars ← HelpersPluginManager.getUserVariables pm pluginId;
  mret (vars !! key).

(** What one plugin adds to the two variables of the loop in [searchAll]:
    the tracks it contributes, and whether it contributed tracks while
    reporting [isEnd === false]. *)
Definition contribution (searchText : string) (page : Z)
  (pluginSearchType : ICommon.SupportMediaType)
  (plugin : HelpersPluginManager.ManagedPlugin) : list SearchAll.Track * bool :=
  match SearchAll.instanceSearch plugin with
  | Some search =>
      if SearchAll.notDisabled plugin then
        match search searchText page pluginSearchType with
        | Returned result =>
            match IPlugin.data result with
            | Some (item :: items) =>
                (map (SearchAll.toTrack plugin pluginSearchType) (item :: items),
                 bool_decide (IPlugin.isEnd result = Some false))
            | _ => ([], false)
            end
        | Threw _ => ([], false)
        end
      else ([], false)
  | None => ([], false)
  end.

(** A provider explicitly reports more: its search returned at least one
    item together with [isEnd === false]. *)
Definition reportsMore (searchText : string) (page : Z)
  (pluginSearchType : ICommon.SupportMediaType)
  (plugin : HelpersPluginManager.ManagedPlugin) : Prop :=
  exists search result item items,
    SearchAll.instanceSearch plugin = Some search
    /\ search searchText page pluginSearchType = Returned result
    /\ IPlugin.data result = Some (item :: items)
    /\ IPlugin.isEnd result = Some false.

(** The pair that the de-duplication compares. *)
Definition trackKey (t : SearchAll.Track) : string * string :=
  (SearchAll.id t, SearchAll.platform t).

(** De-duplication as the specification words it: going through the list
    in order, keep a track unless one with the same pair was seen before. *)
Fixpoint firstSeen (seen l : list SearchAll.Track) : list SearchAll.Track :=
  match l with
  | [] => []
  | t :: l' =>
      if existsb (SearchAll.sameTrack t) seen then firstSeen (seen ++ [t]) l'
      else t :: firstSeen (seen ++ [t]) l'
  end.

(** An entry with its [enabled] flag put aside: what identifies the entry
    and its unit. *)
Definition sansEnabled (p : PluginRegistry.IRegisteredPlugin)
  : PluginRegistry.IRegisteredPlugin :=
  PluginRegistry.setEnabled true p.

(** What [loadPlugin] and [installPlugin] establish for an entry they
    push: the unit is mounted and the entry is named after the unit's
    non-empty platform. *)
Definition wellFormed (p : PluginRegistry.IRegisteredPlugin) : Prop :=
  PluginRegistry.state p = PluginLoader.Mounted
  /\ truthy (PluginRegistry.name p) = true
  /\ PluginRegistry.name p = PluginLoader.platform (PluginRegistry.instance p).

Definition installedInvariant (reg : PluginRegistry.Registry) : Prop :=
  Forall wellFormed (PluginRegistry.plugins reg)
  /\ NoDup (map PluginRegistry.hash (PluginRegistry.plugins reg)).

(** The record of results after one task of the host's [search] has
    settled. *)
Definition filed (query : string) (page : Z) (type : ICommon.SupportMediaType)
  (results : gmap string IPlugin.ISearchResult)
  (plugin : PluginRegistry.IRegisteredPlugin) : gmap string IPlugin.ISearchResult :=
  match PluginLoader.search (PluginRegistry.instance plugin) with
  | Some search =>
      match search query page type with
      | Returned raw =>
          setProperty (CorePluginManager.resultKey plugin)
            (CorePluginManager.stampResult (PluginRegistry.name plugin) raw)
            results
      | Threw _ => results
      end
  | None => results
  end.

(** The manager with the plugin of one id taken out of its map. *)
Definition without (pm : HelpersPluginManager.PluginManager) (pluginId : string)
  : HelpersPluginManager.PluginManager :=
  {| HelpersPluginManager.plugins :=
       HelpersPluginManagerLifecycle.mapDelete pluginId
         (HelpersPluginManager.plugins pm);
     HelpersPluginManager.persisted := HelpersPluginManager.persisted pm |}.

(** What the map of the manager satisfies: a key occurs once, is not
    empty, and is the id and the platform of the plugin held under it, whose
    instance is the evaluated module. *)
Definition keyedByPlatform (kv : string * HelpersPluginManager.ManagedPlugin)
  : Prop :=
  fst kv <> ""
  /\ HelpersPluginManager.id (snd kv) = fst kv
  /\ HelpersPluginManager.platform (HelpersPluginManager.spread (snd kv)) = fst kv
  /\ HelpersPluginManager.instance (snd kv)
     = Some (HelpersPluginManager.spread (snd kv)).

Definition wellKeyed (pm : HelpersPluginManager.PluginManager) : Prop :=
  NoDup (map fst (HelpersPluginManager.plugins pm))
  /\ Forall keyedByPlatform (HelpersPluginManager.plugins pm).

(** The calls that change the manager, each with what its environment
    answers during the call. *)
Inductive ManagerCall :=
| CallLoadPlugins (ensure : Outcome ())
    (readDirectory : Outcome (list HelpersPluginManagerLifecycle.PluginFile))
| CallAddPluginFromScript (scriptContent : string) (filePathHint : option string)
    (answers : HelpersPluginManagerLifecycle.AddAnswers)
| CallRemovePlugin (pluginId : string) (deleteFile remove : Outcome ())
| CallSetPluginEnabled (pluginId : string) (isEnabled : bool) (set : Outcome ())
| CallSetPluginUserVariable (pluginId key value : string) (set : Outcome ()).

(** The manager after one call has settled, whether it returned or threw. *)
Definition manage (device : HelpersPluginManagerLifecycle.Device)
  (pm : HelpersPluginManager.PluginManager) (call : ManagerCall)
  : HelpersPluginManager.PluginManager :=
  match call with
  | CallLoadPlugins ensure readDirectory =>
      snd (HelpersPluginManagerLifecycle.loadPlugins device pm ensure
             readDirectory)
  | CallAddPluginFromScript scriptContent filePathHint answers =>
      snd (HelpersPluginManagerLifecycle.addPluginFromScript device pm
             scriptContent filePathHint answers)
  | CallRemovePlugin pluginId deleteFile remove =>
      snd (HelpersPluginManagerLifecycle.removePlugin pm pluginId deleteFile
             remove)
  | CallSetPluginEnabled pluginId isEnabled set =>
      snd (HelpersPluginManager.setPluginEnabled pm pluginId isEnabled set)
  | CallSetPluginUserVariable pluginId key value set =>
      snd (HelpersPluginManager.setPluginUserVariable pm pluginId key value set)
  end.

Definition manageAll (device : HelpersPluginManagerLifecycle.Device)
  (calls : list ManagerCall) (pm : HelpersPluginManager.PluginManager)
  : HelpersPluginManager.PluginManager :=
  fold_left (manage device) calls pm.

(** The manager as its constructor leaves it before [loadPlugins] has
    run: an empty map, over whatever the durable store holds. *)
Definition newManager (store : gmap string HelpersPluginManager.PluginUserConfig)
  : HelpersPluginManager.PluginManager :=
  {| HelpersPluginManager.plugins := [];
     HelpersPluginManager.persisted := store |}.

(** A plugin of the map that [loadPlugins] built from one of the files of
    the directory: a file named [*.js] that could be read and evaluated to
    a module with a platform, held under that platform. *)
Definition loadedFrom (device : HelpersPluginManagerLifecycle.Device)
  (files : list HelpersPluginManagerLifecycle.PluginFile)
  (pluginId : string) (plugin : HelpersPluginManager.ManagedPlugin) : Prop :=
  exists file scriptContent pluginModule,
    file ∈ files
    /\ endsWith (HelpersPluginManagerLifecycle.fileName file) ".js" = true
    /\ HelpersPluginManagerLifecycle.readAsString file = Returned scriptContent
    /\ HelpersPluginManagerLifecycle.evalScript device scriptContent
       = Returned pluginModule
    /\ HelpersPluginManager.platform pluginModule = pluginId
    /\ pluginId <> ""
    /\ HelpersPluginManager.spread plugin = pluginModule
    /\ HelpersPluginManager.instance plugin = Some pluginModule
    /\ HelpersPluginManager.filePath plugin
       = HelpersPluginManagerLifecycle.PLUGINS_DIRECTORY device
         +:+ HelpersPluginManagerLifecycle.fileName file.

(** The result of a fetcher that asks the plugin of one platform: it
    returned, and when what it returned is not [null], the platform is not
    empty and the value is what member [m] of the plugin held under that
    platform, which is not disabled, returned to [call]. *)
Definition answeredBy {R M : Type}
  (methods : HelpersPluginManager.IPluginDefine -> PluginDataFetchers.OtherMethods)
  (m : PluginDataFetchers.OtherMethods -> option M)
  (pm : HelpersPluginManager.PluginManager) (platform : string)
  (call : M -> Outcome (option R)) (result : Outcome (option R)) : Prop :=
  exists v,
    result = Returned v
    /\ forall x, v = Some x ->
         platform <> ""
         /\ exists plugin method,
              HelpersPluginManager.get pm platform = Some plugin
              /\ SearchAll.notDisabled plugin = true
              /\ PluginDataFetchers.member methods m plugin = Some method
              /\ call method = Returned (Some x).

(** [!!item.platform] *)
Definition hasPlatform (item : MediaItem) : Prop :=
  truthy (item_platform item) = true.

(** [item] is [original] as an import fetcher hands it on when asked for
    [platform]: under the platform the plugin gave it when it gave one,
    under [platform] otherwise, and with every other field as it was. *)
Definition handedOn (platform : string) (original item : MediaItem) : Prop :=
  item_platform item
  = (if truthy (item_platform original) then item_platform original
     else Some platform)
  /\ item_id item = item_id original
  /\ item_title item = item_title original
  /\ item_name item = item_name original
  /\ item_artist item = item_artist original
  /\ item_artwork item = item_artwork original
  /\ item_avatar item = item_avatar original
  /\ item_url item = item_url original.

(** The chart groups that one plugin adds to [fetchAllPluginsTopLists]. *)
Definition topListsContribution
  (methods : HelpersPluginManager.IPluginDefine -> PluginDataFetchers.OtherMethods)
  (plugin : HelpersPluginManager.ManagedPlugin)
  : list PluginDataFetchers.MusicSheetGroupItem :=
  match PluginDataFetchers.member methods PluginDataFetchers.getTopLists plugin with
  | Some (Returned (Some groups)) =>
      map (PluginDataFetchers.annotateGroup
             (HelpersPluginManager.platform (HelpersPluginManager.spread plugin)))
        groups
  | _ => []
  end.

(** The tag results that one plugin adds to
    [fetchAllPluginsRecommendSheetTags]: one or none. *)
Definition tagsContribution
  (methods : HelpersPluginManager.IPluginDefine -> PluginDataFetchers.OtherMethods)
  (plugin : HelpersPluginManager.ManagedPlugin)
  : list PluginDataFetchers.RecommendSheetTagsResult :=
  match PluginDataFetchers.member methods
          PluginDataFetchers.getRecommendSheetTags plugin with
  | Some (Returned (Some tags)) =>
      [ {| PluginDataFetchers.tags_platform :=
             Some (HelpersPluginManager.platform
                     (HelpersPluginManager.spread plugin));
           PluginDataFetchers.pinned := PluginDataFetchers.pinned tags;
           PluginDataFetchers.tags_data := PluginDataFetchers.tags_data tags |} ]
  | _ => []
  end.

(** A string without the path separator. *)
Fixpoint noSlash (s : string) : bool :=
  match s with
  | EmptyString => true
  | String c s' => negb (Ascii.eqb c "/"%char) && noSlash s'
  end.

(** * The model on concrete inputs *)

Example compare_numeric :
  Reference.compare "3.0.0" "2.0.0" = Returned 1
  /\ Reference.compare "1.2.9" "1.2.10" = Returned (-1)
  /\ Reference.compare "2.0.0" "2.0.0" = Returned 0
  /\ Reference.compare "2.0" "2.0.0" = Threw (mkJsError "Invalid Version").
Proof. vm_compute. repeat split. Qed.

Example loadFromCode_mounts :
  let r := PluginLoader.loadFromCode (Reference.host "1.0.0") Reference.sourceA1
             "/downloads/a.js" "V1StGXR8" in
  PluginLoader.state r = PluginLoader.Mounted
  /\ PluginLoader.errorReason r = None
  /\ PluginLoader.name r = Some "A"
  /\ PluginLoader.hash r = "V1StGXR8".
Proof. vm_compute. repeat split. Qed.

Example loadFromCode_version_mismatch :
  let r := PluginLoader.loadFromCode (Reference.host "1.0.0") Reference.sourceA2
             "/downloads/a.js" "V1StGXR8" in
  PluginLoader.state r = PluginLoader.Error
  /\ PluginLoader.errorReason r = Some PluginLoader.VersionNotMatch
  /\ PluginLoader.name r = Some "A".
Proof. vm_compute. repeat split. Qed.

Example install_replaces_and_keeps_order :
  let after :=
    snd (PluginRegistry.installPlugin (Reference.host "1.0.0") Sample.registry
           Reference.sourceB "/downloads/b.js" None "hashB2" "fileB2"
           (Returned ())) in
  map PluginRegistry.hash (PluginRegistry.plugins after) = ["hashA"; "hashB2"]
  /\ map (fun p => PluginRegistry.order (PluginRegistry.meta p))
       (PluginRegistry.plugins after) = [0; 0]
  /\ PluginRegistry.events after
     = [PluginRegistry.plugin_installed (Some "B")].
Proof. vm_compute. repeat split. Qed.

Example install_empty_code :
  fst (PluginRegistry.installPlugin (Reference.host "1.0.0") Sample.registry
         "" "/downloads/none.js" None "h" "f" (Returned ()))
  = Returned {| PluginRegistry.success := false;
                PluginRegistry.message := Some "Plugin code is empty";
                PluginRegistry.pluginName := None;
                PluginRegistry.pluginHash := None |}.
Proof. reflexivity. Qed.

Example setPluginEnabled_flips_first_match :
  PluginRegistry.isPluginEnabled
    (PluginRegistry.setPluginEnabled Sample.registry "A" false) "A" = false
  /\ PluginRegistry.isPluginEnabled Sample.registry "A" = true
  /\ PluginRegistry.events
       (PluginRegistry.setPluginEnabled Sample.registry "A" false)
     = [PluginRegistry.plugin_enabled (Some "A") false].
Proof. vm_compute. repeat split. Qed.

Example findIndex_examples :
  findIndex (Z.eqb 3) [1; 3; 3] = 1 /\ findIndex (Z.eqb 7) [1; 3; 3] = -1.
Proof. split; reflexivity. Qed.

Example uniqueResults_example :
  let t (i p : string) :=
    {| SearchAll.id := i; SearchAll.title := None; SearchAll.artist := None;
       SearchAll.artwork := None; SearchAll.url := ""; SearchAll.platform := p;
       SearchAll.isArtist := None |} in
  SearchAll.uniqueResults [t "1" "A"; t "2" "A"; t "1" "A"; t "1" "B"; t "2" "A"]
  = [t "1" "A"; t "2" "A"; t "1" "B"].
Proof. vm_compute. reflexivity. Qed.

Example searchAll_three_providers :
  SearchAll.searchAll (Sample.threeProviders Sample.twoItems) "love" 1
    SearchAll.songs
  = Returned
      {| SearchAll.data :=
           [ {| SearchAll.id := "1"; SearchAll.title := Some "One";
                SearchAll.artist := Some "Singer"; SearchAll.artwork := None;
                SearchAll.url := ""; SearchAll.platform := "A";
                SearchAll.isArtist := None |};
             {| SearchAll.id := "2"; SearchAll.title := Some "Two";
                SearchAll.artist := Some "Singer"; SearchAll.artwork := None;
                SearchAll.url := ""; SearchAll.platform := "A";
                SearchAll.isArtist := None |} ];
         SearchAll.hasMore := true |}.
Proof. vm_compute. reflexivity. Qed.
(** * Properties *)

(** ** The loader *)

Lemma tryLoad_ordinaryFailure host code :
  failsStructuralValidation (PluginLoader.evalSource host code) ->
  ordinaryFailure host (PluginLoader.evalSource host code) ->
  exists e, PluginLoader.tryLoad host code = inl e
            /\ PluginLoader.thrown_errorReason e = None
            /\ PluginLoader.thrown_instance e = None.
Proof.
  unfold PluginLoader.tryLoad, failsStructuralValidation, ordinaryFailure.
  destruct (PluginLoader.evalSource host code) as [[inst|]|e].
  - intros Hp Hv. unfold PluginLoader.validatePlugin.
    assert (truthy (PluginLoader.version inst)
            && negb (PluginLoader.satisfies host (PluginLoader.getVersion host)
                       (default "" (PluginLoader.version inst))) = false) as ->.
    { destruct Hv as [-> | ->]; [done | by rewrite andb_false_r]. }
    rewrite Hp. simpl. eexists; split; [reflexivity | done].
  - intros _ _. eexists; split; [reflexivity | done].
  - intros _ [H1 H2]. exists e. done.
Qed.

(** C4, as amended: a source that fails structural validation, and whose
    failure reaches the [catch] clause as an ordinary error (see
    [ordinaryFailure]), loads in state [Error] with reason [CannotParse];
    the unit returned is the stub, whose [search] returns
    [{isEnd: true, data: []}] for every query. *)
Theorem C4_unparseable_source_loads_stub
  (host : PluginLoader.Host) (pluginCode pluginPath nanoid : string) :
  failsStructuralValidation (PluginLoader.evalSource host pluginCode) ->
  ordinaryFailure host (PluginLoader.evalSource host pluginCode) ->
  let r := PluginLoader.loadFromCode host pluginCode pluginPath nanoid in
  PluginLoader.state r = PluginLoader.Error
  /\ PluginLoader.errorReason r = Some PluginLoader.CannotParse
  /\ PluginLoader.instance r = PluginLoader.dummyInstance
  /\ exists search,
       PluginLoader.search (PluginLoader.instance r) = Some search
       /\ forall query page type,
            search query page type
            = Returned {| IPlugin.isEnd := Some true; IPlugin.data := Some [] |}.
Proof.
  intros Hf Hu.
  destruct (tryLoad_ordinaryFailure _ _ Hf Hu) as (e & He & Hr & Hi).
  unfold PluginLoader.loadFromCode. rewrite He, Hr, Hi. simpl.
  repeat split. eexists; split; [reflexivity | done].
Qed.

(** The exports [{}] and a source that does not parse both load as the
    stub. *)
Lemma C4_unparseable_source_loads_stub_witness :
  PluginLoader.errorReason
    (PluginLoader.loadFromCode (Reference.host "1.0.0")
       Reference.sourceEmpty "/downloads/empty.js" "V1StGXR8")
  = Some PluginLoader.CannotParse
  /\ PluginLoader.instance
       (PluginLoader.loadFromCode (Reference.host "1.0.0")
          Reference.sourceBroken "/downloads/broken.js" "V1StGXR8")
     = PluginLoader.dummyInstance.
Proof.
  split.
  - exact (proj1 (proj2
      (C4_unparseable_source_loads_stub (Reference.host "1.0.0")
         Reference.sourceEmpty "/downloads/empty.js" "V1StGXR8"
         eq_refl (or_introl eq_refl)))).
  - exact (proj1 (proj2 (proj2
      (C4_unparseable_source_loads_stub (Reference.host "1.0.0")
         Reference.sourceBroken "/downloads/broken.js" "V1StGXR8"
         I (conj eq_refl eq_refl))))).
Defined.

(** C4 fails as stated: a source whose exports have no [platform] but
    declare a version that the application does not satisfy is rejected by
    the version check, which [validatePlugin] makes before it looks at
    [platform]; the reason is [VersionNotMatch] and the unit returned is the
    exported object, which has no [search]. *)
Lemma C4_counterexample :
  let host := Reference.host "1.0.0" in
  let r := PluginLoader.loadFromCode host Reference.sourceNoPlatform
             "/downloads/x.js" "V1StGXR8" in
  failsStructuralValidation
    (PluginLoader.evalSource host Reference.sourceNoPlatform)
  /\ PluginLoader.state r = PluginLoader.Error
  /\ PluginLoader.errorReason r = Some PluginLoader.VersionNotMatch
  /\ PluginLoader.errorReason r <> Some PluginLoader.CannotParse
  /\ PluginLoader.search (PluginLoader.instance r) = None.
Proof. vm_compute. repeat split; congruence. Qed.

(** ** Assignment to a property of a plain object *)

Lemma setProperty_ordinary {V} key (value : V) own :
  key <> "__proto__" -> setProperty key value own = <[key := value]> own.
Proof.
  intros Hk. unfold setProperty. apply String.eqb_neq in Hk. by rewrite Hk.
Qed.

Lemma setProperty_cases {V} key (value : V) own :
  setProperty key value own = own \/ setProperty key value own = <[key := value]> own.
Proof. unfold setProperty. destruct (_ && _); auto. Qed.

Lemma lookup_setProperty_Some {V} key (value : V) own k r :
  setProperty key value own !! k = Some r ->
  (k = key /\ r = value) \/ own !! k = Some r.
Proof.
  destruct (setProperty_cases key value own) as [-> | ->]; [by right |].
  rewrite lookup_insert. case_decide; [| by right].
  intros [= <-]. by left.
Qed.

Lemma lookup_setProperty_ne {V} key (value : V) own k :
  k <> key -> setProperty key value own !! k = own !! k.
Proof.
  intros Hk. destruct (setProperty_cases key value own) as [-> | ->]; [done |].
  by apply lookup_insert_ne.
Qed.

Lemma setProperty_delete_ne {V} key (value : V) own n :
  key <> n ->
  setProperty key value (delete n own) = delete n (setProperty key value own).
Proof.
  intros Hk. unfold setProperty. rewrite lookup_delete_ne by done.
  destruct (_ && _); [done |]. by rewrite delete_insert_ne.
Qed.

Lemma delete_setProperty {V} key (value : V) own :
  delete key (setProperty key value own) = delete key own.
Proof.
  destruct (setProperty_cases key value own) as [-> | ->]; [done |].
  apply delete_insert_eq.
Qed.

Lemma setProperty_commute {V} k1 k2 (v1 v2 : V) own :
  k1 <> k2 ->
  setProperty k1 v1 (setProperty k2 v2 own)
  = setProperty k2 v2 (setProperty k1 v1 own).
Proof.
  intros Hk. unfold setProperty at 1 3.
  rewrite (lookup_setProperty_ne k2 v2 own k1) by done.
  rewrite (lookup_setProperty_ne k1 v1 own k2) by done.
  destruct (String.eqb k1 "__proto__" && _) eqn:H1;
    destruct (String.eqb k2 "__proto__" && _) eqn:H2; unfold setProperty;
    rewrite ?H1, ?H2; try done.
  by apply insert_insert_ne.
Qed.

(** ** Arrays *)

Lemma js_eq_true a b : js_eq a b = true <-> a = b.
Proof.
  destruct a as [x|], b as [y|]; simpl; try (split; congruence).
  rewrite String.eqb_eq. split; congruence.
Qed.

Lemma find_Some {A} (p : A -> bool) l x :
  find p l = Some x -> x ∈ l /\ p x = true.
Proof.
  induction l as [|y l IH]; simpl; [done |].
  destruct (p y) eqn:Hy.
  - intros [= ->]. split; [left | done].
  - intros H. destruct (IH H). split; [by right | done].
Qed.

Lemma find_None {A} (p : A -> bool) l :
  find p l = None <-> forall x, x ∈ l -> p x = false.
Proof.
  induction l as [|y l IH]; simpl.
  - split; [intros _ x Hx; inversion Hx | done].
  - destruct (p y) eqn:Hy.
    + split; [done |]. intros H. specialize (H y (list_elem_of_here _ _)).
      congruence.
    + rewrite IH. split.
      * intros H x Hx. apply elem_of_cons in Hx as [-> | Hx]; auto.
      * intros H x Hx. apply H. by right.
Qed.

Lemma keep_app {A} (p : A -> bool) l1 l2 :
  keep p (l1 ++ l2) = keep p l1 ++ keep p l2.
Proof.
  induction l1 as [|y l1 IH]; simpl; [done |].
  destruct (p y); simpl; by rewrite IH.
Qed.

Lemma elem_of_keep {A} (p : A -> bool) l x :
  x ∈ keep p l <-> x ∈ l /\ p x = true.
Proof.
  induction l as [|y l IH]; simpl.
  - split; [intros H; inversion H | intros [H _]; inversion H].
  - destruct (p y) eqn:Hy; rewrite ?elem_of_cons, IH; split.
    + intros [-> | [? ?]]; auto.
    + intros [[-> | ?] ?]; auto.
    + intros [? ?]; auto.
    + intros [[-> | ?] ?]; [congruence | auto].
Qed.

Lemma elem_of_map {A B} (f : A -> B) l y :
  y ∈ map f l <-> exists x, y = f x /\ x ∈ l.
Proof.
  induction l as [|z l IH]; simpl.
  - split; [intros H; inversion H | intros (x & _ & H); inversion H].
  - rewrite elem_of_cons, IH. split.
    + intros [-> | (x & -> & Hx)]; [exists z | exists x];
        (split; [done |]); [left | by right].
    + intros (x & -> & Hx). apply elem_of_cons in Hx as [-> | Hx]; eauto.
Qed.

Lemma NoDup_map_keep {A B} (f : A -> B) (p : A -> bool) l :
  NoDup (map f l) -> NoDup (map f (keep p l)).
Proof.
  induction l as [|y l IH]; simpl; [done |].
  rewrite NoDup_cons. intros [Hy Hl]. destruct (p y); simpl; [| auto].
  apply NoDup_cons. split; [| auto].
  rewrite elem_of_map. intros (x & Hfx & Hx). apply Hy.
  rewrite elem_of_map. exists x. split; [done |].
  by apply elem_of_keep in Hx as [? _].
Qed.

Lemma NoDup_map_inj {A B} (f : A -> B) l x y :
  NoDup (map f l) -> x ∈ l -> y ∈ l -> f x = f y -> x = y.
Proof.
  induction l as [|z l IH]; simpl; [intros _ H; inversion H |].
  rewrite NoDup_cons, !elem_of_cons. intros [Hz Hl] [-> | Hx] [-> | Hy] Hf; auto.
  - exfalso. apply Hz. rewrite elem_of_map. eauto.
  - exfalso. apply Hz. rewrite elem_of_map. eauto.
Qed.

Lemma NoDup_map_snoc {A B} (f : A -> B) l x :
  NoDup (map f l) -> f x ∉ map f l -> NoDup (map f (l ++ [x])).
Proof.
  intros Hl Hx. rewrite map_app. apply NoDup_app. split; [done |].
  split; [| apply NoDup_singleton].
  intros y Hy Hin. simpl in Hin. apply list_elem_of_singleton in Hin as ->. done.
Qed.

Lemma NoDup_map_app_cons_l {A B} (f : A -> B) l1 x l2 y :
  NoDup (map f (l1 ++ x :: l2)) -> y ∈ l1 ++ l2 -> f y <> f x.
Proof.
  rewrite map_app. simpl. intros Hd Hy Heq.
  apply NoDup_app in Hd as (_ & Hcross & Hd2).
  apply NoDup_cons in Hd2 as [Hx _].
  apply elem_of_app in Hy as [Hy | Hy].
  - apply (Hcross (f y)); [rewrite elem_of_map; eauto |].
    rewrite Heq. left.
  - apply Hx. rewrite <- Heq. rewrite elem_of_map. eauto.
Qed.

Lemma elem_of_concat_map {A B} (f : A -> list B) l y :
  y ∈ concat (map f l) <-> exists x, x ∈ l /\ y ∈ f x.
Proof.
  induction l as [|z l IH]; simpl.
  - split; [intros H; inversion H | intros (x & H & _); inversion H].
  - rewrite elem_of_app, IH. split.
    + intros [H | (x & Hx & H)]; [exists z | exists x];
        (split; [by constructor | done]).
    + intros (x & Hx & H). apply elem_of_cons in Hx as [-> | Hx];
        [by left | right; by exists x].
Qed.

(** ** The registry *)

Section RegistryFacts.
Variable host : PluginLoader.Host.

Lemma find_hasName_None n l :
  find (PluginRegistry.hasName n) l = None -> n ∉ map PluginRegistry.name l.
Proof.
  rewrite find_None, elem_of_map. intros H (x & -> & Hx).
  specialize (H x Hx). unfold PluginRegistry.hasName in H.
  assert (js_eq (PluginRegistry.name x) (PluginRegistry.name x) = true)
    by by apply js_eq_true.
  congruence.
Qed.

(** Removing the entry that [find] returned for a name leaves no entry of
    that name, provided names were unique. *)
Lemma removeOld_clears n l :
  NoDup (map PluginRegistry.name l) ->
  n ∉ map PluginRegistry.name
        (PluginRegistry.removeOld (find (PluginRegistry.hasName n) l) l).
Proof.
  intros Hl. destruct (find (PluginRegistry.hasName n) l) as [e|] eqn:He; simpl.
  - apply find_Some in He as [Hin Hn]. apply js_eq_true in Hn.
    rewrite elem_of_map. intros (x & Hx & Hk).
    apply elem_of_keep in Hk as [Hxl Hh].
    assert (x = e) as -> by (eapply NoDup_map_inj; eauto; congruence).
    unfold PluginRegistry.hasHash in Hh. by rewrite String.eqb_refl in Hh.
  - by apply find_hasName_None.
Qed.

Lemma removeOld_NoDup existing l :
  NoDup (map PluginRegistry.name l) ->
  NoDup (map PluginRegistry.name (PluginRegistry.removeOld existing l)).
Proof. destruct existing; simpl; [apply NoDup_map_keep | done]. Qed.

(** The filter of [loadPlugin] runs after the push; it keeps the pushed
    entry because no installed entry has its hash. *)
Lemma removeOld_pushed n l new :
  find (PluginRegistry.hasHash (PluginRegistry.hash new)) l = None ->
  PluginRegistry.removeOld (find (PluginRegistry.hasName n) l) (l ++ [new])
  = PluginRegistry.removeOld (find (PluginRegistry.hasName n) l) l ++ [new].
Proof.
  intros Hh. destruct (find (PluginRegistry.hasName n) l) as [e|] eqn:He;
    simpl; [| done].
  rewrite keep_app. f_equal. simpl.
  apply find_Some in He as [Hin _].
  rewrite find_None in Hh. specialize (Hh e Hin).
  unfold PluginRegistry.hasHash in *. rewrite String.eqb_sym in Hh.
  by rewrite Hh.
Qed.

Lemma loadPlugin_unique reg pluginCode pluginPath nanoid :
  NoDup (installedNames reg) ->
  NoDup (installedNames
           (PluginRegistry.loadPlugin host reg pluginCode pluginPath nanoid)).
Proof.
  unfold installedNames, PluginRegistry.loadPlugin. intros Hreg.
  set (r := PluginLoader.loadFromCode host pluginCode pluginPath nanoid).
  destruct (find (PluginRegistry.hasHash (PluginLoader.hash r))
              (PluginRegistry.plugins reg)) eqn:Hh; [done |].
  destruct (PluginLoader.state r); try done. simpl.
  rewrite removeOld_pushed by done.
  apply NoDup_map_snoc; [by apply removeOld_NoDup |].
  simpl. by apply removeOld_clears.
Qed.

Lemma installPlugin_unique reg pluginCode pluginPath config nanoid1 nanoid2 copyFile :
  NoDup (installedNames reg) ->
  NoDup (installedNames
           (snd (PluginRegistry.installPlugin host reg pluginCode pluginPath
                   config nanoid1 nanoid2 copyFile))).
Proof.
  unfold installedNames, PluginRegistry.installPlugin. intros Hreg.
  destruct (String.eqb pluginCode ""); [done |].
  set (r := PluginLoader.loadFromCode host pluginCode pluginPath nanoid1).
  destruct (find (PluginRegistry.hasHash (PluginLoader.hash r))
              (PluginRegistry.plugins reg)) eqn:Hh; [done |].
  destruct (PluginRegistry.newerInstalled _ _ _ _) as [[|]|]; try done.
  destruct (PluginLoader.state r); try done.
  destruct copyFile; simpl.
  - apply NoDup_map_snoc; [by apply removeOld_NoDup |].
    simpl. by apply removeOld_clears.
  - by apply removeOld_NoDup.
Qed.

Lemma updateFirst_names p enabled' l :
  map PluginRegistry.name (updateFirst p (PluginRegistry.setEnabled enabled') l)
  = map PluginRegistry.name l.
Proof.
  induction l as [|x l IH]; simpl; [done |].
  destruct (p x); simpl; [done | by rewrite IH].
Qed.

Lemma setPluginEnabled_unique reg n enabled' :
  NoDup (installedNames reg) ->
  NoDup (installedNames (PluginRegistry.setPluginEnabled reg n enabled')).
Proof.
  unfold installedNames, PluginRegistry.setPluginEnabled. intros Hreg.
  destruct (PluginRegistry.getPluginByName reg (Some n)); [| done].
  destruct (find _ (PluginRegistry.builtinPlugins reg)); simpl; [done |].
  by rewrite updateFirst_names.
Qed.

Lemma perform_unique reg call :
  NoDup (installedNames reg) -> NoDup (installedNames (perform host reg call)).
Proof.
  destruct call; simpl;
    auto using loadPlugin_unique, installPlugin_unique, setPluginEnabled_unique.
Qed.

Lemma performAll_unique calls reg :
  NoDup (installedNames reg) -> NoDup (installedNames (performAll host calls reg)).
Proof.
  revert reg. induction calls as [|call calls IH]; intros reg Hreg; simpl;
    [done |].
  apply IH. by apply perform_unique.
Qed.

End RegistryFacts.

(** C9: from a registry with no installed entry, after any sequence of
    [loadPlugin], [installPlugin] and [setPluginEnabled] calls, each settled
    before the next starts, no two installed entries share a name; and
    whenever one more call adds an entry, no entry held before the call and
    still held after it has the added entry's name. *)
Theorem C9_at_most_one_installed_entry_per_name
  (host : PluginLoader.Host) (builtins : list PluginRegistry.IRegisteredPlugin)
  (calls : list Call) :
  let reg := performAll host calls (freshRegistry builtins) in
  NoDup (installedNames reg)
  /\ forall call old new,
       let reg' := perform host reg call in
       old ∈ PluginRegistry.plugins reg ->
       new ∉ PluginRegistry.plugins reg ->
       old ∈ PluginRegistry.plugins reg' ->
       new ∈ PluginRegistry.plugins reg' ->
       PluginRegistry.name old <> PluginRegistry.name new.
Proof.
  simpl.
  assert (NoDup (installedNames (performAll host calls (freshRegistry builtins))))
    as Hreg by (apply performAll_unique; constructor).
  split; [exact Hreg |].
  intros call old new Hold Hnew Hold' Hnew' Hname.
  apply (perform_unique host _ call) in Hreg.
  assert (old = new) by (eapply NoDup_map_inj; eauto).
  congruence.
Qed.

Lemma getPluginByName_None reg n :
  (forall p, p ∈ PluginRegistry.getAllPlugins reg -> PluginRegistry.name p <> Some n) ->
  PluginRegistry.getPluginByName reg (Some n) = None.
Proof.
  intros H. unfold PluginRegistry.getPluginByName. apply find_None.
  intros p Hp. destruct (PluginRegistry.hasName (Some n) p) eqn:E; [| done].
  apply js_eq_true in E. by apply H in Hp.
Qed.

(** C10: for a name that no entry, built-in or installed, carries,
    [setPluginEnabled] leaves the registry as it was, entries and event log
    alike, and [isPluginEnabled] answers [false].  Neither function has a
    step that can throw. *)
Theorem C10_unknown_name_is_ignored
  (reg : PluginRegistry.Registry) (n : string) (enabled : bool) :
  (forall p, p ∈ PluginRegistry.getAllPlugins reg -> PluginRegistry.name p <> Some n) ->
  PluginRegistry.setPluginEnabled reg n enabled = reg
  /\ PluginRegistry.getAllPlugins (PluginRegistry.setPluginEnabled reg n enabled)
     = PluginRegistry.getAllPlugins reg
  /\ PluginRegistry.isPluginEnabled reg n = false
  /\ PluginRegistry.isPluginEnabled (PluginRegistry.setPluginEnabled reg n enabled) n
     = false.
Proof.
  intros H. apply getPluginByName_None in H.
  unfold PluginRegistry.setPluginEnabled, PluginRegistry.isPluginEnabled.
  rewrite H. rewrite H. done.
Qed.

(** No entry of the sample registry is named [nowhere]. *)
Lemma C10_unknown_name_is_ignored_witness :
  PluginRegistry.setPluginEnabled Sample.registry "nowhere" true = Sample.registry
  /\ PluginRegistry.isPluginEnabled Sample.registry "nowhere" = false.
Proof.
  assert (forall p, p ∈ PluginRegistry.getAllPlugins Sample.registry ->
                    PluginRegistry.name p <> Some "nowhere") as H.
  { intros p Hp. simpl in Hp.
    repeat (apply elem_of_cons in Hp as [-> | Hp]; [discriminate |]).
    inversion Hp. }
  destruct (C10_unknown_name_is_ignored Sample.registry "nowhere" true H)
    as (H1 & _ & H2 & _).
  exact (conj H1 H2).
Defined.

(** ** Installing *)

Section InstallFacts.
Variable host : PluginLoader.Host.

Lemma filterUserVariables_identity inst :
  PluginLoader.platform (PluginLoader.filterUserVariables inst)
  = PluginLoader.platform inst
  /\ PluginLoader.version (PluginLoader.filterUserVariables inst)
     = PluginLoader.version inst.
Proof.
  unfold PluginLoader.filterUserVariables.
  by destruct (PluginLoader.userVariables inst).
Qed.

(** A source that yields an object with a platform keeps its identity
    through [loadFromCode], mounted or rejected by the version check. *)
Lemma loadFromCode_identity pluginCode pluginPath nanoid inst :
  PluginLoader.evalSource host pluginCode = PluginLoader.Yields (Some inst) ->
  truthy (PluginLoader.platform inst) = true ->
  let r := PluginLoader.loadFromCode host pluginCode pluginPath nanoid in
  PluginLoader.name r = PluginLoader.platform inst
  /\ PluginLoader.version (PluginLoader.instance r) = PluginLoader.version inst
  /\ PluginLoader.hash r = nanoid.
Proof.
  intros He Hp. unfold PluginLoader.loadFromCode, PluginLoader.tryLoad.
  rewrite He. unfold PluginLoader.validatePlugin. rewrite Hp.
  destruct (truthy (PluginLoader.version inst) && _); simpl; [done |].
  destruct (filterUserVariables_identity inst) as [-> ->]. done.
Qed.

(** The answer [Plugin is already installed] is given exactly when the
    string drawn from [nanoid()] for this call is the hash of an installed
    entry; the source text and the path play no part in it. *)
Lemma installPlugin_already_installed reg pluginCode pluginPath config
  nanoid1 nanoid2 copyFile result :
  fst (PluginRegistry.installPlugin host reg pluginCode pluginPath config
         nanoid1 nanoid2 copyFile) = Returned result ->
  PluginRegistry.message result = Some "Plugin is already installed" ->
  exists p, p ∈ PluginRegistry.plugins reg /\ PluginRegistry.hash p = nanoid1.
Proof.
  unfold PluginRegistry.installPlugin.
  destruct (String.eqb pluginCode ""); simpl; [intros [= <-]; discriminate |].
  assert (PluginLoader.hash
            (PluginLoader.loadFromCode host pluginCode pluginPath nanoid1)
          = nanoid1) as Hh.
  { unfold PluginLoader.loadFromCode.
    by destruct (PluginLoader.tryLoad host pluginCode). }
  rewrite Hh.
  destruct (find (PluginRegistry.hasHash nanoid1) (PluginRegistry.plugins reg))
    as [p|] eqn:Hf.
  - intros _ _. apply find_Some in Hf as [Hp Hq]. exists p. split; [done |].
    by apply String.eqb_eq.
  - destruct (PluginRegistry.newerInstalled _ _ _ _) as [[|]|]; simpl;
      [intros [= <-]; discriminate | | discriminate].
    destruct (PluginLoader.state _); simpl; try (intros [= <-]; discriminate).
    destruct copyFile; simpl; [intros [= <-]; discriminate | discriminate].
Qed.

(** The version gate: with version checking on, an installed entry of the
    same name, and a hash no installed entry has, any non-zero answer of
    [compare] refuses the install and leaves the registry as it was. *)
Lemma installPlugin_refused reg pluginCode pluginPath config nanoid1 nanoid2
  copyFile inst p existing vOld vNew c :
  pluginCode <> "" ->
  PluginLoader.evalSource host pluginCode = PluginLoader.Yields (Some inst) ->
  PluginLoader.platform inst = Some p ->
  p <> "" ->
  PluginLoader.version inst = Some vNew ->
  find (PluginRegistry.hasName (Some p)) (PluginRegistry.plugins reg)
  = Some existing ->
  PluginLoader.version (PluginRegistry.instance existing) = Some vOld ->
  PluginRegistry.checksVersion config = true ->
  (forall q, q ∈ PluginRegistry.plugins reg -> PluginRegistry.hash q <> nanoid1) ->
  PluginLoader.compare host vOld vNew = Returned c ->
  c <> 0 ->
  PluginRegistry.installPlugin host reg pluginCode pluginPath config
    nanoid1 nanoid2 copyFile
  = (Returned {| PluginRegistry.success := false;
                 PluginRegistry.message :=
                   Some "A newer version of the plugin is already installed";
                 PluginRegistry.pluginName := Some p;
                 PluginRegistry.pluginHash := Some nanoid1 |}, reg).
Proof.
  intros Hcode He Hp Hne Hv Hex Hev Hcfg Hfresh Hcmp Hc.
  assert (truthy (PluginLoader.platform inst) = true) as Ht.
  { rewrite Hp. simpl. apply negb_true_iff. by apply String.eqb_neq. }
  destruct (loadFromCode_identity pluginCode pluginPath nanoid1 inst He Ht)
    as (Hn & Hver & Hh).
  assert (find (PluginRegistry.hasHash nanoid1) (PluginRegistry.plugins reg)
          = None) as Hnone.
  { apply find_None. intros q Hq. apply String.eqb_neq. by apply Hfresh. }
  unfold PluginRegistry.installPlugin.
  apply String.eqb_neq in Hcode. rewrite Hcode.
  rewrite Hh, Hnone, Hn, Hp, Hex.
  unfold PluginRegistry.newerInstalled. rewrite Hcfg, Hev, Hver, Hv.
  simpl. rewrite Hcmp. simpl.
  apply Z.eqb_neq in Hc. by rewrite Hc.
Qed.

End InstallFacts.

(** C5, the code at the failing input: the same source and path installed
    twice into an empty registry.  Each call draws its own hash, so the
    second call finds no entry with its hash, passes the version gate
    (equal versions), replaces the first entry and returns success with no
    message.  One entry of that name is left, the second. *)
Lemma C5_second_install_replaces_silently :
  let host := Reference.host "1.0.0" in
  let first :=
    PluginRegistry.installPlugin host (freshRegistry []) Reference.sourceA1
      "/downloads/a.js" None "hashOne" "fileOne" (Returned ()) in
  let second :=
    PluginRegistry.installPlugin host (snd first) Reference.sourceA1
      "/downloads/a.js" None "hashTwo" "fileTwo" (Returned ()) in
  fst first
  = Returned {| PluginRegistry.success := true;
                PluginRegistry.message := None;
                PluginRegistry.pluginName := Some "A";
                PluginRegistry.pluginHash := Some "hashOne" |}
  /\ fst second
     = Returned {| PluginRegistry.success := true;
                   PluginRegistry.message := None;
                   PluginRegistry.pluginName := Some "A";
                   PluginRegistry.pluginHash := Some "hashTwo" |}
  /\ installedNames (snd second) = [Some "A"]
  /\ map PluginRegistry.hash (PluginRegistry.plugins (snd second)) = ["hashTwo"]
  /\ map PluginRegistry.path (PluginRegistry.plugins (snd second))
     = ["/data/plugins/fileTwo.js"].
Proof. vm_compute. repeat split. Qed.

(** C6: installing a source that declares version 2.0.0 for a platform
    whose installed entry declares 3.0.0, with version checking on and a
    hash that no installed entry has, returns the failure [A newer version
    of the plugin is already installed] and leaves the registry, hence the
    3.0.0 entry, as it was. *)
Theorem C6_older_version_is_refused
  (host : PluginLoader.Host) (reg : PluginRegistry.Registry)
  (pluginCode pluginPath : string)
  (config : option PluginRegistry.IInstallPluginConfig)
  (nanoid1 nanoid2 : string) (copyFile : Outcome ())
  (inst : PluginLoader.IPluginInterface) (p : string)
  (existing : PluginRegistry.IRegisteredPlugin) :
  pluginCode <> "" ->
  PluginLoader.evalSource host pluginCode = PluginLoader.Yields (Some inst) ->
  PluginLoader.platform inst = Some p ->
  p <> "" ->
  PluginLoader.version inst = Some "2.0.0" ->
  find (PluginRegistry.hasName (Some p)) (PluginRegistry.plugins reg)
  = Some existing ->
  PluginLoader.version (PluginRegistry.instance existing) = Some "3.0.0" ->
  PluginRegistry.checksVersion config = true ->
  (forall q, q ∈ PluginRegistry.plugins reg -> PluginRegistry.hash q <> nanoid1) ->
  PluginLoader.compare host "3.0.0" "2.0.0" = Returned 1 ->
  let result :=
    PluginRegistry.installPlugin host reg pluginCode pluginPath config
      nanoid1 nanoid2 copyFile in
  fst result
  = Returned {| PluginRegistry.success := false;
                PluginRegistry.message :=
                  Some "A newer version of the plugin is already installed";
                PluginRegistry.pluginName := Some p;
                PluginRegistry.pluginHash := Some nanoid1 |}
  /\ snd result = reg
  /\ existing ∈ PluginRegistry.plugins (snd result)
  /\ PluginRegistry.name existing = Some p.
Proof.
  intros Hcode He Hp Hne Hv Hex Hev Hcfg Hfresh Hcmp. simpl.
  rewrite (installPlugin_refused host reg pluginCode pluginPath config nanoid1
             nanoid2 copyFile inst p existing "3.0.0" "2.0.0" 1) by done.
  simpl. apply find_Some in Hex as [Hin Hname].
  apply js_eq_true in Hname. done.
Qed.

(** Version 2.0.0 of [A] offered to the sample registry, which holds
    version 3.0.0. *)
Lemma C6_older_version_is_refused_witness :
  let result :=
    PluginRegistry.installPlugin (Reference.host "2.0.0") Sample.registry
      Reference.sourceA2 "/downloads/a2.js" None "hashNew" "fileNew"
      (Returned ()) in
  fst result
  = Returned {| PluginRegistry.success := false;
                PluginRegistry.message :=
                  Some "A newer version of the plugin is already installed";
                PluginRegistry.pluginName := Some "A";
                PluginRegistry.pluginHash := Some "hashNew" |}
  /\ snd result = Sample.registry.
Proof.
  assert (forall q, q ∈ PluginRegistry.plugins Sample.registry ->
                    PluginRegistry.hash q <> "hashNew") as Hfresh.
  { intros q Hq. simpl in Hq.
    repeat (apply elem_of_cons in Hq as [-> | Hq]; [discriminate |]).
    inversion Hq. }
  pose proof
    (C6_older_version_is_refused (Reference.host "2.0.0") Sample.registry
       Reference.sourceA2 "/downloads/a2.js" None "hashNew" "fileNew"
       (Returned ()) (Reference.bare (Some "A") (Some "2.0.0")) "A"
       (Sample.entry "A" "hashA" (Some "3.0.0") true)
       ltac:(discriminate) eq_refl eq_refl ltac:(discriminate) eq_refl eq_refl
       eq_refl eq_refl Hfresh eq_refl) as (H1 & H2 & _).
  exact (conj H1 H2).
Defined.

(** The version gate treats the number that [compare] returns as its
    condition, so it also refuses an upgrade: installing a source that
    declares 3.0.0 for a platform whose installed entry declares 2.0.0, with
    version checking on, returns the same failure and leaves the registry
    as it was. *)
Theorem version_gate_refuses_upgrade
  (host : PluginLoader.Host) (reg : PluginRegistry.Registry)
  (pluginCode pluginPath : string)
  (config : option PluginRegistry.IInstallPluginConfig)
  (nanoid1 nanoid2 : string) (copyFile : Outcome ())
  (inst : PluginLoader.IPluginInterface) (p : string)
  (existing : PluginRegistry.IRegisteredPlugin) :
  pluginCode <> "" ->
  PluginLoader.evalSource host pluginCode = PluginLoader.Yields (Some inst) ->
  PluginLoader.platform inst = Some p ->
  p <> "" ->
  PluginLoader.version inst = Some "3.0.0" ->
  find (PluginRegistry.hasName (Some p)) (PluginRegistry.plugins reg)
  = Some existing ->
  PluginLoader.version (PluginRegistry.instance existing) = Some "2.0.0" ->
  PluginRegistry.checksVersion config = true ->
  (forall q, q ∈ PluginRegistry.plugins reg -> PluginRegistry.hash q <> nanoid1) ->
  PluginLoader.compare host "2.0.0" "3.0.0" = Returned (-1) ->
  PluginRegistry.installPlugin host reg pluginCode pluginPath config
    nanoid1 nanoid2 copyFile
  = (Returned {| PluginRegistry.success := false;
                 PluginRegistry.message :=
                   Some "A newer version of the plugin is already installed";
                 PluginRegistry.pluginName := Some p;
                 PluginRegistry.pluginHash := Some nanoid1 |}, reg).
Proof.
  intros. by eapply installPlugin_refused.
Qed.

(** Version 3.0.0 of [A] offered to a registry that holds version 2.0.0. *)
Lemma version_gate_refuses_upgrade_witness :
  PluginRegistry.installPlugin (Reference.host "3.0.0") Sample.upgradable
    Reference.sourceA3 "/downloads/a3.js" None "hashNew" "fileNew" (Returned ())
  = (Returned {| PluginRegistry.success := false;
                 PluginRegistry.message :=
                   Some "A newer version of the plugin is already installed";
                 PluginRegistry.pluginName := Some "A";
                 PluginRegistry.pluginHash := Some "hashNew" |},
     Sample.upgradable).
Proof.
  assert (forall q, q ∈ PluginRegistry.plugins Sample.upgradable ->
                    PluginRegistry.hash q <> "hashNew") as Hfresh.
  { intros q Hq. simpl in Hq.
    repeat (apply elem_of_cons in Hq as [-> | Hq]; [discriminate |]).
    inversion Hq. }
  exact (version_gate_refuses_upgrade (Reference.host "3.0.0") Sample.upgradable
           Reference.sourceA3 "/downloads/a3.js" None "hashNew" "fileNew"
           (Returned ()) (Reference.bare (Some "A") (Some "3.0.0")) "A"
           (Sample.entry "A" "hashA" (Some "2.0.0") true)
           ltac:(discriminate) eq_refl eq_refl ltac:(discriminate) eq_refl
           eq_refl eq_refl eq_refl Hfresh eq_refl).
Defined.

(** ** The host's single-provider calls *)

(** C8: [getMediaSource] never throws.  It returns [null] when no entry
    carries the item's platform and when the entry found is disabled.  When
    the entry found is enabled and its unit has no [getMediaSource], it
    returns [{url: item.url}] if the item's [url] is a non-empty string and
    [null] otherwise. *)
Theorem C8_getMediaSource_resolution
  (reg : PluginRegistry.Registry) (musicItem : MediaItem) (quality : string) :
  let found := PluginRegistry.getPluginByName reg (item_platform musicItem) in
  let result := CorePluginManager.getMediaSource reg musicItem quality in
  (exists r, result = Returned r)
  /\ (found = None -> result = Returned None)
  /\ (forall plugin,
        found = Some plugin ->
        PluginRegistry.enabled (PluginRegistry.meta plugin) = false ->
        result = Returned None)
  /\ (forall plugin,
        found = Some plugin ->
        PluginRegistry.enabled (PluginRegistry.meta plugin) = true ->
        PluginLoader.getMediaSource (PluginRegistry.instance plugin) = None ->
        (forall u, item_url musicItem = Some u -> u <> "" ->
                   result = Returned (Some {| IPlugin.url := u |}))
        /\ (item_url musicItem = None \/ item_url musicItem = Some "" ->
            result = Returned None)).
Proof.
  simpl. unfold CorePluginManager.getMediaSource.
  destruct (PluginRegistry.getPluginByName reg (item_platform musicItem))
    as [plugin|]; [| repeat split; eauto; discriminate].
  destruct (PluginRegistry.enabled (PluginRegistry.meta plugin)) eqn:Hen; simpl.
  - split; [| split; [discriminate | split]].
    + destruct (PluginLoader.getMediaSource (PluginRegistry.instance plugin))
        as [f|]; simpl.
      * destruct (f musicItem quality); simpl; eauto.
      * destruct (truthy (item_url musicItem)); simpl; eauto.
    + intros plugin' [= <-]. congruence.
    + intros plugin' [= <-] _ ->. simpl. split.
      * intros u -> Hu. simpl. apply String.eqb_neq in Hu. by rewrite Hu.
      * intros [-> | ->]; reflexivity.
  - split; [eauto |]. split; [discriminate |]. split; [done |].
    intros plugin' [= <-]. congruence.
Qed.

(** An item of an unknown platform, of the disabled [B], and of the
    enabled [A] with and without a url. *)
Lemma C8_getMediaSource_resolution_witness :
  CorePluginManager.getMediaSource Sample.registry
    (Sample.song "nowhere" (Some "https://cdn.example/42.mp3")) "128k"
  = Returned None
  /\ CorePluginManager.getMediaSource Sample.registry
       (Sample.song "B" (Some "https://cdn.example/42.mp3")) "128k"
     = Returned None
  /\ CorePluginManager.getMediaSource Sample.registry
       (Sample.song "A" (Some "https://cdn.example/42.mp3")) "128k"
     = Returned (Some {| IPlugin.url := "https://cdn.example/42.mp3" |})
  /\ CorePluginManager.getMediaSource Sample.registry
       (Sample.song "A" None) "128k"
     = Returned None.
Proof.
  split; [| split; [| split]].
  - exact (proj1 (proj2 (C8_getMediaSource_resolution Sample.registry
      (Sample.song "nowhere" (Some "https://cdn.example/42.mp3")) "128k"))
      eq_refl).
  - exact (proj1 (proj2 (proj2 (C8_getMediaSource_resolution Sample.registry
      (Sample.song "B" (Some "https://cdn.example/42.mp3")) "128k")))
      _ eq_refl eq_refl).
  - exact (proj1 (proj2 (proj2 (proj2 (C8_getMediaSource_resolution
      Sample.registry
      (Sample.song "A" (Some "https://cdn.example/42.mp3")) "128k")))
      _ eq_refl eq_refl eq_refl) _ eq_refl ltac:(discriminate)).
  - exact (proj2 (proj2 (proj2 (proj2 (C8_getMediaSource_resolution
      Sample.registry (Sample.song "A" None) "128k")))
      _ eq_refl eq_refl eq_refl) (or_introl eq_refl)).
Defined.

(** ** User variables ([helpers/PluginManager.ts]) *)

Lemma get_mutateUserConfig pm pluginId c plugin :
  HelpersPluginManager.get pm pluginId = Some plugin ->
  exists plugin',
    HelpersPluginManager.get
      (HelpersPluginManager.mutateUserConfig pm pluginId c) pluginId
    = Some plugin'
    /\ HelpersPluginManager.userConfig plugin' = c.
Proof.
  unfold HelpersPluginManager.get, HelpersPluginManager.mutateUserConfig. simpl.
  induction (HelpersPluginManager.plugins pm) as [|kv l IH]; simpl; [done |].
  destruct (HelpersPluginManager.hasKey pluginId kv) eqn:Hk; simpl.
  - intros _. unfold HelpersPluginManager.hasKey in *. simpl. rewrite Hk.
    simpl. eauto.
  - rewrite Hk. exact IH.
Qed.

(** C7, as amended: when the durable write fails, [setPluginUserVariable]
    fails with the error of the write and the durable store is unchanged,
    but the value assigned in memory before the write stays: for a variable
    name other than [__proto__] (an assignment to which a plain object does
    not store), a following read of that user variable returns the value
    the failed call set. *)
Theorem C7_failed_write_keeps_the_new_value
  (pm : HelpersPluginManager.PluginManager) (pluginId key value : string)
  (e : JsError) (plugin : HelpersPluginManager.ManagedPlugin) :
  HelpersPluginManager.get pm pluginId = Some plugin ->
  key <> "__proto__" ->
  let after :=
    HelpersPluginManager.setPluginUserVariable pm pluginId key value (Threw e) in
  fst after = Threw e
  /\ HelpersPluginManager.persisted (snd after)
     = HelpersPluginManager.persisted pm
  /\ readUserVariable (snd after) pluginId key = Returned (Some value).
Proof.
  intros Hget Hkey. simpl. unfold HelpersPluginManager.setPluginUserVariable.
  rewrite Hget. simpl. repeat split.
  unfold readUserVariable, HelpersPluginManager.getUserVariables.
  edestruct get_mutateUserConfig as (plugin' & -> & ->); [exact Hget |].
  simpl. by rewrite setProperty_ordinary, lookup_insert_eq.
Qed.

(** The sample manager, with the store refusing the write. *)
Lemma C7_failed_write_keeps_the_new_value_witness :
  fst (HelpersPluginManager.setPluginUserVariable Sample.manager "A" "token"
         "new" (Threw Sample.quotaExceeded))
  = Threw Sample.quotaExceeded
  /\ readUserVariable
       (snd (HelpersPluginManager.setPluginUserVariable Sample.manager "A"
               "token" "new" (Threw Sample.quotaExceeded)))
       "A" "token"
     = Returned (Some "new").
Proof.
  destruct (C7_failed_write_keeps_the_new_value Sample.manager "A" "token" "new"
              Sample.quotaExceeded
              (Sample.managed "A" (Some {[ "token" := "old" ]}) (Some true) None)
              eq_refl ltac:(discriminate)) as (H1 & _ & H2).
  exact (conj H1 H2).
Defined.

(** C7 fails as stated: the variable [token] reads [old] before the call;
    the call fails because the durable write fails; the variable reads
    [new] afterwards, not [old]: nothing is rolled back. *)
Lemma C7_counterexample :
  let after :=
    HelpersPluginManager.setPluginUserVariable Sample.manager "A" "token" "new"
      (Threw Sample.quotaExceeded) in
  readUserVariable Sample.manager "A" "token" = Returned (Some "old")
  /\ fst after = Threw Sample.quotaExceeded
  /\ readUserVariable (snd after) "A" "token" = Returned (Some "new")
  /\ readUserVariable (snd after) "A" "token"
     <> readUserVariable Sample.manager "A" "token".
Proof. vm_compute. repeat split. discriminate. Qed.

(** ** The host's fan-out search ([plugins/core/PluginManager.ts]) *)

Lemma stampResult_platform n raw items :
  IPlugin.data (CorePluginManager.stampResult n raw) = Some items ->
  Forall (fun item => item_platform item = n) items.
Proof.
  unfold CorePluginManager.stampResult. simpl.
  destruct (IPlugin.data raw) as [l|]; [| done]. intros [= <-].
  induction l; simpl; constructor; auto.
Qed.

Lemma searchTask_returns query page type results plugin :
  CorePluginManager.searchTask query page type results plugin
  = Returned
      match PluginLoader.search (PluginRegistry.instance plugin) with
      | Some search =>
          match search query page type with
          | Returned raw =>
              setProperty (CorePluginManager.resultKey plugin)
                (CorePluginManager.stampResult (PluginRegistry.name plugin) raw)
                results
          | Threw _ => results
          end
      | None => results
      end.
Proof.
  unfold CorePluginManager.searchTask.
  destruct (PluginLoader.search (PluginRegistry.instance plugin)) as [search|];
    [| done].
  by destruct (search query page type).
Qed.

Lemma forEachM_searchTask query page type plugins results :
  exists results',
    forEachM (CorePluginManager.searchTask query page type) plugins results
    = Returned results'
    /\ forall k r,
         results' !! k = Some r ->
         results !! k = Some r
         \/ exists plugin search raw,
              plugin ∈ plugins
              /\ PluginLoader.search (PluginRegistry.instance plugin) = Some search
              /\ search query page type = Returned raw
              /\ k = CorePluginManager.resultKey plugin
              /\ r = CorePluginManager.stampResult (PluginRegistry.name plugin) raw.
Proof.
  revert results. induction plugins as [|p plugins IH]; intros results.
  - exists results. split; [done | auto].
  - cbn [forEachM]. rewrite searchTask_returns. cbn [mbind Outcome_bind].
    match goal with |- context [forEachM _ plugins ?m] =>
      destruct (IH m) as (results' & -> & Hk) end.
    exists results'. split; [done |]. intros k r Hkr.
    destruct (Hk k r Hkr) as [Hin | (q & s & w & Hq & ?)];
      [| right; exists q, s, w; split; [by right | done]].
    destruct (PluginLoader.search (PluginRegistry.instance p)) as [search|] eqn:Hs;
      [| by left].
    destruct (search query page type) as [raw|e] eqn:Hr; [| by left].
    apply lookup_setProperty_Some in Hin as [[-> ->] | Hin]; [| by left].
    right. exists p, search, raw. repeat split; [left | done..].
Qed.

Lemma selected_true type pluginNames plugin :
  CorePluginManager.selected type pluginNames plugin = true ->
  PluginRegistry.enabled (PluginRegistry.meta plugin) = true
  /\ (forall names, pluginNames = Some names ->
        exists n, n ∈ names /\ PluginRegistry.name plugin = Some n)
  /\ (forall types,
        PluginLoader.supportedSearchType (PluginRegistry.instance plugin)
        = Some types ->
        type ∈ types).
Proof.
  unfold CorePluginManager.selected. intros H.
  apply andb_true_iff in H as [H Htypes].
  apply andb_true_iff in H as [Hen Hnames].
  split; [done |]. split.
  - intros names ->. apply existsb_exists in Hnames as (n & Hn & Heq).
    exists n. split; [by apply list_elem_of_In |].
    apply js_eq_true in Heq. by symmetry.
  - intros types Ht. rewrite Ht in Htypes.
    apply existsb_exists in Htypes as (t & Hin & Heq).
    assert (t = type) as -> by (by destruct type, t).
    by apply list_elem_of_In.
Qed.


(** ** Aggregated search ([helpers/searchAll.ts]) *)

Lemma findIndex_range {A} (p : A -> bool) l :
  (existsb p l = false /\ findIndex p l = -1)
  \/ (existsb p l = true /\ 0 <= findIndex p l < Z.of_nat (length l)).
Proof.
  induction l as [|x l IH]; simpl; [by left |].
  destruct (p x); simpl; [right; split; [done | lia] |].
  destruct IH as [[-> ->] | [-> Hr]]; [by left | right].
  split; [done |].
  destruct (findIndex p l <? 0) eqn:E; [apply Z.ltb_lt in E; lia | lia].
Qed.

Lemma findIndex_app_hit {A} (p : A -> bool) pre rest :
  existsb p pre = true -> findIndex p (pre ++ rest) = findIndex p pre.
Proof.
  induction pre as [|x pre IH]; simpl; [done |].
  destruct (p x); simpl; [done |]. intros H. by rewrite IH.
Qed.

Lemma findIndex_app_miss {A} (p : A -> bool) pre x rest :
  existsb p pre = false -> p x = true ->
  findIndex p (pre ++ x :: rest) = Z.of_nat (length pre).
Proof.
  intros Hpre Hx. induction pre as [|y pre IH]; simpl in *; [by rewrite Hx |].
  apply orb_false_iff in Hpre as [-> Hpre]. rewrite (IH Hpre).
  destruct (Z.of_nat (length pre) <? 0) eqn:E; [apply Z.ltb_lt in E; lia | lia].
Qed.

Lemma sameTrack_key a b : SearchAll.sameTrack a b = true <-> trackKey a = trackKey b.
Proof.
  unfold SearchAll.sameTrack, trackKey.
  rewrite andb_true_iff, !String.eqb_eq. split.
  - intros [-> ->]. done.
  - intros [= -> ->]. done.
Qed.

Lemma sameTrack_refl a : SearchAll.sameTrack a a = true.
Proof. by apply sameTrack_key. Qed.

Lemma sameTrack_congr a b s :
  SearchAll.sameTrack a b = true ->
  SearchAll.sameTrack b s = SearchAll.sameTrack a s.
Proof.
  intros Hab. apply sameTrack_key in Hab. revert Hab.
  unfold SearchAll.sameTrack, trackKey. by intros [= -> ->].
Qed.

(** The index test of the source keeps exactly the first-seen tracks. *)
Lemma filter_from_firstSeen pre l :
  filter_from
    (fun track index self => index =? findIndex (SearchAll.sameTrack track) self)
    (pre ++ l) (Z.of_nat (length pre)) l
  = firstSeen pre l.
Proof.
  revert pre. induction l as [|t l IH]; intros pre; simpl; [done |].
  assert (pre ++ t :: l = (pre ++ [t]) ++ l) as Hself by by rewrite <- app_assoc.
  assert (Z.of_nat (length pre) + 1 = Z.of_nat (length (pre ++ [t]))) as Hidx
    by (rewrite length_app; simpl; lia).
  destruct (existsb (SearchAll.sameTrack t) pre) eqn:Hseen.
  - rewrite findIndex_app_hit by done.
    destruct (findIndex_range (SearchAll.sameTrack t) pre) as [[? _] | [_ Hr]];
      [congruence |].
    assert ((Z.of_nat (length pre) =? findIndex (SearchAll.sameTrack t) pre)
            = false) as -> by (apply Z.eqb_neq; lia).
    rewrite Hself, Hidx. apply IH.
  - rewrite findIndex_app_miss by (done || apply sameTrack_refl).
    rewrite Z.eqb_refl, Hself, Hidx. f_equal. apply IH.
Qed.

Lemma uniqueResults_firstSeen l : SearchAll.uniqueResults l = firstSeen [] l.
Proof. exact (filter_from_firstSeen [] l). Qed.

Lemma existsb_snoc {A} (p : A -> bool) l x :
  existsb p (l ++ [x]) = existsb p l || p x.
Proof. rewrite existsb_app. simpl. by rewrite orb_false_r. Qed.

Lemma existsb_sameTrack_congr a b seen :
  SearchAll.sameTrack a b = true ->
  existsb (SearchAll.sameTrack b) seen = existsb (SearchAll.sameTrack a) seen.
Proof.
  intros Hab. induction seen as [|s seen IH]; simpl; [done |].
  by rewrite IH, (sameTrack_congr a b s).
Qed.

Lemma keep_firstSeen t seen l :
  keep (SearchAll.sameTrack t) (firstSeen seen l)
  = if existsb (SearchAll.sameTrack t) seen then []
    else take 1 (keep (SearchAll.sameTrack t) l).
Proof.
  revert seen. induction l as [|x l IH]; intros seen; simpl.
  - by destruct (existsb _ seen).
  - assert (existsb (SearchAll.sameTrack t) (seen ++ [x])
            = existsb (SearchAll.sameTrack t) seen || SearchAll.sameTrack t x)
      as Hsnoc by apply existsb_snoc.
    destruct (SearchAll.sameTrack t x) eqn:Htx.
    + assert (existsb (SearchAll.sameTrack x) seen
              = existsb (SearchAll.sameTrack t) seen) as ->.
      { by apply existsb_sameTrack_congr. }
      rewrite orb_true_r in Hsnoc.
      destruct (existsb (SearchAll.sameTrack t) seen); simpl;
        rewrite ?Htx, IH, Hsnoc; done.
    + rewrite orb_false_r in Hsnoc.
      destruct (existsb (SearchAll.sameTrack x) seen); simpl;
        rewrite ?Htx, IH, Hsnoc; done.
Qed.

(** Per pair, the de-duplicated list holds exactly the first track that
    the aggregated list holds for that pair. *)
Lemma keep_uniqueResults t l :
  keep (SearchAll.sameTrack t) (SearchAll.uniqueResults l)
  = take 1 (keep (SearchAll.sameTrack t) l).
Proof. rewrite uniqueResults_firstSeen. apply keep_firstSeen. Qed.

Lemma firstSeen_sublist seen l : sublist (firstSeen seen l) l.
Proof.
  revert seen. induction l as [|x l IH]; intros seen; simpl; [done |].
  destruct (existsb _ seen); [apply sublist_cons | apply sublist_skip]; apply IH.
Qed.

Lemma keep_hit {A} (p : A -> bool) l x : x ∈ l -> p x = true -> keep p l <> [].
Proof.
  intros Hx Hp Hnil. assert (x ∈ keep p l) as H by by apply elem_of_keep.
  rewrite Hnil in H. inversion H.
Qed.

Section SearchAllFacts.
Variables (searchText : string) (page : Z) (pst : ICommon.SupportMediaType).

Lemma searchOne_contribution acc plugin :
  SearchAll.searchOne searchText page pst acc plugin
  = Returned (fst acc ++ fst (contribution searchText page pst plugin),
              snd acc || snd (contribution searchText page pst plugin)).
Proof.
  assert (Returned acc = Returned (fst acc ++ [], snd acc || false)
            :> Outcome (list SearchAll.Track * bool)) as Hsame
    by (destruct acc; simpl; by rewrite app_nil_r, orb_false_r).
  unfold SearchAll.searchOne, contribution.
  destruct (SearchAll.instanceSearch plugin) as [search|]; [| exact Hsame].
  destruct (SearchAll.notDisabled plugin); [| exact Hsame].
  destruct (search searchText page pst) as [result|e]; simpl; [| exact Hsame].
  destruct (IPlugin.data result) as [[|item items]|]; simpl; try exact Hsame.
  do 2 f_equal.
  case_bool_decide; simpl; [by rewrite orb_true_r | by rewrite orb_false_r].
Qed.

Lemma forEachM_searchOne plugins acc :
  forEachM (SearchAll.searchOne searchText page pst) plugins acc
  = Returned
      (fst acc ++ concat (map (fun p => fst (contribution searchText page pst p))
                            plugins),
       snd acc || existsb (fun p => snd (contribution searchText page pst p))
                    plugins).
Proof.
  revert acc. induction plugins as [|p plugins IH]; intros acc; simpl.
  - destruct acc; simpl. by rewrite app_nil_r, orb_false_r.
  - rewrite searchOne_contribution. simpl. rewrite IH. simpl.
    by rewrite app_assoc, orb_assoc.
Qed.

Lemma contribution_more plugin :
  snd (contribution searchText page pst plugin) = true
  <-> SearchAll.notDisabled plugin = true
      /\ reportsMore searchText page pst plugin.
Proof.
  unfold contribution, reportsMore. split.
  - destruct (SearchAll.instanceSearch plugin) as [search|]; [| done].
    destruct (SearchAll.notDisabled plugin); [| done].
    destruct (search searchText page pst) as [result|e] eqn:Hs; [| done].
    destruct (IPlugin.data result) as [[|item items]|] eqn:Hd; try done.
    simpl. intros H. apply bool_decide_eq_true in H.
    split; [done |]. exists search, result, item, items. done.
  - intros (-> & search & result & item & items & -> & -> & -> & ->). done.
Qed.

Lemma contribution_silent plugin search :
  SearchAll.instanceSearch plugin = Some search ->
  (exists result, search searchText page pst = Returned result
                  /\ IPlugin.data result = Some [])
  \/ (exists e, search searchText page pst = Threw e) ->
  contribution searchText page pst plugin = ([], false).
Proof.
  intros Hi Hs. unfold contribution. rewrite Hi.
  destruct (SearchAll.notDisabled plugin); [| done].
  destruct Hs as [(result & -> & ->) | (e & ->)]; done.
Qed.

Lemma contribution_tracks plugin t :
  t ∈ fst (contribution searchText page pst plugin) ->
  exists search result items item,
    SearchAll.instanceSearch plugin = Some search
    /\ search searchText page pst = Returned result
    /\ IPlugin.data result = Some items
    /\ item ∈ items
    /\ t = SearchAll.toTrack plugin pst item.
Proof.
  unfold contribution.
  destruct (SearchAll.instanceSearch plugin) as [search|];
    [| intros H; inversion H].
  destruct (SearchAll.notDisabled plugin); [| intros H; inversion H].
  destruct (search searchText page pst) as [result|e] eqn:Hs;
    [| intros H; inversion H].
  destruct (IPlugin.data result) as [[|item items]|] eqn:Hd;
    try (intros H; inversion H; fail).
  cbn [fst]. intros Ht. apply elem_of_map in Ht as (i & -> & Hi).
  exists search, result, (item :: items), i. done.
Qed.

End SearchAllFacts.

Lemma active_notDisabled pm plugin :
  plugin ∈ HelpersPluginManager.getActivePlugins pm ->
  SearchAll.notDisabled plugin = true.
Proof.
  unfold HelpersPluginManager.getActivePlugins. intros H.
  apply elem_of_keep in H as [_ H]. apply andb_true_iff in H as [H _]. exact H.
Qed.

(** [searchAll] never throws: it returns the de-duplicated concatenation of
    the active plugins' contributions, in enumeration order, and the
    disjunction of their reports. *)
Lemma searchAll_contributions pm searchText page type :
  SearchAll.searchAll pm searchText page type
  = Returned
      {| SearchAll.data :=
           SearchAll.uniqueResults
             (concat (map (fun p => fst (contribution searchText page
                                           (SearchAll.mapSearchType type) p))
                        (HelpersPluginManager.getActivePlugins pm)));
         SearchAll.hasMore :=
           existsb (fun p => snd (contribution searchText page
                                    (SearchAll.mapSearchType type) p))
             (HelpersPluginManager.getActivePlugins pm) |}.
Proof.
  unfold SearchAll.searchAll, SearchAll.aggregate.
  by rewrite forEachM_searchOne.
Qed.

(** What an active plugin returned is in the aggregated list, in the order
    in which the plugin returned it. *)
Lemma aggregated_holds_the_items pm searchText page pst plugin search result
  items :
  plugin ∈ HelpersPluginManager.getActivePlugins pm ->
  SearchAll.instanceSearch plugin = Some search ->
  search searchText page pst = Returned result ->
  IPlugin.data result = Some items ->
  exists earlier later,
    HelpersPluginManager.getActivePlugins pm = earlier ++ plugin :: later
    /\ concat (map (fun p => fst (contribution searchText page pst p))
                 (HelpersPluginManager.getActivePlugins pm))
       = concat (map (fun p => fst (contribution searchText page pst p)) earlier)
         ++ map (SearchAll.toTrack plugin pst) items
         ++ concat (map (fun p => fst (contribution searchText page pst p))
                      later).
Proof.
  intros Hactive Hsearch Hresult Hitems.
  pose proof (active_notDisabled pm plugin Hactive) as Hn.
  apply list_elem_of_split in Hactive as (earlier & later & Hsplit).
  exists earlier, later. split; [done |].
  rewrite Hsplit, map_app, concat_app. simpl. do 2 f_equal.
  unfold contribution. rewrite Hsearch, Hn, Hresult, Hitems.
  by destruct items.
Qed.

Lemma keep_first_of_its_pair before t after :
  (forall x, x ∈ before ->
     SearchAll.id x <> SearchAll.id t
     \/ SearchAll.platform x <> SearchAll.platform t) ->
  keep (SearchAll.sameTrack t) (before ++ t :: after)
  = t :: keep (SearchAll.sameTrack t) after.
Proof.
  intros Hb. rewrite keep_app. simpl. rewrite sameTrack_refl.
  assert (keep (SearchAll.sameTrack t) before = []) as ->; [| done].
  induction before as [|x before IH]; simpl; [done |].
  destruct (SearchAll.sameTrack t x) eqn:E.
  - apply sameTrack_key in E. injection E as E1 E2.
    destruct (Hb x (list_elem_of_here _ _)); congruence.
  - apply IH. intros y Hy. apply Hb. by right.
Qed.

Lemma uniqueResults_represents aggregatedResults t :
  t ∈ aggregatedResults ->
  exists r, r ∈ SearchAll.uniqueResults aggregatedResults
            /\ trackKey r = trackKey t.
Proof.
  intros Ht.
  pose proof (keep_uniqueResults t aggregatedResults) as Hk.
  destruct (keep (SearchAll.sameTrack t) aggregatedResults) as [|r rest] eqn:E.
  - exfalso. eapply keep_hit; [exact Ht | apply sameTrack_refl | exact E].
  - simpl in Hk. assert (r ∈ keep (SearchAll.sameTrack t)
                                 (SearchAll.uniqueResults aggregatedResults))
      as Hr by (rewrite Hk; left).
    apply elem_of_keep in Hr as [Hr Hs]. exists r. split; [done |].
    symmetry. by apply sameTrack_key.
Qed.



(** C2: [searchAll] returns, and the [hasMore] it returns is [true] exactly
    when some active provider returned at least one item together with
    [isEnd === false].  A provider that threw, returned no item, left
    [isEnd] out or returned [isEnd: true] is no such provider. *)
Theorem C2_hasMore_iff_some_provider_reports_more
  (pm : HelpersPluginManager.PluginManager) (searchText : string) (page : Z)
  (type : SearchAll.SearchAllType) :
  exists result,
    SearchAll.searchAll pm searchText page type = Returned result
    /\ (SearchAll.hasMore result = true
        <-> exists plugin,
              plugin ∈ HelpersPluginManager.getActivePlugins pm
              /\ reportsMore searchText page (SearchAll.mapSearchType type)
                   plugin).
Proof.
  eexists. split; [apply searchAll_contributions |]. simpl.
  rewrite existsb_exists. split.
  - intros (p & Hp & Hc). apply contribution_more in Hc as [_ Hc].
    exists p. split; [by apply list_elem_of_In | done].
  - intros (p & Hp & Hr). exists p. split; [by apply list_elem_of_In |].
    apply contribution_more. split; [by eapply active_notDisabled | done].
Qed.

Lemma uniqueResults_two t1 t2 :
  SearchAll.id t1 <> SearchAll.id t2 -> SearchAll.uniqueResults [t1; t2] = [t1; t2].
Proof.
  intros Hid. rewrite uniqueResults_firstSeen. simpl.
  unfold SearchAll.sameTrack at 1.
  apply String.eqb_neq in Hid. by rewrite Hid.
Qed.

(** The contributions of a list in which one plugin contributes and all
    others are silent. *)
Lemma concat_one_contribution {A B} (f : A -> list B) before a after :
  (forall x, x ∈ before ++ after -> f x = []) ->
  concat (map f (before ++ a :: after)) = f a.
Proof.
  intros Hs.
  assert (forall l, (forall x, x ∈ l -> f x = []) -> concat (map f l) = [])
    as Hnil.
  { induction l as [|x l IH]; simpl; [done |]. intros H.
    rewrite (H x (list_elem_of_here _ _)), IH; [done |].
    intros y Hy. apply H. by right. }
  rewrite map_app, concat_app. simpl.
  rewrite !Hnil, app_nil_r; [done | |];
    intros x Hx; apply Hs; apply elem_of_app; auto.
Qed.

(** C1, as amended: three active providers, in any enumeration order; [A]
    returns two items with different ids and [isEnd: false], [B] returns no
    item, [C] throws.  Then [searchAll] returns, without throwing, the two
    tracks made from the items of [A], in their order, each with the
    platform of [A], and [hasMore] is [true]. *)
Theorem C1_search_over_three_providers
  (pm : HelpersPluginManager.PluginManager) (searchText : string) (page : Z)
  (type : SearchAll.SearchAllType)
  (A B C : HelpersPluginManager.ManagedPlugin)
  (searchA searchB searchC :
     string -> Z -> ICommon.SupportMediaType -> Outcome IPlugin.ISearchResult)
  (i1 i2 : MediaItem) (resultB : IPlugin.ISearchResult) (e : JsError) :
  HelpersPluginManager.getActivePlugins pm ≡ₚ [A; B; C] ->
  SearchAll.instanceSearch A = Some searchA ->
  searchA searchText page (SearchAll.mapSearchType type)
  = Returned {| IPlugin.isEnd := Some false; IPlugin.data := Some [i1; i2] |} ->
  item_id i1 <> item_id i2 ->
  SearchAll.instanceSearch B = Some searchB ->
  searchB searchText page (SearchAll.mapSearchType type) = Returned resultB ->
  IPlugin.data resultB = Some [] ->
  SearchAll.instanceSearch C = Some searchC ->
  searchC searchText page (SearchAll.mapSearchType type) = Threw e ->
  let t1 := SearchAll.toTrack A (SearchAll.mapSearchType type) i1 in
  let t2 := SearchAll.toTrack A (SearchAll.mapSearchType type) i2 in
  SearchAll.searchAll pm searchText page type
  = Returned {| SearchAll.data := [t1; t2]; SearchAll.hasMore := true |}
  /\ SearchAll.id t1 = item_id i1
  /\ SearchAll.id t2 = item_id i2
  /\ SearchAll.platform t1
     = HelpersPluginManager.platform (HelpersPluginManager.spread A)
  /\ SearchAll.platform t2
     = HelpersPluginManager.platform (HelpersPluginManager.spread A).
Proof.
  intros Hperm HA HsA Hid HB HsB HdB HC HsC. simpl.
  split; [| done].
  set (pst := SearchAll.mapSearchType type) in *.
  assert (A ∈ HelpersPluginManager.getActivePlugins pm) as Hin
    by (rewrite Hperm; left).
  assert (contribution searchText page pst A
          = ([SearchAll.toTrack A pst i1; SearchAll.toTrack A pst i2], true))
    as HcA.
  { unfold contribution.
    rewrite HA, (active_notDisabled _ _ Hin), HsA. done. }
  assert (contribution searchText page pst B = ([], false)) as HcB
    by (eapply contribution_silent; eauto).
  assert (contribution searchText page pst C = ([], false)) as HcC
    by (eapply contribution_silent; eauto).
  rewrite searchAll_contributions. fold pst.
  destruct (list_elem_of_split _ _ Hin) as (before & after & Hsplit).
  assert (forall x, x ∈ before ++ after ->
            contribution searchText page pst x = ([], false)) as Hsilent.
  { assert (before ++ after ≡ₚ [B; C]) as Hrest.
    { apply (Permutation_cons_inv (a := A)).
      rewrite Permutation_middle, <- Hsplit. exact Hperm. }
    intros x Hx. rewrite Hrest in Hx.
    apply elem_of_cons in Hx as [-> | Hx]; [done |].
    apply list_elem_of_singleton in Hx as ->. done. }
  rewrite Hsplit, concat_one_contribution
    by (intros x Hx; by rewrite (Hsilent x Hx)).
  rewrite HcA. simpl fst.
  rewrite uniqueResults_two by done.
  do 2 f_equal. rewrite existsb_app. simpl. rewrite HcA. simpl.
  by rewrite orb_true_r.
Qed.

(** The three sample providers, [A] returning the items 1 and 2. *)
Lemma C1_search_over_three_providers_witness :
  SearchAll.searchAll (Sample.threeProviders Sample.twoItems) "love" 1
    SearchAll.songs
  = Returned
      {| SearchAll.data :=
           [SearchAll.toTrack (Sample.providerA Sample.twoItems) ICommon.music
              (Sample.item "1" "One");
            SearchAll.toTrack (Sample.providerA Sample.twoItems) ICommon.music
              (Sample.item "2" "Two")];
         SearchAll.hasMore := true |}.
Proof.
  exact (proj1
    (C1_search_over_three_providers (Sample.threeProviders Sample.twoItems)
       "love" 1 SearchAll.songs
       (Sample.providerA Sample.twoItems) Sample.providerB Sample.providerC
       _ _ _ (Sample.item "1" "One") (Sample.item "2" "Two") Sample.noItems
       Sample.networkError
       (reflexivity _) eq_refl eq_refl ltac:(discriminate) eq_refl eq_refl
       eq_refl eq_refl eq_refl)).
Defined.

(** C1 fails as stated: when the two items that [A] returns carry the same
    id, the de-duplication keeps the first only, and the call returns one
    track, not two. *)
Lemma C1_counterexample :
  let pm := Sample.threeProviders Sample.sameItemTwice in
  HelpersPluginManager.getActivePlugins pm
  = [Sample.providerA Sample.sameItemTwice; Sample.providerB; Sample.providerC]
  /\ IPlugin.isEnd Sample.sameItemTwice = Some false
  /\ (length <$> IPlugin.data Sample.sameItemTwice) = Some 2%nat
  /\ IPlugin.data Sample.noItems = Some []
  /\ SearchAll.searchAll pm "love" 1 SearchAll.songs
     = Returned
         {| SearchAll.data :=
              [SearchAll.toTrack (Sample.providerA Sample.sameItemTwice)
                 ICommon.music (Sample.item "1" "One")];
            SearchAll.hasMore := true |}.
Proof. vm_compute. repeat split. Qed.

(** * Further properties *)

(** ** Arrays, continued *)

Lemma find_app {A} (p : A -> bool) l1 l2 :
  find p (l1 ++ l2)
  = match find p l1 with Some x => Some x | None => find p l2 end.
Proof.
  induction l1 as [|y l1 IH]; simpl; [done |]. by destruct (p y).
Qed.

Lemma find_split {A} (p : A -> bool) l x :
  find p l = Some x ->
  exists l1 l2, l = l1 ++ x :: l2 /\ find p l1 = None /\ p x = true.
Proof.
  induction l as [|y l IH]; simpl; [done |].
  destruct (p y) eqn:Hy.
  - intros [= ->]. exists [], l. done.
  - intros H. destruct (IH H) as (l1 & l2 & -> & Hn & Hx).
    exists (y :: l1), l2. simpl. rewrite Hy. done.
Qed.

Lemma updateFirst_split {A} (p : A -> bool) (f : A -> A) l1 x l2 :
  find p l1 = None -> p x = true ->
  updateFirst p f (l1 ++ x :: l2) = l1 ++ f x :: l2.
Proof.
  intros Hn Hx. induction l1 as [|y l1 IH]; simpl in *; [by rewrite Hx |].
  destruct (p y); [done |]. by rewrite IH.
Qed.

Lemma updateFirst_None {A} (p : A -> bool) (f : A -> A) l :
  find p l = None -> updateFirst p f l = l.
Proof.
  induction l as [|y l IH]; simpl; [done |].
  destruct (p y); [done |]. intros H. by rewrite IH.
Qed.

Lemma updateFirst_app {A} (p : A -> bool) (f : A -> A) l1 l2 :
  updateFirst p f (l1 ++ l2)
  = match find p l1 with
    | Some _ => updateFirst p f l1 ++ l2
    | None => l1 ++ updateFirst p f l2
    end.
Proof.
  induction l1 as [|y l1 IH]; simpl; [done |].
  destruct (p y); [done |]. rewrite IH. by destruct (find p l1).
Qed.

(** ** Enabling and disabling registry entries *)

(** [setPluginEnabled] acts on the list that [getAllPlugins] returns. *)
Lemma getAllPlugins_setPluginEnabled reg n b :
  PluginRegistry.getAllPlugins (PluginRegistry.setPluginEnabled reg n b)
  = updateFirst (PluginRegistry.hasName (Some n)) (PluginRegistry.setEnabled b)
      (PluginRegistry.getAllPlugins reg).
Proof.
  unfold PluginRegistry.setPluginEnabled, PluginRegistry.getPluginByName,
    PluginRegistry.getAllPlugins.
  rewrite updateFirst_app, find_app.
  destruct (find _ (PluginRegistry.builtinPlugins reg)) eqn:Hb; simpl; [done |].
  destruct (find _ (PluginRegistry.plugins reg)) eqn:Hp; simpl; [done |].
  by rewrite updateFirst_None.
Qed.

Lemma hasName_other n m x :
  m <> n ->
  PluginRegistry.hasName (Some n) x = true ->
  PluginRegistry.hasName (Some m) x = false.
Proof.
  unfold PluginRegistry.hasName. intros Hmn Hn. apply js_eq_true in Hn.
  rewrite Hn. simpl. by apply String.eqb_neq.
Qed.

(** Setting then asking: for a name that some entry carries,
    [isPluginEnabled] answers what [setPluginEnabled] was given; the answer
    for every other name is what it was; the entries keep their order and
    differ from the previous ones in the [enabled] flag only; and one
    [plugin-enabled] event is emitted. *)
Theorem setPluginEnabled_then_isPluginEnabled
  (reg : PluginRegistry.Registry) (n : string) (b : bool)
  (p : PluginRegistry.IRegisteredPlugin) :
  PluginRegistry.getPluginByName reg (Some n) = Some p ->
  let reg' := PluginRegistry.setPluginEnabled reg n b in
  PluginRegistry.isPluginEnabled reg' n = b
  /\ PluginRegistry.getPluginByName reg' (Some n)
     = Some (PluginRegistry.setEnabled b p)
  /\ (forall m, m <> n ->
        PluginRegistry.getPluginByName reg' (Some m)
        = PluginRegistry.getPluginByName reg (Some m))
  /\ (forall m, m <> n ->
        PluginRegistry.isPluginEnabled reg' m = PluginRegistry.isPluginEnabled reg m)
  /\ map sansEnabled (PluginRegistry.getAllPlugins reg')
     = map sansEnabled (PluginRegistry.getAllPlugins reg)
  /\ PluginRegistry.events reg'
     = PluginRegistry.events reg ++ [PluginRegistry.plugin_enabled (Some n) b].
Proof.
  intros Hfind. simpl.
  assert (PluginRegistry.getPluginByName
            (PluginRegistry.setPluginEnabled reg n b) (Some n)
          = Some (PluginRegistry.setEnabled b p)) as Hsame.
  { unfold PluginRegistry.getPluginByName in *.
    rewrite getAllPlugins_setPluginEnabled.
    destruct (find_split _ _ _ Hfind) as (l1 & l2 & -> & Hn & Hx).
    rewrite updateFirst_split, find_app, Hn by done. simpl.
    unfold PluginRegistry.hasName in *. simpl. by rewrite Hx. }
  assert (forall m, m <> n ->
            PluginRegistry.getPluginByName
              (PluginRegistry.setPluginEnabled reg n b) (Some m)
            = PluginRegistry.getPluginByName reg (Some m)) as Hother.
  { intros m Hm. unfold PluginRegistry.getPluginByName in *.
    rewrite getAllPlugins_setPluginEnabled.
    destruct (find_split _ _ _ Hfind) as (l1 & l2 & -> & Hn & Hx).
    rewrite updateFirst_split, !find_app by done. simpl.
    assert (PluginRegistry.hasName (Some m) (PluginRegistry.setEnabled b p)
            = PluginRegistry.hasName (Some m) p) as -> by done.
    by rewrite (hasName_other n m p Hm Hx). }
  split; [| split; [exact Hsame | split; [exact Hother | split; [| split]]]].
  - unfold PluginRegistry.isPluginEnabled. by rewrite Hsame.
  - intros m Hm. unfold PluginRegistry.isPluginEnabled. by rewrite Hother.
  - rewrite getAllPlugins_setPluginEnabled.
    unfold PluginRegistry.getPluginByName in Hfind.
    destruct (find_split _ _ _ Hfind) as (l1 & l2 & -> & Hn & Hx).
    rewrite updateFirst_split by done. by rewrite !map_app.
  - unfold PluginRegistry.setPluginEnabled. rewrite Hfind.
    by destruct (find _ (PluginRegistry.builtinPlugins reg)).
Qed.

(** Disabling the installed entry [A] of the sample registry. *)
Lemma setPluginEnabled_then_isPluginEnabled_witness :
  PluginRegistry.isPluginEnabled
    (PluginRegistry.setPluginEnabled Sample.registry "A" false) "A" = false
  /\ PluginRegistry.isPluginEnabled
       (PluginRegistry.setPluginEnabled Sample.registry "A" false) "local"
     = PluginRegistry.isPluginEnabled Sample.registry "local".
Proof.
  pose proof (setPluginEnabled_then_isPluginEnabled Sample.registry "A" false
                (Sample.entry "A" "hashA" (Some "3.0.0") true) eq_refl)
    as (H1 & _ & _ & H2 & _).
  exact (conj H1 (H2 "local" ltac:(discriminate))).
Defined.

(** ** Built-in entries *)

Section BuiltinFacts.
Variable host : PluginLoader.Host.

Lemma perform_builtins reg call :
  map sansEnabled (PluginRegistry.builtinPlugins (perform host reg call))
  = map sansEnabled (PluginRegistry.builtinPlugins reg).
Proof.
  destruct call as [code path nanoid | code path config n1 n2 copy | n b];
    simpl.
  - unfold PluginRegistry.loadPlugin.
    destruct (find _ (PluginRegistry.plugins reg)); [done |].
    by destruct (PluginLoader.state _).
  - unfold PluginRegistry.installPlugin.
    destruct (String.eqb code ""); [done |].
    destruct (find _ (PluginRegistry.plugins reg)); [done |].
    destruct (PluginRegistry.newerInstalled _ _ _ _) as [[|]|]; try done.
    destruct (PluginLoader.state _); try done.
    by destruct copy.
  - unfold PluginRegistry.setPluginEnabled.
    destruct (PluginRegistry.getPluginByName reg (Some n)); [| done].
    destruct (find _ (PluginRegistry.builtinPlugins reg)) as [x|] eqn:Hx;
      simpl; [| done].
    destruct (find_split _ _ _ Hx) as (l1 & l2 & -> & Hn & Hp).
    rewrite updateFirst_split by done. by rewrite !map_app.
Qed.

Lemma performAll_builtins calls reg :
  map sansEnabled (PluginRegistry.builtinPlugins (performAll host calls reg))
  = map sansEnabled (PluginRegistry.builtinPlugins reg).
Proof.
  revert reg. induction calls as [|call calls IH]; intros reg; [done |].
  change (performAll host (call :: calls) reg)
    with (performAll host calls (perform host reg call)).
  by rewrite IH, perform_builtins.
Qed.

End BuiltinFacts.

Lemma find_hasName_sansEnabled n l l' :
  map sansEnabled l = map sansEnabled l' ->
  sansEnabled <$> find (PluginRegistry.hasName n) l
  = sansEnabled <$> find (PluginRegistry.hasName n) l'.
Proof.
  revert l'. induction l as [|x l IH]; intros [|y l']; simpl; try done.
  intros H.
  assert (sansEnabled x = sansEnabled y) as Hxy by congruence.
  assert (map sansEnabled l = map sansEnabled l') as Hl by congruence.
  assert (PluginRegistry.hasName n x = PluginRegistry.hasName n y) as ->.
  { unfold PluginRegistry.hasName.
    pose proof (f_equal PluginRegistry.name Hxy) as Hname. simpl in Hname.
    by rewrite Hname. }
  destruct (PluginRegistry.hasName n y); simpl; [by rewrite Hxy | by apply IH].
Qed.

(** Built-in entries are permanent and take precedence.  After any
    sequence of [loadPlugin], [installPlugin] and [setPluginEnabled] calls
    the built-in entries are the ones the registry started with, in the
    same order, up to their [enabled] flags; [getAllPlugins] lists them
    before every installed entry; and a name that a built-in entry carries
    resolves to that built-in entry, also when a plugin of the same name
    has been installed. *)
Theorem builtin_entries_are_permanent_and_shadow
  (host : PluginLoader.Host) (builtins : list PluginRegistry.IRegisteredPlugin)
  (calls : list Call) :
  let reg := performAll host calls (freshRegistry builtins) in
  map sansEnabled (PluginRegistry.builtinPlugins reg) = map sansEnabled builtins
  /\ PluginRegistry.getAllPlugins reg
     = PluginRegistry.builtinPlugins reg ++ PluginRegistry.plugins reg
  /\ forall n b,
       find (PluginRegistry.hasName (Some n)) builtins = Some b ->
       exists b',
         PluginRegistry.getPluginByName reg (Some n) = Some b'
         /\ b' ∈ PluginRegistry.builtinPlugins reg
         /\ sansEnabled b' = sansEnabled b.
Proof.
  simpl.
  pose proof (performAll_builtins host calls (freshRegistry builtins)) as Hb.
  simpl in Hb. split; [exact Hb |]. split; [done |].
  intros n b Hfind.
  pose proof (find_hasName_sansEnabled (Some n) _ _ Hb) as Hf.
  rewrite Hfind in Hf. simpl in Hf.
  destruct (find (PluginRegistry.hasName (Some n))
              (PluginRegistry.builtinPlugins
                 (performAll host calls (freshRegistry builtins))))
    as [b'|] eqn:Hb'; [| done].
  assert (sansEnabled b' = sansEnabled b) as Hsame by (simpl in Hf; congruence).
  exists b'.
  unfold PluginRegistry.getPluginByName, PluginRegistry.getAllPlugins.
  rewrite find_app, Hb'. split; [done |]. split; [| done].
  by apply find_Some in Hb' as [? _].
Qed.

(** ** What every installed entry satisfies *)

Section InstalledFacts.
Variable host : PluginLoader.Host.

Lemma loadFromCode_mounted pluginCode pluginPath nanoid :
  let r := PluginLoader.loadFromCode host pluginCode pluginPath nanoid in
  PluginLoader.state r = PluginLoader.Mounted ->
  truthy (PluginLoader.name r) = true
  /\ PluginLoader.name r = PluginLoader.platform (PluginLoader.instance r)
  /\ PluginLoader.errorReason r = None.
Proof.
  simpl. unfold PluginLoader.loadFromCode, PluginLoader.tryLoad.
  destruct (PluginLoader.evalSource host pluginCode) as [[inst|]|e];
    simpl; try discriminate.
  unfold PluginLoader.validatePlugin.
  destruct (truthy (PluginLoader.version inst) && _); simpl; [discriminate |].
  destruct (truthy (PluginLoader.platform inst)) eqn:Hp; simpl;
    [| discriminate].
  intros _. destruct (filterUserVariables_identity inst) as [-> _]. done.
Qed.

Lemma loadFromCode_hash pluginCode pluginPath nanoid :
  PluginLoader.hash (PluginLoader.loadFromCode host pluginCode pluginPath nanoid)
  = nanoid.
Proof.
  unfold PluginLoader.loadFromCode.
  by destruct (PluginLoader.tryLoad host pluginCode).
Qed.

Lemma Forall_keep {A} (P : A -> Prop) (p : A -> bool) l :
  Forall P l -> Forall P (keep p l).
Proof.
  induction 1 as [|x l Hx Hl IH]; simpl; [constructor |].
  destruct (p x); [by constructor | done].
Qed.

Lemma removeOld_invariant existing l new :
  Forall wellFormed l ->
  NoDup (map PluginRegistry.hash l) ->
  wellFormed new ->
  find (PluginRegistry.hasHash (PluginRegistry.hash new)) l = None ->
  Forall wellFormed (PluginRegistry.removeOld existing l ++ [new])
  /\ NoDup (map PluginRegistry.hash (PluginRegistry.removeOld existing l ++ [new])).
Proof.
  intros Hw Hd Hnew Hfresh.
  assert (PluginRegistry.hash new ∉ map PluginRegistry.hash l) as Hnot.
  { rewrite elem_of_map. intros (x & Hx & Hin).
    rewrite find_None in Hfresh. specialize (Hfresh x Hin).
    unfold PluginRegistry.hasHash in Hfresh.
    rewrite Hx, String.eqb_refl in Hfresh. done. }
  destruct existing as [e|]; simpl.
  - split.
    + apply Forall_app. split; [by apply Forall_keep | by constructor].
    + apply NoDup_map_snoc; [by apply NoDup_map_keep |].
      rewrite elem_of_map. intros (x & Hx & Hin).
      apply elem_of_keep in Hin as [Hin _].
      apply Hnot. rewrite elem_of_map. eauto.
  - split.
    + apply Forall_app. split; [done | by constructor].
    + by apply NoDup_map_snoc.
Qed.

Lemma removeOld_invariant_only existing l :
  Forall wellFormed l ->
  NoDup (map PluginRegistry.hash l) ->
  Forall wellFormed (PluginRegistry.removeOld existing l)
  /\ NoDup (map PluginRegistry.hash (PluginRegistry.removeOld existing l)).
Proof.
  intros Hw Hd. destruct existing; simpl; [| done].
  split; [by apply Forall_keep | by apply NoDup_map_keep].
Qed.

Lemma updateFirst_setEnabled_invariant p b l :
  Forall wellFormed l ->
  NoDup (map PluginRegistry.hash l) ->
  Forall wellFormed (updateFirst p (PluginRegistry.setEnabled b) l)
  /\ NoDup (map PluginRegistry.hash
              (updateFirst p (PluginRegistry.setEnabled b) l)).
Proof.
  intros Hw Hd. split.
  - clear Hd. induction Hw as [|x l Hx Hl IH]; simpl; [constructor |].
    destruct (p x); constructor; auto.
  - assert (map PluginRegistry.hash
              (updateFirst p (PluginRegistry.setEnabled b) l)
            = map PluginRegistry.hash l) as ->; [| done].
    clear. induction l as [|x l IH]; simpl; [done |].
    destruct (p x); simpl; [done | by rewrite IH].
Qed.

Lemma perform_invariant reg call :
  installedInvariant reg -> installedInvariant (perform host reg call).
Proof.
  intros [Hw Hd].
  destruct call as [code path nanoid | code path config n1 n2 copy | n b];
    simpl.
  - unfold PluginRegistry.loadPlugin.
    pose proof (loadFromCode_mounted code path nanoid) as Hm.
    pose proof (loadFromCode_hash code path nanoid) as Hh. simpl in Hm.
    destruct (find _ (PluginRegistry.plugins reg)) eqn:Hf; [done |].
    destruct (PluginLoader.state _) eqn:Hs; try done.
    destruct (Hm eq_refl) as (Ht & Hn & _).
    unfold installedInvariant. simpl.
    rewrite removeOld_pushed by done.
    apply removeOld_invariant; try done; by repeat split.
  - unfold PluginRegistry.installPlugin.
    destruct (String.eqb code ""); [done |].
    pose proof (loadFromCode_mounted code path n1) as Hm.
    pose proof (loadFromCode_hash code path n1) as Hh. simpl in Hm.
    destruct (find _ (PluginRegistry.plugins reg)) eqn:Hf; [done |].
    destruct (PluginRegistry.newerInstalled _ _ _ _) as [[|]|]; try done.
    destruct (PluginLoader.state _) eqn:Hs; try done.
    destruct (Hm eq_refl) as (Ht & Hn & _).
    destruct copy; unfold installedInvariant; simpl.
    + apply removeOld_invariant; try done; by repeat split.
    + by apply removeOld_invariant_only.
  - unfold PluginRegistry.setPluginEnabled.
    destruct (PluginRegistry.getPluginByName reg (Some n)); [| done].
    destruct (find _ (PluginRegistry.builtinPlugins reg));
      unfold installedInvariant; simpl; [done |].
    by apply updateFirst_setEnabled_invariant.
Qed.

Lemma performAll_invariant calls reg :
  installedInvariant reg -> installedInvariant (performAll host calls reg).
Proof.
  revert reg. induction calls as [|call calls IH]; intros reg H; simpl;
    [done |].
  apply IH. by apply perform_invariant.
Qed.

End InstalledFacts.

(** From a registry with no installed entry, after any sequence of
    [loadPlugin], [installPlugin] and [setPluginEnabled] calls: every
    installed entry holds a mounted unit and is named after that unit's
    non-empty platform (a source that failed to load is never kept), and no
    two installed entries have the same hash. *)
Theorem installed_entries_are_mounted_named_and_distinct
  (host : PluginLoader.Host) (builtins : list PluginRegistry.IRegisteredPlugin)
  (calls : list Call) :
  let reg := performAll host calls (freshRegistry builtins) in
  (forall p, p ∈ PluginRegistry.plugins reg ->
     PluginRegistry.state p = PluginLoader.Mounted
     /\ (exists n, PluginRegistry.name p = Some n /\ n <> "")
     /\ PluginRegistry.name p = PluginLoader.platform (PluginRegistry.instance p))
  /\ NoDup (map PluginRegistry.hash (PluginRegistry.plugins reg)).
Proof.
  simpl.
  destruct (performAll_invariant host calls (freshRegistry builtins)) as [Hw Hd].
  { split; simpl; constructor. }
  split; [| exact Hd]. intros p Hp.
  rewrite Forall_forall in Hw. destruct (Hw p Hp) as (Hs & Ht & Hn).
  split; [done |]. split; [| done].
  destruct (PluginRegistry.name p) as [n|]; [| discriminate].
  exists n. split; [done |]. simpl in Ht.
  apply negb_true_iff in Ht. by apply String.eqb_neq.
Qed.

(** ** Re-installing a platform *)

Section ReinstallFacts.
Variable host : PluginLoader.Host.

Lemma installPlugin_mounted reg pluginCode pluginPath config nanoid1 nanoid2
  copyFile old :
  pluginCode <> "" ->
  let r := PluginLoader.loadFromCode host pluginCode pluginPath nanoid1 in
  PluginLoader.state r = PluginLoader.Mounted ->
  (forall q, q ∈ PluginRegistry.plugins reg -> PluginRegistry.hash q <> nanoid1) ->
  find (PluginRegistry.hasName (PluginLoader.name r)) (PluginRegistry.plugins reg)
  = Some old ->
  PluginRegistry.newerInstalled host (Some old) config (PluginLoader.instance r)
  = Returned false ->
  PluginRegistry.installPlugin host reg pluginCode pluginPath config
    nanoid1 nanoid2 copyFile
  = let remaining :=
      keep (fun p => negb (PluginRegistry.hasHash (PluginRegistry.hash old) p))
        (PluginRegistry.plugins reg) in
    match copyFile with
    | Threw e =>
        (Threw e,
         {| PluginRegistry.plugins := remaining;
            PluginRegistry.builtinPlugins := PluginRegistry.builtinPlugins reg;
            PluginRegistry.events := PluginRegistry.events reg |})
    | Returned _ =>
        (Returned {| PluginRegistry.success := true;
                     PluginRegistry.message := None;
                     PluginRegistry.pluginName := PluginLoader.name r;
                     PluginRegistry.pluginHash := Some nanoid1 |},
         {| PluginRegistry.plugins := remaining ++
              [ {| PluginRegistry.instance := PluginLoader.instance r;
                   PluginRegistry.state := PluginLoader.Mounted;
                   PluginRegistry.hash := nanoid1;
                   PluginRegistry.name := PluginLoader.name r;
                   PluginRegistry.path :=
                     PluginLoader.pluginPath host +:+ nanoid2 +:+ ".js";
                   PluginRegistry.meta :=
                     {| PluginRegistry.enabled := true;
                        PluginRegistry.order :=
                          PluginRegistry.order (PluginRegistry.meta old);
                        PluginRegistry.userVariables := ∅ |} |} ];
            PluginRegistry.builtinPlugins := PluginRegistry.builtinPlugins reg;
            PluginRegistry.events := PluginRegistry.events reg ++
              [PluginRegistry.plugin_installed (PluginLoader.name r)] |})
    end.
Proof.
  intros Hcode r Hs Hfresh Hold Hgate.
  assert (find (PluginRegistry.hasHash nanoid1) (PluginRegistry.plugins reg)
          = None) as Hnone.
  { apply find_None. intros q Hq. apply String.eqb_neq. by apply Hfresh. }
  subst r. unfold PluginRegistry.installPlugin.
  apply String.eqb_neq in Hcode. rewrite Hcode. cbv zeta.
  rewrite (loadFromCode_hash host pluginCode pluginPath nanoid1).
  rewrite Hnone, Hold, Hgate, Hs. simpl. by destruct copyFile.
Qed.

End ReinstallFacts.

(** Re-installing a platform, when the version gate lets the install
    through and the copy succeeds: the previous entry is removed and the
    new one is appended after the remaining installed entries.  The new
    entry keeps the previous entry's [order], but it is enabled and has no
    user variables whatever the previous entry's state was: a disabled
    plugin is enabled again by an upgrade and its user variables are
    dropped. *)
Theorem reinstall_keeps_order_resets_enabled_and_variables
  (host : PluginLoader.Host) (reg : PluginRegistry.Registry)
  (pluginCode pluginPath : string)
  (config : option PluginRegistry.IInstallPluginConfig)
  (nanoid1 nanoid2 : string) (old : PluginRegistry.IRegisteredPlugin) :
  pluginCode <> "" ->
  let r := PluginLoader.loadFromCode host pluginCode pluginPath nanoid1 in
  PluginLoader.state r = PluginLoader.Mounted ->
  (forall q, q ∈ PluginRegistry.plugins reg -> PluginRegistry.hash q <> nanoid1) ->
  find (PluginRegistry.hasName (PluginLoader.name r)) (PluginRegistry.plugins reg)
  = Some old ->
  PluginRegistry.newerInstalled host (Some old) config (PluginLoader.instance r)
  = Returned false ->
  NoDup (installedNames reg) ->
  let after :=
    snd (PluginRegistry.installPlugin host reg pluginCode pluginPath config
           nanoid1 nanoid2 (Returned ())) in
  exists new,
    PluginRegistry.plugins after
    = keep (fun p => negb (PluginRegistry.hasHash (PluginRegistry.hash old) p))
        (PluginRegistry.plugins reg) ++ [new]
    /\ (old ∉ PluginRegistry.plugins after)
    /\ find (PluginRegistry.hasName (PluginRegistry.name old))
         (PluginRegistry.plugins after) = Some new
    /\ PluginRegistry.name new = PluginRegistry.name old
    /\ PluginRegistry.hash new = nanoid1
    /\ PluginRegistry.order (PluginRegistry.meta new)
       = PluginRegistry.order (PluginRegistry.meta old)
    /\ PluginRegistry.enabled (PluginRegistry.meta new) = true
    /\ PluginRegistry.userVariables (PluginRegistry.meta new) = ∅.
Proof.
  intros Hcode r Hs Hfresh Hold Hgate Hdup. simpl.
  rewrite (installPlugin_mounted host reg pluginCode pluginPath config nanoid1
             nanoid2 (Returned ()) old) by done.
  simpl. eexists. split; [reflexivity |].
  pose proof (find_Some _ _ _ Hold) as [Hin Hname].
  apply js_eq_true in Hname. subst r.
  set (r := PluginLoader.loadFromCode host pluginCode pluginPath nanoid1) in *.
  assert (PluginLoader.name r
          ∉ map PluginRegistry.name
              (keep (fun p => negb (PluginRegistry.hasHash
                                      (PluginRegistry.hash old) p))
                 (PluginRegistry.plugins reg))) as Hgone.
  { pose proof (removeOld_clears (PluginLoader.name r)
                  (PluginRegistry.plugins reg) Hdup) as Hc.
    by rewrite Hold in Hc. }
  split; [| split; [| done]].
  - intros Hmem. apply elem_of_app in Hmem as [Hmem | Hmem].
    + apply elem_of_keep in Hmem as [_ Hh].
      unfold PluginRegistry.hasHash in Hh. by rewrite String.eqb_refl in Hh.
    + apply Hfresh in Hin. apply list_elem_of_singleton in Hmem.
      rewrite Hmem in Hin. done.
  - rewrite find_app.
    destruct (find _ (keep _ _)) as [x|] eqn:Hx.
    + exfalso. apply find_Some in Hx as [Hxin Hxn]. apply js_eq_true in Hxn.
      apply Hgone. rewrite elem_of_map. exists x. split; [congruence | done].
    + simpl. unfold PluginRegistry.hasName. simpl.
      assert (js_eq (PluginLoader.name r) (PluginRegistry.name old) = true)
        as -> by (by apply js_eq_true). done.
Qed.

(** The disabled entry [B] of the sample registry, installed again. *)
Lemma reinstall_keeps_order_resets_enabled_and_variables_witness :
  exists new,
    find (PluginRegistry.hasName (Some "B"))
      (PluginRegistry.plugins
         (snd (PluginRegistry.installPlugin (Reference.host "1.0.0")
                 Sample.registry Reference.sourceB "/downloads/b.js" None
                 "hashB2" "fileB2" (Returned ())))) = Some new
    /\ PluginRegistry.enabled (PluginRegistry.meta new) = true.
Proof.
  assert (forall q, q ∈ PluginRegistry.plugins Sample.registry ->
                    PluginRegistry.hash q <> "hashB2") as Hfresh.
  { intros q Hq. simpl in Hq.
    repeat (apply elem_of_cons in Hq as [-> | Hq]; [discriminate |]).
    inversion Hq. }
  assert (NoDup (installedNames Sample.registry)) as Hdup.
  { apply NoDup_cons. split.
    - intros H. apply elem_of_cons in H as [H | H]; [discriminate | inversion H].
    - apply NoDup_singleton. }
  destruct (reinstall_keeps_order_resets_enabled_and_variables
              (Reference.host "1.0.0") Sample.registry Reference.sourceB
              "/downloads/b.js" None "hashB2" "fileB2"
              (Sample.entry "B" "hashB" None false)
              ltac:(discriminate) eq_refl Hfresh eq_refl eq_refl Hdup)
    as (new & _ & _ & Hfind & _ & _ & _ & Hen & _).
  exists new. exact (conj Hfind Hen).
Defined.

(** A re-install whose copy into the plugin directory fails: the call
    throws, after the previous entry has been removed and before a new one
    is pushed, so the platform is left without an installed entry. *)
Theorem failed_copy_uninstalls_the_platform
  (host : PluginLoader.Host) (reg : PluginRegistry.Registry)
  (pluginCode pluginPath : string)
  (config : option PluginRegistry.IInstallPluginConfig)
  (nanoid1 nanoid2 : string) (old : PluginRegistry.IRegisteredPlugin)
  (e : JsError) :
  pluginCode <> "" ->
  let r := PluginLoader.loadFromCode host pluginCode pluginPath nanoid1 in
  PluginLoader.state r = PluginLoader.Mounted ->
  (forall q, q ∈ PluginRegistry.plugins reg -> PluginRegistry.hash q <> nanoid1) ->
  find (PluginRegistry.hasName (PluginLoader.name r)) (PluginRegistry.plugins reg)
  = Some old ->
  PluginRegistry.newerInstalled host (Some old) config (PluginLoader.instance r)
  = Returned false ->
  NoDup (installedNames reg) ->
  let result :=
    PluginRegistry.installPlugin host reg pluginCode pluginPath config
      nanoid1 nanoid2 (Threw e) in
  fst result = Threw e
  /\ old ∈ PluginRegistry.plugins reg
  /\ (PluginRegistry.name old ∉ installedNames (snd result))
  /\ find (PluginRegistry.hasName (PluginRegistry.name old))
       (PluginRegistry.plugins (snd result)) = None
  /\ PluginRegistry.events (snd result) = PluginRegistry.events reg.
Proof.
  intros Hcode r Hs Hfresh Hold Hgate Hdup. simpl.
  rewrite (installPlugin_mounted host reg pluginCode pluginPath config nanoid1
             nanoid2 (Threw e) old) by done.
  simpl. pose proof (find_Some _ _ _ Hold) as [Hin Hname].
  apply js_eq_true in Hname. subst r.
  set (r := PluginLoader.loadFromCode host pluginCode pluginPath nanoid1) in *.
  assert (PluginRegistry.name old
          ∉ map PluginRegistry.name
              (keep (fun p => negb (PluginRegistry.hasHash
                                      (PluginRegistry.hash old) p))
                 (PluginRegistry.plugins reg))) as Hgone.
  { pose proof (removeOld_clears (PluginLoader.name r)
                  (PluginRegistry.plugins reg) Hdup) as Hc.
    rewrite Hold in Hc. by rewrite Hname. }
  repeat split; try done.
  apply find_None. intros x Hx.
  destruct (PluginRegistry.hasName (PluginRegistry.name old) x) eqn:E; [| done].
  exfalso. apply js_eq_true in E. apply Hgone. rewrite elem_of_map. eauto.
Qed.

(** The entry [B] of the sample registry, installed again with a copy
    that fails. *)
Lemma failed_copy_uninstalls_the_platform_witness :
  fst (PluginRegistry.installPlugin (Reference.host "1.0.0") Sample.registry
         Reference.sourceB "/downloads/b.js" None "hashB2" "fileB2"
         (Threw Sample.quotaExceeded))
  = Threw Sample.quotaExceeded
  /\ find (PluginRegistry.hasName (Some "B"))
       (PluginRegistry.plugins
          (snd (PluginRegistry.installPlugin (Reference.host "1.0.0")
                  Sample.registry Reference.sourceB "/downloads/b.js" None
                  "hashB2" "fileB2" (Threw Sample.quotaExceeded)))) = None.
Proof.
  assert (forall q, q ∈ PluginRegistry.plugins Sample.registry ->
                    PluginRegistry.hash q <> "hashB2") as Hfresh.
  { intros q Hq. simpl in Hq.
    repeat (apply elem_of_cons in Hq as [-> | Hq]; [discriminate |]).
    inversion Hq. }
  assert (NoDup (installedNames Sample.registry)) as Hdup.
  { apply NoDup_cons. split.
    - intros H. apply elem_of_cons in H as [H | H]; [discriminate | inversion H].
    - apply NoDup_singleton. }
  destruct (failed_copy_uninstalls_the_platform
              (Reference.host "1.0.0") Sample.registry Reference.sourceB
              "/downloads/b.js" None "hashB2" "fileB2"
              (Sample.entry "B" "hashB" None false) Sample.quotaExceeded
              ltac:(discriminate) eq_refl Hfresh eq_refl eq_refl Hdup)
    as (H1 & _ & _ & H2 & _).
  exact (conj H1 H2).
Defined.

(** ** The entry points of the registry *)

Section EntryFacts.
Variable host : PluginLoader.Host.

Lemma newerInstalled_throws_iff existing config inst e :
  PluginRegistry.newerInstalled host existing config inst = Threw e
  <-> exists old,
        existing = Some old
        /\ PluginRegistry.checksVersion config = true
        /\ PluginLoader.compare host
             (default "0.0.0" (PluginLoader.version (PluginRegistry.instance old)))
             (default "0.0.0" (PluginLoader.version inst)) = Threw e.
Proof.
  unfold PluginRegistry.newerInstalled. split.
  - destruct existing as [x|]; [| discriminate].
    destruct (PluginRegistry.checksVersion config); [| discriminate].
    destruct (PluginLoader.compare host _ _) as [c|e'] eqn:Hc; simpl;
      [discriminate |].
    intros [= ->]. by exists x.
  - intros (old & -> & -> & ->). done.
Qed.

Lemma newerInstalled_false_iff existing config inst :
  PluginRegistry.newerInstalled host existing config inst = Returned false
  <-> existing = None
      \/ PluginRegistry.checksVersion config = false
      \/ exists old,
           existing = Some old
           /\ PluginLoader.compare host
                (default "0.0.0"
                   (PluginLoader.version (PluginRegistry.instance old)))
                (default "0.0.0" (PluginLoader.version inst)) = Returned 0.
Proof.
  unfold PluginRegistry.newerInstalled. split.
  - destruct existing as [x|]; [| by left]. right.
    destruct (PluginRegistry.checksVersion config); [| by left]. right.
    exists x. split; [done |].
    destruct (PluginLoader.compare host _ _) as [c|e'] eqn:Hc; simpl in *;
      [| discriminate].
    destruct (c =? 0) eqn:Hz; [| discriminate].
    apply Z.eqb_eq in Hz. by subst c.
  - intros [-> | [Hc | (old & -> & Hcmp)]]; [done | |].
    + destruct existing; [| done]. by rewrite Hc.
    + destruct (PluginRegistry.checksVersion config); [| done].
      by rewrite Hcmp.
Qed.

(** The exceptions that [installPlugin] lets escape: that of [compare] in
    the version gate, and that of [copyFile] for a mounted source that
    has passed the gate. *)
Lemma installPlugin_throws_iff reg pluginCode pluginPath config nanoid1 nanoid2
  copyFile e :
  fst (PluginRegistry.installPlugin host reg pluginCode pluginPath config
         nanoid1 nanoid2 copyFile) = Threw e
  <-> pluginCode <> ""
      /\ find (PluginRegistry.hasHash nanoid1) (PluginRegistry.plugins reg) = None
      /\ (PluginRegistry.newerInstalled host
            (find (PluginRegistry.hasName
                     (PluginLoader.name
                        (PluginLoader.loadFromCode host pluginCode pluginPath
                           nanoid1)))
               (PluginRegistry.plugins reg))
            config
            (PluginLoader.instance
               (PluginLoader.loadFromCode host pluginCode pluginPath nanoid1))
          = Threw e
          \/ (PluginRegistry.newerInstalled host
                (find (PluginRegistry.hasName
                         (PluginLoader.name
                            (PluginLoader.loadFromCode host pluginCode
                               pluginPath nanoid1)))
                   (PluginRegistry.plugins reg))
                config
                (PluginLoader.instance
                   (PluginLoader.loadFromCode host pluginCode pluginPath
                      nanoid1))
              = Returned false
              /\ PluginLoader.state
                   (PluginLoader.loadFromCode host pluginCode pluginPath
                      nanoid1) = PluginLoader.Mounted
              /\ copyFile = Threw e)).
Proof.
  unfold PluginRegistry.installPlugin. rewrite loadFromCode_hash.
  destruct (String.eqb pluginCode "") eqn:Hc.
  { apply String.eqb_eq in Hc. split; [discriminate | by intros [? _]]. }
  apply String.eqb_neq in Hc.
  destruct (find (PluginRegistry.hasHash nanoid1) (PluginRegistry.plugins reg))
    eqn:Hh.
  { split; [discriminate | by intros (_ & ? & _)]. }
  destruct (PluginRegistry.newerInstalled _ _ _ _) as [[|]|e'] eqn:Hn; simpl.
  - split; [discriminate |]. by intros (_ & _ & [? | (? & _)]).
  - destruct (PluginLoader.state _) eqn:Hs.
    + split; [discriminate |]. by intros (_ & _ & [? | (_ & ? & _)]).
    + destruct copyFile as [u|e'']; simpl.
      * split; [discriminate |]. by intros (_ & _ & [? | (_ & _ & ?)]).
      * split.
        -- intros [= ->]. split; [done |]. split; [done |]. right. done.
        -- intros (_ & _ & [? | (_ & _ & ?)]); congruence.
    + split; [discriminate |]. by intros (_ & _ & [? | (_ & ? & _)]).
  - split.
    + intros [= ->]. split; [done |]. split; [done |]. by left.
    + intros (_ & _ & [? | (? & _)]); congruence.
Qed.

Lemma installPlugin_failure_changes_nothing reg pluginCode pluginPath config
  nanoid1 nanoid2 copyFile result :
  fst (PluginRegistry.installPlugin host reg pluginCode pluginPath config
         nanoid1 nanoid2 copyFile) = Returned result ->
  PluginRegistry.success result = false ->
  snd (PluginRegistry.installPlugin host reg pluginCode pluginPath config
         nanoid1 nanoid2 copyFile) = reg.
Proof.
  unfold PluginRegistry.installPlugin.
  destruct (String.eqb pluginCode ""); [done |].
  destruct (find _ (PluginRegistry.plugins reg)); [done |].
  destruct (PluginRegistry.newerInstalled _ _ _ _) as [[|]|]; try done.
  destruct (PluginLoader.state _); try done.
  destruct copyFile; simpl; [| discriminate].
  intros [= <-]. discriminate.
Qed.

Lemma loadAll_unique reg items :
  NoDup (installedNames reg) ->
  NoDup (installedNames (snd (PluginRegistryEntry.loadAll host reg items))).
Proof.
  revert reg. induction items as [|item items IH]; intros reg Hreg; simpl;
    [done |].
  destruct (PluginRegistryEntry.recognised item); [| by apply IH].
  destruct (PluginRegistryEntry.readFile item); [| done].
  apply IH. by apply loadPlugin_unique.
Qed.

Lemma loadAll_recognised reg items :
  PluginRegistryEntry.loadAll host reg items
  = PluginRegistryEntry.loadAll host reg
      (keep PluginRegistryEntry.recognised items).
Proof.
  revert reg. induction items as [|item items IH]; intros reg; simpl; [done |].
  destruct (PluginRegistryEntry.recognised item) eqn:Hr; simpl;
    [| by apply IH].
  rewrite Hr. destruct (PluginRegistryEntry.readFile item); [| done].
  apply IH.
Qed.

End EntryFacts.

(** Installing from a local file or from a url.  A read or download that
    fails is reported as a failure result and nothing is installed; every
    failure result leaves the registry as it was.  But the calls can
    throw: the promise of [installPlugin] is returned without being awaited
    inside the [try], so the exceptions of [installPlugin] escape.  Either
    call throws [e] exactly when the code was read, is not empty and gets a
    hash that no installed entry has, and either [compare] throws [e] in
    the version gate (an entry of the same name is installed, versions are
    checked, and [compare] is given the versions of that entry and of the
    new source), or the gate lets the install through (no entry of that
    name, versions not checked, or [compare] returns 0), the source mounts
    and the copy into the plugin directory throws [e]. *)
Theorem install_entry_points_report_reads_and_let_installPlugin_throw
  (host : PluginLoader.Host) (reg : PluginRegistry.Registry)
  (source : string) (config : option PluginRegistry.IInstallPluginConfig)
  (read : Outcome string) (nanoid1 nanoid2 : string) (copyFile : Outcome ()) :
  let local :=
    PluginRegistryEntry.installPluginFromLocalFile host reg source config read
      nanoid1 nanoid2 copyFile in
  let remote :=
    PluginRegistryEntry.installPluginFromUrl host reg source config read
      nanoid1 nanoid2 copyFile in
  let escapes e :=
    exists pluginCode,
      read = Returned pluginCode
      /\ pluginCode <> ""
      /\ find (PluginRegistry.hasHash nanoid1) (PluginRegistry.plugins reg)
         = None
      /\ let loaded :=
           PluginLoader.loadFromCode host pluginCode source nanoid1 in
         let existing :=
           find (PluginRegistry.hasName (PluginLoader.name loaded))
             (PluginRegistry.plugins reg) in
         let compared old :=
           PluginLoader.compare host
             (default "0.0.0"
                (PluginLoader.version (PluginRegistry.instance old)))
             (default "0.0.0"
                (PluginLoader.version (PluginLoader.instance loaded))) in
         (exists old,
            existing = Some old
            /\ PluginRegistry.checksVersion config = true
            /\ compared old = Threw e)
         \/ ((existing = None
              \/ PluginRegistry.checksVersion config = false
              \/ exists old, existing = Some old /\ compared old = Returned 0)
             /\ PluginLoader.state loaded = PluginLoader.Mounted
             /\ copyFile = Threw e) in
  (forall e, read = Threw e ->
     local = (Returned {| PluginRegistry.success := false;
                          PluginRegistry.message :=
                            Some ("Failed to install plugin: " +:+ js_message e);
                          PluginRegistry.pluginName := None;
                          PluginRegistry.pluginHash := None |}, reg)
     /\ remote = (Returned {| PluginRegistry.success := false;
                             PluginRegistry.message :=
                               Some ("Failed to download plugin: "
                                     +:+ js_message e);
                             PluginRegistry.pluginName := None;
                             PluginRegistry.pluginHash := None |}, reg))
  /\ (forall result,
        fst local = Returned result \/ fst remote = Returned result ->
        PluginRegistry.success result = false ->
        snd local = reg /\ snd remote = reg)
  /\ (forall e, fst local = Threw e <-> escapes e)
  /\ (forall e, fst remote = Threw e <-> escapes e).
Proof.
  simpl. unfold PluginRegistryEntry.installPluginFromLocalFile,
    PluginRegistryEntry.installPluginFromUrl.
  assert (forall e,
            match read with
            | Returned pluginCode =>
                fst (PluginRegistry.installPlugin host reg pluginCode source
                       config nanoid1 nanoid2 copyFile) = Threw e
            | Threw _ => False
            end
            <-> exists pluginCode,
                  read = Returned pluginCode
                  /\ pluginCode <> ""
                  /\ find (PluginRegistry.hasHash nanoid1)
                       (PluginRegistry.plugins reg) = None
                  /\ ((exists old,
                         find (PluginRegistry.hasName
                                 (PluginLoader.name
                                    (PluginLoader.loadFromCode host pluginCode
                                       source nanoid1)))
                           (PluginRegistry.plugins reg) = Some old
                         /\ PluginRegistry.checksVersion config = true
                         /\ PluginLoader.compare host
                              (default "0.0.0"
                                 (PluginLoader.version
                                    (PluginRegistry.instance old)))
                              (default "0.0.0"
                                 (PluginLoader.version
                                    (PluginLoader.instance
                                       (PluginLoader.loadFromCode host
                                          pluginCode source nanoid1))))
                            = Threw e)
                      \/ ((find (PluginRegistry.hasName
                                   (PluginLoader.name
                                      (PluginLoader.loadFromCode host pluginCode
                                         source nanoid1)))
                             (PluginRegistry.plugins reg) = None
                           \/ PluginRegistry.checksVersion config = false
                           \/ exists old,
                                find (PluginRegistry.hasName
                                        (PluginLoader.name
                                           (PluginLoader.loadFromCode host
                                              pluginCode source nanoid1)))
                                  (PluginRegistry.plugins reg) = Some old
                                /\ PluginLoader.compare host
                                     (default "0.0.0"
                                        (PluginLoader.version
                                           (PluginRegistry.instance old)))
                                     (default "0.0.0"
                                        (PluginLoader.version
                                           (PluginLoader.instance
                                              (PluginLoader.loadFromCode host
                                                 pluginCode source nanoid1))))
                                   = Returned 0)
                          /\ PluginLoader.state
                               (PluginLoader.loadFromCode host pluginCode
                                  source nanoid1) = PluginLoader.Mounted
                          /\ copyFile = Threw e))) as Hescapes.
  { intros e. destruct read as [code|e'].
    - rewrite installPlugin_throws_iff, newerInstalled_throws_iff,
        newerInstalled_false_iff.
      split.
      + intros (H1 & H2 & H3). exists code. done.
      + intros (code' & [= <-] & H1 & H2 & H3). done.
    - split; [done |]. by intros (code' & ? & _). }
  split; [by intros e -> |]. split; [| split].
  - intros result Hr Hs. destruct read as [code|e]; [| done].
    destruct Hr as [Hr | Hr];
      by rewrite !(installPlugin_failure_changes_nothing host _ _ _ _ _ _ _ _ Hr Hs).
  - intros e. rewrite <- Hescapes. by destruct read.
  - intros e. rewrite <- Hescapes. by destruct read.
Qed.

(** [initialize] runs once.  A call on an initialised registry changes
    nothing.  Otherwise a call that throws (the directory or a recognised
    file cannot be read) leaves the registry not initialised, so the next
    call starts over, and a call that returns leaves it initialised.
    Directory entries that are not files whose name or path ends in [.js]
    play no part.  Installed names stay unique throughout. *)
Theorem initialize_runs_once_and_skips_other_files
  (host : PluginLoader.Host) (this : PluginRegistryEntry.Instance)
  (readDir : Outcome (list PluginRegistryEntry.ReadDirItem)) :
  let result := PluginRegistryEntry.initialize host this readDir in
  (PluginRegistryEntry.initialized this = true -> result = (Returned (), this))
  /\ (forall e, fst result = Threw e ->
        PluginRegistryEntry.initialized (snd result) = false)
  /\ (forall u, fst result = Returned u ->
        PluginRegistryEntry.initialized (snd result) = true)
  /\ (forall e, PluginRegistryEntry.initialized this = false ->
        readDir = Threw e -> result = (Threw e, this))
  /\ (forall items, readDir = Returned items ->
        result
        = PluginRegistryEntry.initialize host this
            (Returned (keep PluginRegistryEntry.recognised items)))
  /\ (NoDup (installedNames (PluginRegistryEntry.registry this)) ->
      NoDup (installedNames (PluginRegistryEntry.registry (snd result)))).
Proof.
  simpl. unfold PluginRegistryEntry.initialize.
  destruct (PluginRegistryEntry.initialized this) eqn:Hi.
  - repeat split; (done || congruence).
  - split; [done |].
    destruct readDir as [items|e0].
    + pose proof (loadAll_unique host (PluginRegistryEntry.registry this) items)
        as Hu.
      rewrite (loadAll_recognised host _ items).
      destruct (PluginRegistryEntry.loadAll host
                  (PluginRegistryEntry.registry this)
                  (keep PluginRegistryEntry.recognised items)) as [[u|e1] reg]
        eqn:Hl; simpl.
      * repeat split; try done.
        -- intros items' [= <-]. by rewrite Hl.
        -- intros Hd. rewrite (loadAll_recognised host _ items), Hl in Hu.
           by apply Hu.
      * repeat split; try done.
        -- intros items' [= <-]. by rewrite Hl.
        -- intros Hd. rewrite (loadAll_recognised host _ items), Hl in Hu.
           by apply Hu.
    + repeat split; try done. by intros e _ [= ->].
Qed.

(** ** The host, continued *)


(** ** Disabling a provider and the host's search *)

Section HostSearchFacts.
Variables (query : string) (page : Z) (type : ICommon.SupportMediaType).

Lemma forEachM_filed plugins results :
  forEachM (CorePluginManager.searchTask query page type) plugins results
  = Returned (fold_left (filed query page type) plugins results).
Proof.
  revert results. induction plugins as [|p plugins IH]; intros results;
    [done |].
  cbn [forEachM]. rewrite searchTask_returns. cbn [mbind Outcome_bind].
  rewrite IH. done.
Qed.

Lemma filed_delete n results plugin :
  CorePluginManager.resultKey plugin <> n ->
  filed query page type (delete n results) plugin
  = delete n (filed query page type results plugin).
Proof.
  intros Hk. unfold filed.
  destruct (PluginLoader.search (PluginRegistry.instance plugin)) as [f|];
    [| done].
  destruct (f query page type); [| done].
  by apply setProperty_delete_ne.
Qed.

Lemma fold_filed_delete n plugins results :
  (forall p, p ∈ plugins -> CorePluginManager.resultKey p <> n) ->
  fold_left (filed query page type) plugins (delete n results)
  = delete n (fold_left (filed query page type) plugins results).
Proof.
  revert results. induction plugins as [|p plugins IH]; intros results Hk;
    simpl; [done |].
  rewrite filed_delete by (apply Hk; left).
  apply IH. intros q Hq. apply Hk. by right.
Qed.

Lemma fold_filed_untouched n plugins results :
  (forall p, p ∈ plugins -> CorePluginManager.resultKey p <> n) ->
  fold_left (filed query page type) plugins results !! n = results !! n.
Proof.
  revert results. induction plugins as [|p plugins IH]; intros results Hk;
    simpl; [done |].
  rewrite IH by (intros q Hq; apply Hk; by right).
  unfold filed.
  destruct (PluginLoader.search (PluginRegistry.instance p)) as [f|]; [| done].
  destruct (f query page type); [| done].
  apply lookup_setProperty_ne. intros Heq. apply (Hk p); [left | done].
Qed.

Lemma filed_delete_own n results plugin :
  CorePluginManager.resultKey plugin = n ->
  results !! n = None ->
  delete n (filed query page type results plugin) = results.
Proof.
  intros Hk Hn. unfold filed.
  destruct (PluginLoader.search (PluginRegistry.instance plugin)) as [f|];
    [| by apply delete_id].
  destruct (f query page type); [| by apply delete_id].
  rewrite Hk, delete_setProperty. by apply delete_id.
Qed.

Lemma NoDup_map_Permutation {A B} (f : A -> B) l l' :
  l ≡ₚ l' -> NoDup (map f l) -> NoDup (map f l').
Proof. intros H. apply (Permutation_map f) in H. by rewrite H. Qed.

(** Tasks that file under different keys can settle in either order. *)
Lemma filed_commute results p q :
  CorePluginManager.resultKey p <> CorePluginManager.resultKey q ->
  filed query page type (filed query page type results p) q
  = filed query page type (filed query page type results q) p.
Proof.
  intros Hk. unfold filed.
  destruct (PluginLoader.search (PluginRegistry.instance p)) as [f|]; [| done].
  destruct (PluginLoader.search (PluginRegistry.instance q)) as [g|]; [| done].
  destruct (f query page type); [| done].
  destruct (g query page type); [| done].
  apply setProperty_commute. congruence.
Qed.

Lemma fold_filed_Permutation plugins plugins' :
  plugins ≡ₚ plugins' ->
  NoDup (map CorePluginManager.resultKey plugins) ->
  forall results,
    fold_left (filed query page type) plugins results
    = fold_left (filed query page type) plugins' results.
Proof.
  induction 1 as [|x l l' Hl IH|x y l|l l' l'' H1 IH1 H2 IH2];
    intros Hdup results; simpl.
  - done.
  - apply IH. by apply NoDup_cons in Hdup as [_ ?].
  - f_equal. apply filed_commute.
    apply NoDup_cons in Hdup as [Hy _]. intros Heq. apply Hy.
    rewrite Heq. left.
  - rewrite IH1 by done. apply IH2. by eapply NoDup_map_Permutation.
Qed.

End HostSearchFacts.

Lemma omap_lookup_S {A} (x : A) l (positions : list nat) :
  omap (fun i => (x :: l) !! i) (S <$> positions)
  = omap (fun i => l !! i) positions.
Proof.
  induction positions as [|i positions IH]; [done |].
  cbn [fmap list_fmap omap list_omap]. rewrite IH. done.
Qed.

Lemma omap_lookup_seq {A} (l : list A) :
  omap (fun i => l !! i) (seq 0 (length l)) = l.
Proof.
  induction l as [|x l IH]; [done |].
  cbn [length seq omap list_omap]. rewrite <- fmap_S_seq.
  rewrite omap_lookup_S, IH. done.
Qed.

(** A settling order that is a permutation of the positions visits the
    tasks once each. *)
Lemma settled_Permutation {A} (l : list A) settled :
  settled ≡ₚ seq 0 (length l) -> omap (fun i => l !! i) settled ≡ₚ l.
Proof. intros ->. by rewrite omap_lookup_seq. Qed.

Lemma resultKey_updateFirst_setEnabled p b l :
  map CorePluginManager.resultKey (updateFirst p (PluginRegistry.setEnabled b) l)
  = map CorePluginManager.resultKey l.
Proof.
  induction l as [|x l IH]; simpl; [done |].
  destruct (p x); simpl; [done |]. by rewrite IH.
Qed.

(** With the tasks settling in the order of the list. *)
Lemma disabling_in_list_order reg n p query page type pluginNames :
  PluginRegistry.getPluginByName reg (Some n) = Some p ->
  NoDup (map CorePluginManager.resultKey (PluginRegistry.getAllPlugins reg)) ->
  fold_left (filed query page type)
    (keep (CorePluginManager.selected type pluginNames)
       (PluginRegistry.getAllPlugins
          (PluginRegistry.setPluginEnabled reg n false))) ∅
  = delete n
      (fold_left (filed query page type)
         (keep (CorePluginManager.selected type pluginNames)
            (PluginRegistry.getAllPlugins reg)) ∅).
Proof.
  intros Hfind Hdup. rewrite getAllPlugins_setPluginEnabled.
  unfold PluginRegistry.getPluginByName in Hfind.
  destruct (find_split _ _ _ Hfind) as (l1 & l2 & Hl & Hn & Hp).
  rewrite Hl in *. rewrite updateFirst_split by done.
  assert (CorePluginManager.resultKey p = n) as Hkey.
  { unfold CorePluginManager.resultKey. apply js_eq_true in Hp. by rewrite Hp. }
  assert (forall q, q ∈ l1 ++ l2 -> CorePluginManager.resultKey q <> n) as Hothers.
  { intros q Hq. rewrite <- Hkey. by eapply NoDup_map_app_cons_l. }
  rewrite !keep_app. cbn [keep].
  assert (CorePluginManager.selected type pluginNames
            (PluginRegistry.setEnabled false p) = false) as -> by done.
  set (sel := CorePluginManager.selected type pluginNames).
  assert (forall q, q ∈ keep sel l1 -> CorePluginManager.resultKey q <> n) as H1.
  { intros q Hq. apply elem_of_keep in Hq as [Hq _]. apply Hothers.
    apply elem_of_app. by left. }
  assert (forall q, q ∈ keep sel l2 -> CorePluginManager.resultKey q <> n) as H2.
  { intros q Hq. apply elem_of_keep in Hq as [Hq _]. apply Hothers.
    apply elem_of_app. by right. }
  rewrite !fold_left_app.
  destruct (sel p); cbn [fold_left].
  - rewrite <- fold_filed_delete by done. f_equal.
    symmetry. apply filed_delete_own; [done |].
    rewrite fold_filed_untouched by done. apply lookup_empty.
  - rewrite <- fold_filed_delete by done. f_equal.
    symmetry. apply delete_id.
    rewrite fold_filed_untouched by done. apply lookup_empty.
Qed.



(** ** The plugin map of [helpers/PluginManager.ts] *)

Lemma find_updateFirst_same {A} (p : A -> bool) (f : A -> A) l :
  (forall x, p x = true -> p (f x) = true) ->
  find p (updateFirst p f l) = f <$> find p l.
Proof.
  intros Hp. induction l as [|x l IH]; simpl; [done |].
  destruct (p x) eqn:Hx; simpl; [by rewrite (Hp x Hx) | by rewrite Hx].
Qed.

Lemma find_updateFirst_other {A} (p q : A -> bool) (f : A -> A) l :
  (forall x, q (f x) = q x) ->
  (forall x, p x = true -> q x = false) ->
  find q (updateFirst p f l) = find q l.
Proof.
  intros Hq Hpq. induction l as [|x l IH]; simpl; [done |].
  destruct (p x) eqn:Hx; simpl.
  - by rewrite Hq, (Hpq x Hx).
  - by rewrite IH.
Qed.

Lemma hasKey_other k k' kv :
  k' <> k ->
  HelpersPluginManager.hasKey k kv = true ->
  HelpersPluginManager.hasKey k' kv = false.
Proof.
  unfold HelpersPluginManager.hasKey. intros Hk H.
  apply String.eqb_eq in H. rewrite H. by apply String.eqb_neq.
Qed.

Lemma updateFirst_keys k (f : string * HelpersPluginManager.ManagedPlugin
                              -> string * HelpersPluginManager.ManagedPlugin) l :
  (forall kv, fst (f kv) = fst kv) ->
  map fst (updateFirst (HelpersPluginManager.hasKey k) f l) = map fst l.
Proof.
  intros Hf. induction l as [|x l IH]; simpl; [done |].
  destruct (HelpersPluginManager.hasKey k x); simpl; [by rewrite Hf |].
  by rewrite IH.
Qed.

Section MutateFacts.
Variables (pm : HelpersPluginManager.PluginManager) (pluginId : string)
  (c : HelpersPluginManager.PluginUserConfig).

Lemma get_mutateUserConfig_same plugin :
  HelpersPluginManager.get pm pluginId = Some plugin ->
  HelpersPluginManager.get
    (HelpersPluginManager.mutateUserConfig pm pluginId c) pluginId
  = Some {| HelpersPluginManager.spread := HelpersPluginManager.spread plugin;
            HelpersPluginManager.id := HelpersPluginManager.id plugin;
            HelpersPluginManager.filePath := HelpersPluginManager.filePath plugin;
            HelpersPluginManager.userConfig := c;
            HelpersPluginManager.instance :=
              HelpersPluginManager.instance plugin |}.
Proof.
  unfold HelpersPluginManager.get, HelpersPluginManager.mutateUserConfig. simpl.
  rewrite find_updateFirst_same by done.
  destruct (find _ (HelpersPluginManager.plugins pm)) as [kv|]; [| done].
  simpl. by intros [= <-].
Qed.

Lemma get_mutateUserConfig_other pluginId' :
  pluginId' <> pluginId ->
  HelpersPluginManager.get
    (HelpersPluginManager.mutateUserConfig pm pluginId c) pluginId'
  = HelpersPluginManager.get pm pluginId'.
Proof.
  intros Hne.
  unfold HelpersPluginManager.get, HelpersPluginManager.mutateUserConfig. simpl.
  rewrite (find_updateFirst_other (HelpersPluginManager.hasKey pluginId)); try done.
  intros kv. by apply hasKey_other.
Qed.

Lemma keys_mutateUserConfig :
  map fst (HelpersPluginManager.plugins
             (HelpersPluginManager.mutateUserConfig pm pluginId c))
  = map fst (HelpersPluginManager.plugins pm).
Proof. by apply updateFirst_keys. Qed.

End MutateFacts.

(** Setting a user variable when the durable write succeeds: the call
    returns; a variable of a name other than [__proto__] then reads as the
    value set, whereas an assignment to [__proto__] stores nothing in an
    object that holds no property of that name; every other variable of the
    plugin reads as before; the plugin's enabled state, every other plugin
    and the enumeration order are untouched; and the durable store holds,
    under the plugin's configuration key, the configuration that is now in
    memory. *)
Theorem setPluginUserVariable_then_read
  (pm : HelpersPluginManager.PluginManager) (pluginId key value : string)
  (plugin : HelpersPluginManager.ManagedPlugin) :
  HelpersPluginManager.get pm pluginId = Some plugin ->
  let after :=
    HelpersPluginManager.setPluginUserVariable pm pluginId key value
      (Returned ()) in
  fst after = Returned ()
  /\ (key <> "__proto__" ->
      readUserVariable (snd after) pluginId key = Returned (Some value))
  /\ (key = "__proto__" ->
      readUserVariable pm pluginId key = Returned None ->
      readUserVariable (snd after) pluginId key = Returned None)
  /\ (forall k, k <> key ->
        readUserVariable (snd after) pluginId k = readUserVariable pm pluginId k)
  /\ (forall pluginId', pluginId' <> pluginId ->
        HelpersPluginManager.get (snd after) pluginId'
        = HelpersPluginManager.get pm pluginId')
  /\ map fst (HelpersPluginManager.plugins (snd after))
     = map fst (HelpersPluginManager.plugins pm)
  /\ exists plugin',
       HelpersPluginManager.get (snd after) pluginId = Some plugin'
       /\ HelpersPluginManager.isEnabled (HelpersPluginManager.userConfig plugin')
          = HelpersPluginManager.isEnabled (HelpersPluginManager.userConfig plugin)
       /\ HelpersPluginManager.persisted (snd after)
            !! HelpersPluginManagerLifecycle.configKey pluginId
          = Some (HelpersPluginManager.userConfig plugin').
Proof.
  intros Hget. simpl. unfold HelpersPluginManager.setPluginUserVariable.
  rewrite Hget. simpl.
  set (c := {| HelpersPluginManager.userVariables := _;
               HelpersPluginManager.isEnabled := _ |}).
  pose proof (get_mutateUserConfig_same pm pluginId c plugin Hget) as Hsame.
  split; [done |]. split; [| split; [| split; [| split; [| split]]]].
  - intros Hkey.
    unfold readUserVariable, HelpersPluginManager.getUserVariables,
      HelpersPluginManager.get in *. simpl in *. rewrite Hsame. simpl.
    by rewrite setProperty_ordinary, lookup_insert_eq.
  - intros Hkey.
    unfold readUserVariable, HelpersPluginManager.getUserVariables,
      HelpersPluginManager.get in *. simpl in *. rewrite Hsame, Hget. simpl.
    intros [= Hnone]. f_equal. unfold setProperty.
    rewrite Hnone. subst key. done.
  - intros k Hk.
    unfold readUserVariable, HelpersPluginManager.getUserVariables,
      HelpersPluginManager.get in *. simpl in *. rewrite Hsame, Hget. simpl.
    by rewrite lookup_setProperty_ne.
  - intros pluginId' Hne.
    exact (get_mutateUserConfig_other pm pluginId c pluginId' Hne).
  - exact (keys_mutateUserConfig pm pluginId c).
  - eexists. split; [exact Hsame |]. split; [done |]. simpl.
    apply lookup_insert_eq.
Qed.

(** The variable [token] of the sample plugin set to [new], a variable
    [region] left alone. *)
Lemma setPluginUserVariable_then_read_witness :
  readUserVariable
    (snd (HelpersPluginManager.setPluginUserVariable Sample.manager "A" "token"
            "new" (Returned ()))) "A" "token"
  = Returned (Some "new")
  /\ readUserVariable
       (snd (HelpersPluginManager.setPluginUserVariable Sample.manager "A"
               "token" "new" (Returned ()))) "A" "region"
     = readUserVariable Sample.manager "A" "region".
Proof.
  destruct (setPluginUserVariable_then_read Sample.manager "A" "token" "new"
              (Sample.managed "A" (Some {[ "token" := "old" ]}) (Some true) None)
              eq_refl) as (_ & H1 & _ & H2 & _).
  exact (conj (H1 ltac:(discriminate)) (H2 "region" ltac:(discriminate))).
Defined.

(** A plugin id that the map does not hold: the mutating calls return
    normally without touching the map or the durable store, whatever the
    store would have answered, while reading the plugin's environment
    throws. *)
Theorem unknown_plugin_id_is_ignored_by_mutations
  (pm : HelpersPluginManager.PluginManager) (pluginId key value : string)
  (isEnabled : bool) (set deleteFile remove : Outcome ()) :
  HelpersPluginManager.get pm pluginId = None ->
  HelpersPluginManager.setPluginUserVariable pm pluginId key value set
  = (Returned (), pm)
  /\ HelpersPluginManager.setPluginEnabled pm pluginId isEnabled set
     = (Returned (), pm)
  /\ HelpersPluginManagerLifecycle.removePlugin pm pluginId deleteFile remove
     = (Returned (), pm)
  /\ HelpersPluginManager.getUserVariables pm pluginId
     = Threw (mkJsError ("Plugin with id " +:+ pluginId +:+ " not found.")).
Proof.
  intros Hget.
  unfold HelpersPluginManager.setPluginUserVariable,
    HelpersPluginManager.setPluginEnabled,
    HelpersPluginManagerLifecycle.removePlugin,
    HelpersPluginManager.getUserVariables.
  by rewrite Hget.
Qed.

(** The sample manager holds no plugin [Z]. *)
Lemma unknown_plugin_id_is_ignored_by_mutations_witness :
  HelpersPluginManager.setPluginUserVariable Sample.manager "Z" "token" "new"
    (Threw Sample.quotaExceeded)
  = (Returned (), Sample.manager)
  /\ HelpersPluginManager.getUserVariables Sample.manager "Z"
     = Threw (mkJsError "Plugin with id Z not found.").
Proof.
  destruct (unknown_plugin_id_is_ignored_by_mutations Sample.manager "Z" "token"
              "new" false (Threw Sample.quotaExceeded) (Returned ())
              (Returned ()) eq_refl) as (H1 & _ & _ & H2).
  exact (conj H1 H2).
Defined.

Lemma find_keep {A} (p q : A -> bool) l :
  (forall x, q x = true -> p x = true) ->
  find q (keep p l) = find q l.
Proof.
  intros Hqp. induction l as [|x l IH]; simpl; [done |].
  destruct (p x) eqn:Hp; simpl.
  - by rewrite IH.
  - destruct (q x) eqn:Hq; [| done]. rewrite (Hqp x Hq) in Hp. done.
Qed.

Lemma find_key_None k (l : list (string * HelpersPluginManager.ManagedPlugin)) :
  find (HelpersPluginManager.hasKey k) l = None <-> k ∉ map fst l.
Proof.
  rewrite find_None, elem_of_map. split.
  - intros H (kv & -> & Hin). specialize (H kv Hin).
    unfold HelpersPluginManager.hasKey in H. by rewrite String.eqb_refl in H.
  - intros H kv Hin. unfold HelpersPluginManager.hasKey.
    apply String.eqb_neq. intros Heq. apply H. eauto.
Qed.

Lemma keep_key_absent k (l : list (string * HelpersPluginManager.ManagedPlugin)) :
  k ∉ map fst l ->
  keep (fun kv => negb (HelpersPluginManager.hasKey k kv)) l = l.
Proof.
  induction l as [|kv l IH]; simpl; [done |].
  rewrite not_elem_of_cons. intros [Hne Hl].
  unfold HelpersPluginManager.hasKey at 1.
  assert ((fst kv =? k)%string = false) as -> by (by apply String.eqb_neq).
  simpl. by rewrite IH.
Qed.

(** Disabling a plugin takes effect on the next aggregated search, whether
    or not the durable write succeeds: in a map with unique keys, the active
    plugins after [setPluginEnabled(id, false)] are the active plugins of
    the map without that plugin, and so [searchAll] returns what it would
    return if the plugin were not installed. *)
Theorem disabling_removes_the_plugin_from_searchAll
  (pm : HelpersPluginManager.PluginManager) (pluginId : string)
  (set : Outcome ()) :
  NoDup (map fst (HelpersPluginManager.plugins pm)) ->
  let after :=
    snd (HelpersPluginManager.setPluginEnabled pm pluginId false set) in
  HelpersPluginManager.getActivePlugins after
  = HelpersPluginManager.getActivePlugins (without pm pluginId)
  /\ forall searchText page type,
       SearchAll.searchAll after searchText page type
       = SearchAll.searchAll (without pm pluginId) searchText page type.
Proof.
  intros Hdup. simpl.
  assert (HelpersPluginManager.getActivePlugins
            (snd (HelpersPluginManager.setPluginEnabled pm pluginId false set))
          = HelpersPluginManager.getActivePlugins (without pm pluginId)) as Hact.
  { unfold HelpersPluginManager.setPluginEnabled, HelpersPluginManager.get,
      without, HelpersPluginManagerLifecycle.mapDelete,
      HelpersPluginManager.getActivePlugins.
    destruct (find _ (HelpersPluginManager.plugins pm)) as [kv|] eqn:Hf; simpl.
    - destruct (find_split _ _ _ Hf) as (l1 & l2 & Hl & Hn & Hk).
      assert (forall c,
                HelpersPluginManager.plugins
                  (snd (HelpersPluginManager.savePluginConfig
                          (HelpersPluginManager.mutateUserConfig pm pluginId c)
                          pluginId c set))
                = updateFirst (HelpersPluginManager.hasKey pluginId)
                    (HelpersPluginManager.withUserConfig c)
                    (HelpersPluginManager.plugins pm)) as ->
        by (intros c; by destruct set).
      rewrite Hl in *. rewrite updateFirst_split by done.
      rewrite map_app in Hdup. simpl in Hdup.
      apply NoDup_app in Hdup as (_ & _ & Hd2).
      apply NoDup_cons in Hd2 as [Hk2 _].
      apply String.eqb_eq in Hk. rewrite Hk in Hk2.
      rewrite !keep_app. cbn [keep]. unfold HelpersPluginManager.hasKey at 2.
      rewrite Hk, String.eqb_refl. cbn [negb].
      rewrite (keep_key_absent pluginId l1) by (by apply find_key_None).
      rewrite (keep_key_absent pluginId l2) by done.
      rewrite !map_app, !keep_app. by cbn.
    - apply find_key_None in Hf. by rewrite keep_key_absent.
  }
  split; [exact Hact |]. intros searchText page type.
  unfold SearchAll.searchAll, SearchAll.aggregate. by rewrite Hact.
Qed.

(** Provider [A] of the three sample providers disabled, with a durable
    write that fails. *)
Lemma disabling_removes_the_plugin_from_searchAll_witness :
  SearchAll.searchAll
    (snd (HelpersPluginManager.setPluginEnabled
            (Sample.threeProviders Sample.twoItems) "A" false
            (Threw Sample.quotaExceeded))) "love" 1 SearchAll.songs
  = SearchAll.searchAll (without (Sample.threeProviders Sample.twoItems) "A")
      "love" 1 SearchAll.songs.
Proof.
  assert (NoDup (map fst (HelpersPluginManager.plugins
                            (Sample.threeProviders Sample.twoItems)))) as Hdup.
  { simpl. repeat (apply NoDup_cons; split;
      [intros H; repeat (apply elem_of_cons in H as [H | H];
                         [discriminate |]); inversion H |]).
    apply NoDup_nil. done. }
  exact (proj2 (disabling_removes_the_plugin_from_searchAll
                  (Sample.threeProviders Sample.twoItems) "A"
                  (Threw Sample.quotaExceeded) Hdup) "love" 1 SearchAll.songs).
Defined.

(** * [helpers/PluginManager.ts]: the map of plugins under adding,
    removing and loading *)

Lemma mapSet_keys k v l :
  map fst (HelpersPluginManagerLifecycle.mapSet k v l)
  = if bool_decide (k ∈ map fst l) then map fst l else map fst l ++ [k].
Proof.
  unfold HelpersPluginManagerLifecycle.mapSet.
  destruct (find _ l) as [kv|] eqn:Hf.
  - rewrite bool_decide_eq_true_2.
    + by apply updateFirst_keys.
    + destruct (decide (k ∈ map fst l)) as [|Hn]; [done |].
      apply find_key_None in Hn. congruence.
  - rewrite bool_decide_eq_false_2 by (by apply find_key_None).
    by rewrite map_app.
Qed.

Lemma mapSet_NoDup k v l :
  NoDup (map fst l) ->
  NoDup (map fst (HelpersPluginManagerLifecycle.mapSet k v l)).
Proof.
  rewrite mapSet_keys. case_bool_decide as Hk; [done |]. intros Hd.
  apply NoDup_app. split; [done |]. split; [| apply NoDup_singleton].
  intros x Hx Hin. apply list_elem_of_singleton in Hin. by subst.
Qed.

Lemma Forall_updateFirst {A} (Q : A -> Prop) (p : A -> bool) (f : A -> A) l :
  Forall Q l -> (forall x, p x = true -> Q x -> Q (f x)) ->
  Forall Q (updateFirst p f l).
Proof.
  intros Hl Hf. induction Hl as [|x l Hx Hl IH]; simpl; [constructor |].
  destruct (p x) eqn:Hp; constructor; auto.
Qed.

Lemma mapSet_Forall (Q : string * HelpersPluginManager.ManagedPlugin -> Prop)
  k v l :
  Forall Q l -> Q (k, v) ->
  Forall Q (HelpersPluginManagerLifecycle.mapSet k v l).
Proof.
  intros Hl Hkv. unfold HelpersPluginManagerLifecycle.mapSet.
  destruct (find _ l).
  - apply Forall_updateFirst; [done |]. intros x Hx _.
    unfold HelpersPluginManager.hasKey in Hx. apply String.eqb_eq in Hx.
    by rewrite Hx.
  - apply Forall_app. split; [done |]. by constructor.
Qed.

Lemma find_mapSet_same k v l :
  snd <$> find (HelpersPluginManager.hasKey k)
            (HelpersPluginManagerLifecycle.mapSet k v l) = Some v.
Proof.
  unfold HelpersPluginManagerLifecycle.mapSet.
  destruct (find _ l) as [kv|] eqn:Hf.
  - rewrite find_updateFirst_same by done. by rewrite Hf.
  - rewrite find_app, Hf. simpl. unfold HelpersPluginManager.hasKey. simpl.
    by rewrite String.eqb_refl.
Qed.

Lemma find_mapSet_other k k' v l :
  k' <> k ->
  find (HelpersPluginManager.hasKey k')
    (HelpersPluginManagerLifecycle.mapSet k v l)
  = find (HelpersPluginManager.hasKey k') l.
Proof.
  intros Hne. unfold HelpersPluginManagerLifecycle.mapSet.
  destruct (find (HelpersPluginManager.hasKey k) l) as [kv|] eqn:Hf.
  - rewrite (find_updateFirst_other (HelpersPluginManager.hasKey k)); try done.
    intros x. by apply hasKey_other.
  - rewrite find_app.
    destruct (find (HelpersPluginManager.hasKey k') l); [done |]. simpl.
    unfold HelpersPluginManager.hasKey. simpl.
    assert ((k =? k')%string = false) as -> by (by apply String.eqb_neq).
    done.
Qed.

Lemma find_mapDelete_same k l :
  find (HelpersPluginManager.hasKey k)
    (HelpersPluginManagerLifecycle.mapDelete k l) = None.
Proof.
  apply find_None. intros x Hx.
  apply elem_of_keep in Hx as [_ Hx]. by apply negb_true_iff in Hx.
Qed.

Lemma find_mapDelete_other k k' l :
  k' <> k ->
  find (HelpersPluginManager.hasKey k')
    (HelpersPluginManagerLifecycle.mapDelete k l)
  = find (HelpersPluginManager.hasKey k') l.
Proof.
  intros Hne. apply find_keep. intros x Hx. apply negb_true_iff.
  apply (hasKey_other k'); [congruence | done].
Qed.

Lemma plugins_loadPluginConfig pm pluginId read remove :
  HelpersPluginManager.plugins
    (snd (HelpersPluginManagerLifecycle.loadPluginConfig pm pluginId read remove))
  = HelpersPluginManager.plugins pm.
Proof.
  unfold HelpersPluginManagerLifecycle.loadPluginConfig.
  destruct read; [by destruct (_ !! _) |]. by destruct remove.
Qed.

Lemma plugins_savePluginConfig pm pluginId c set :
  HelpersPluginManager.plugins
    (snd (HelpersPluginManager.savePluginConfig pm pluginId c set))
  = HelpersPluginManager.plugins pm.
Proof. by destruct set. Qed.

(** Removing an installed plugin.  When the file and the stored
    configuration are both removed the call returns, the plugin is gone from
    the map and its configuration from the durable store, and every other
    plugin and stored configuration is as before.  When either removal fails
    the call throws that error and the manager is unchanged: the plugin stays
    in the map (with its configuration still stored), although its file may
    already be gone. *)
Theorem removePlugin_outcomes (pm : HelpersPluginManager.PluginManager)
  (pluginId : string) (plugin : HelpersPluginManager.ManagedPlugin)
  (deleteFile remove : Outcome ()) :
  HelpersPluginManager.get pm pluginId = Some plugin ->
  let result :=
    HelpersPluginManagerLifecycle.removePlugin pm pluginId deleteFile remove in
  (deleteFile = Returned () -> remove = Returned () ->
     fst result = Returned ()
     /\ HelpersPluginManager.get (snd result) pluginId = None
     /\ (forall other, other <> pluginId ->
           HelpersPluginManager.get (snd result) other
           = HelpersPluginManager.get pm other)
     /\ HelpersPluginManager.persisted (snd result)
          !! HelpersPluginManagerLifecycle.configKey pluginId = None
     /\ (forall key, key <> HelpersPluginManagerLifecycle.configKey pluginId ->
           HelpersPluginManager.persisted (snd result) !! key
           = HelpersPluginManager.persisted pm !! key))
  /\ (forall e, deleteFile = Threw e -> result = (Threw e, pm))
  /\ (forall e, deleteFile = Returned () -> remove = Threw e ->
        result = (Threw e, pm)).
Proof.
  intros Hget. simpl. unfold HelpersPluginManagerLifecycle.removePlugin.
  rewrite Hget. split; [| split].
  - intros -> ->. simpl. split; [done |].
    unfold HelpersPluginManager.get. simpl. split; [| split; [| split]].
    + by rewrite find_mapDelete_same.
    + intros other Hne. by rewrite find_mapDelete_other.
    + apply lookup_delete_eq.
    + intros key Hne. by apply lookup_delete_ne.
  - by intros e ->.
  - by intros e -> ->.
Qed.

(** Plugin [A] of the sample manager removed, with each of the three ways
    the environment can answer. *)
Lemma removePlugin_outcomes_witness :
  HelpersPluginManager.get
    (snd (HelpersPluginManagerLifecycle.removePlugin Sample.manager "A"
            (Returned ()) (Returned ()))) "A" = None
  /\ HelpersPluginManagerLifecycle.removePlugin Sample.manager "A"
       (Returned ()) (Threw Sample.quotaExceeded)
     = (Threw Sample.quotaExceeded, Sample.manager).
Proof.
  set (plugin := Sample.managed "A" (Some {[ "token" := "old" ]}) (Some true)
                   None).
  assert (HelpersPluginManager.get Sample.manager "A" = Some plugin)
    as Hget by reflexivity.
  split.
  - exact (proj1 (proj2 (proj1 (removePlugin_outcomes Sample.manager "A"
             plugin (Returned ()) (Returned ()) Hget)
             eq_refl eq_refl))).
  - exact (proj2 (proj2 (removePlugin_outcomes Sample.manager "A"
             plugin (Returned ()) (Threw Sample.quotaExceeded) Hget))
             Sample.quotaExceeded eq_refl eq_refl).
Defined.

(** Adding or updating a plugin from a script when the environment answers
    every request: the call returns the managed plugin, which is held under
    the platform of the evaluated module, with that module as its instance
    and the file it was written to; its configuration is the one the durable
    store holds for the platform (so an update keeps the stored variables and
    enabled state) and the default one when none is stored; an existing key
    keeps its place in the enumeration and a new one goes last; every other
    plugin is untouched; and the configuration is written back. *)
Theorem addPluginFromScript_registers_with_stored_config
  (device : HelpersPluginManagerLifecycle.Device)
  (pm : HelpersPluginManager.PluginManager) (scriptContent : string)
  (filePathHint : option string)
  (answers : HelpersPluginManagerLifecycle.AddAnswers)
  (pluginModule : HelpersPluginManager.IPluginDefine) :
  HelpersPluginManagerLifecycle.evalScript device scriptContent
  = Returned pluginModule ->
  HelpersPluginManager.platform pluginModule <> "" ->
  HelpersPluginManagerLifecycle.ensure answers = Returned () ->
  HelpersPluginManagerLifecycle.write answers = Returned () ->
  HelpersPluginManagerLifecycle.readConfig answers = Returned () ->
  HelpersPluginManagerLifecycle.saveConfig answers = Returned () ->
  let pluginId := HelpersPluginManager.platform pluginModule in
  let userConfig :=
    default HelpersPluginManagerLifecycle.defaultConfig
      (HelpersPluginManager.persisted pm
         !! HelpersPluginManagerLifecycle.configKey pluginId) in
  let managedPlugin :=
    {| HelpersPluginManager.spread := pluginModule;
       HelpersPluginManager.id := pluginId;
       HelpersPluginManager.filePath :=
         HelpersPluginManagerLifecycle.PLUGINS_DIRECTORY device
         +:+ HelpersPluginManagerLifecycle.fileNameFor pluginId filePathHint
               (HelpersPluginManagerLifecycle.now answers);
       HelpersPluginManager.userConfig := userConfig;
       HelpersPluginManager.instance := Some pluginModule |} in
  let result :=
    HelpersPluginManagerLifecycle.addPluginFromScript device pm scriptContent
      filePathHint answers in
  fst result = Returned managedPlugin
  /\ HelpersPluginManager.get (snd result) pluginId = Some managedPlugin
  /\ (forall other, other <> pluginId ->
        HelpersPluginManager.get (snd result) other
        = HelpersPluginManager.get pm other)
  /\ map fst (HelpersPluginManager.plugins (snd result))
     = (if bool_decide (pluginId ∈ map fst (HelpersPluginManager.plugins pm))
        then map fst (HelpersPluginManager.plugins pm)
        else map fst (HelpersPluginManager.plugins pm) ++ [pluginId])
  /\ HelpersPluginManager.persisted (snd result)
     = <[HelpersPluginManagerLifecycle.configKey pluginId := userConfig]>
         (HelpersPluginManager.persisted pm).
Proof.
  intros Heval Hplatform Hensure Hwrite Hread Hsave. simpl.
  unfold HelpersPluginManagerLifecycle.addPluginFromScript.
  rewrite Heval.
  assert ((HelpersPluginManager.platform pluginModule =? "")%string = false)
    as -> by (by apply String.eqb_neq).
  rewrite Hensure, Hwrite, Hread, Hsave.
  unfold HelpersPluginManagerLifecycle.loadPluginConfig.
  destruct (HelpersPluginManager.persisted pm !! _) as [config|]; simpl.
  - split; [done |]. unfold HelpersPluginManager.get. simpl.
    split; [apply find_mapSet_same |]. split; [| split; [| done]].
    + intros other Hne. by rewrite find_mapSet_other.
    + apply mapSet_keys.
  - split; [done |]. unfold HelpersPluginManager.get. simpl.
    split; [apply find_mapSet_same |]. split; [| split; [| done]].
    + intros other Hne. by rewrite find_mapSet_other.
    + apply mapSet_keys.
Qed.

(** Plugin [A] of the sample manager updated from a script: the stored
    variable [token] and the enabled state are kept. *)
Lemma addPluginFromScript_registers_with_stored_config_witness :
  HelpersPluginManager.userConfig
    <$> HelpersPluginManager.get
          (snd (HelpersPluginManagerLifecycle.addPluginFromScript
                  SampleDevice.device Sample.manager SampleDevice.scriptA
                  (Some "/downloads/a.js") SampleDevice.allFine)) "A"
  = Some {| HelpersPluginManager.userVariables := Some {[ "token" := "old" ]};
            HelpersPluginManager.isEnabled := Some true |}.
Proof.
  pose proof (addPluginFromScript_registers_with_stored_config
                SampleDevice.device Sample.manager SampleDevice.scriptA
                (Some "/downloads/a.js") SampleDevice.allFine
                (SampleDevice.define "A") eq_refl
                ltac:(discriminate) eq_refl eq_refl eq_refl eq_refl)
    as (_ & Hget & _).
  cbv zeta in Hget.
  change (HelpersPluginManager.platform (SampleDevice.define "A")) with "A"
    in Hget.
  rewrite Hget. reflexivity.
Defined.



Lemma loadOne_loadedFrom device files pm file :
  file ∈ files ->
  (forall id plugin, HelpersPluginManager.get pm id = Some plugin ->
     loadedFrom device files id plugin) ->
  forall id plugin,
    HelpersPluginManager.get
      (HelpersPluginManagerLifecycle.loadOne device pm file) id = Some plugin ->
    loadedFrom device files id plugin.
Proof.
  intros Hin Hpm id plugin. unfold HelpersPluginManagerLifecycle.loadOne.
  specialize (Hpm id plugin).
  destruct (endsWith _ _) eqn:Hjs; [| done].
  destruct (HelpersPluginManagerLifecycle.readAsString file)
    as [scriptContent|] eqn:Hread; [| done].
  destruct (HelpersPluginManagerLifecycle.evalScript device scriptContent)
    as [pluginModule|] eqn:Heval; [| done].
  destruct (String.eqb _ "") eqn:Hplatform; [done |].
  apply String.eqb_neq in Hplatform.
  pose proof (plugins_loadPluginConfig pm
                (HelpersPluginManager.platform pluginModule)
                (HelpersPluginManagerLifecycle.fileReadConfig file)
                (HelpersPluginManagerLifecycle.fileRemoveConfig file))
    as Hplugins.
  destruct (HelpersPluginManagerLifecycle.loadPluginConfig pm _ _ _)
    as [[userConfig|e1] pm1]; simpl in Hplugins.
  - unfold HelpersPluginManager.get in *. simpl.
    destruct (decide (id = HelpersPluginManager.platform pluginModule))
      as [-> | Hne].
    + rewrite find_mapSet_same. intros [= <-].
      exists file, scriptContent, pluginModule. simpl.
      by repeat split.
    + rewrite find_mapSet_other, Hplugins by done. exact Hpm.
  - unfold HelpersPluginManager.get in *. rewrite Hplugins. exact Hpm.
Qed.

Lemma loadAll_loadedFrom device all files pm :
  (forall file, file ∈ files -> file ∈ all) ->
  (forall id plugin, HelpersPluginManager.get pm id = Some plugin ->
     loadedFrom device all id plugin) ->
  forall id plugin,
    HelpersPluginManager.get
      (fold_left (HelpersPluginManagerLifecycle.loadOne device) files pm) id
    = Some plugin ->
    loadedFrom device all id plugin.
Proof.
  revert pm. induction files as [|file files IH]; intros pm Hsub Hpm;
    simpl; [done |].
  apply IH.
  - intros f Hf. apply Hsub. by right.
  - apply loadOne_loadedFrom; [| done]. apply Hsub. by left.
Qed.

(** [loadPlugins] rebuilds the map from the plugin directory.  Unless the
    directory cannot be ensured (then the call throws and the map is as it
    was), the call returns whatever goes wrong with single files; what the
    map held before is dropped; the map is empty when the directory cannot
    be listed; and every plugin of the map comes from a listed file named
    [*.js] that could be read and evaluated to a module with a non-empty
    platform: it is held under that platform, with that module as its
    instance and the path of that file. *)
Theorem loadPlugins_rebuilds_the_map_from_js_files
  (device : HelpersPluginManagerLifecycle.Device)
  (pm : HelpersPluginManager.PluginManager) (ensure : Outcome ())
  (readDirectory : Outcome (list HelpersPluginManagerLifecycle.PluginFile)) :
  let result :=
    HelpersPluginManagerLifecycle.loadPlugins device pm ensure readDirectory in
  (forall e, ensure = Threw e -> result = (Threw e, pm))
  /\ (ensure = Returned () ->
      fst result = Returned ()
      /\ (forall e, readDirectory = Threw e ->
            HelpersPluginManager.plugins (snd result) = [])
      /\ forall pluginFiles, readDirectory = Returned pluginFiles ->
           forall pluginId plugin,
             HelpersPluginManager.get (snd result) pluginId = Some plugin ->
             loadedFrom device pluginFiles pluginId plugin).
Proof.
  simpl. unfold HelpersPluginManagerLifecycle.loadPlugins.
  split; [by intros e -> |]. intros ->.
  split; [by destruct readDirectory |].
  split; [by intros e -> |]. intros pluginFiles -> pluginId plugin Hget. simpl in Hget.
  by apply (loadAll_loadedFrom device pluginFiles pluginFiles) in Hget.
Qed.

(** *** What the map satisfies after any sequence of calls *)

Lemma wellKeyed_plugins pm pm' :
  HelpersPluginManager.plugins pm' = HelpersPluginManager.plugins pm ->
  wellKeyed pm -> wellKeyed pm'.
Proof. unfold wellKeyed. by intros ->. Qed.

Lemma wellKeyed_mapSet pm k v store :
  wellKeyed pm -> keyedByPlatform (k, v) ->
  wellKeyed {| HelpersPluginManager.plugins :=
                 HelpersPluginManagerLifecycle.mapSet k v
                   (HelpersPluginManager.plugins pm);
               HelpersPluginManager.persisted := store |}.
Proof.
  intros [Hd Hf] Hkv. split; simpl;
    [by apply mapSet_NoDup | by apply mapSet_Forall].
Qed.

Lemma wellKeyed_mutateUserConfig pm pluginId c :
  wellKeyed pm ->
  wellKeyed (HelpersPluginManager.mutateUserConfig pm pluginId c).
Proof.
  intros [Hd Hf]. split; [by rewrite keys_mutateUserConfig |]. simpl.
  apply Forall_updateFirst; [done |]. by intros kv _ H.
Qed.

Lemma wellKeyed_loadOne device pm file :
  wellKeyed pm ->
  wellKeyed (HelpersPluginManagerLifecycle.loadOne device pm file).
Proof.
  intros Hw. unfold HelpersPluginManagerLifecycle.loadOne.
  destruct (endsWith _ _); [| done].
  destruct (HelpersPluginManagerLifecycle.readAsString file)
    as [scriptContent|]; [| done].
  destruct (HelpersPluginManagerLifecycle.evalScript device scriptContent)
    as [pluginModule|]; [| done].
  destruct (String.eqb _ "") eqn:Hplatform; [done |].
  apply String.eqb_neq in Hplatform.
  pose proof (plugins_loadPluginConfig pm
                (HelpersPluginManager.platform pluginModule)
                (HelpersPluginManagerLifecycle.fileReadConfig file)
                (HelpersPluginManagerLifecycle.fileRemoveConfig file))
    as Hplugins.
  destruct (HelpersPluginManagerLifecycle.loadPluginConfig pm _ _ _)
    as [[userConfig|e1] pm1]; simpl in Hplugins.
  - apply wellKeyed_mapSet; [by apply (wellKeyed_plugins pm) |].
    by repeat split.
  - by apply (wellKeyed_plugins pm).
Qed.

Lemma wellKeyed_manage device pm call :
  wellKeyed pm -> wellKeyed (manage device pm call).
Proof.
  intros Hw.
  destruct call as [ensure readDirectory | scriptContent filePathHint answers
                   | pluginId deleteFile remove | pluginId isEnabled set
                   | pluginId key value set]; simpl.
  - unfold HelpersPluginManagerLifecycle.loadPlugins.
    destruct ensure; [| done].
    assert (wellKeyed
              {| HelpersPluginManager.plugins := [];
                 HelpersPluginManager.persisted :=
                   HelpersPluginManager.persisted pm |}) as Hcleared
      by (split; simpl; constructor).
    destruct readDirectory as [pluginFiles|]; simpl; [| done].
    revert Hcleared. generalize
      {| HelpersPluginManager.plugins := [];
         HelpersPluginManager.persisted := HelpersPluginManager.persisted pm |}.
    induction pluginFiles as [|file pluginFiles IH]; intros pm0 H0; simpl;
      [done |].
    by apply IH, wellKeyed_loadOne.
  - unfold HelpersPluginManagerLifecycle.addPluginFromScript.
    destruct (HelpersPluginManagerLifecycle.evalScript device scriptContent)
      as [pluginModule|]; [| done].
    destruct (String.eqb _ "") eqn:Hplatform; [done |].
    apply String.eqb_neq in Hplatform.
    destruct (HelpersPluginManagerLifecycle.ensure answers); [| done].
    destruct (HelpersPluginManagerLifecycle.write answers); [| done].
    pose proof (plugins_loadPluginConfig pm
                  (HelpersPluginManager.platform pluginModule)
                  (HelpersPluginManagerLifecycle.readConfig answers)
                  (HelpersPluginManagerLifecycle.removeConfig answers))
      as Hplugins.
    destruct (HelpersPluginManagerLifecycle.loadPluginConfig pm _ _ _)
      as [[userConfig|e1] pm1]; simpl in Hplugins.
    + match goal with
      | |- wellKeyed (snd (match ?s with _ => _ end)) =>
          assert (HelpersPluginManager.plugins (snd s)
                  = HelpersPluginManagerLifecycle.mapSet
                      (HelpersPluginManager.platform pluginModule)
                      {| HelpersPluginManager.spread := pluginModule;
                         HelpersPluginManager.id :=
                           HelpersPluginManager.platform pluginModule;
                         HelpersPluginManager.filePath :=
                           HelpersPluginManagerLifecycle.PLUGINS_DIRECTORY device
                           +:+ HelpersPluginManagerLifecycle.fileNameFor
                                 (HelpersPluginManager.platform pluginModule)
                                 filePathHint
                                 (HelpersPluginManagerLifecycle.now answers);
                         HelpersPluginManager.userConfig := userConfig;
                         HelpersPluginManager.instance := Some pluginModule |}
                      (HelpersPluginManager.plugins pm1)) as Hsaved
            by apply plugins_savePluginConfig;
          destruct s as [[u|e2] pm3]
      end; simpl in *.
      * apply (wellKeyed_plugins
                 {| HelpersPluginManager.plugins :=
                      HelpersPluginManager.plugins pm3;
                    HelpersPluginManager.persisted :=
                      HelpersPluginManager.persisted pm |}); [done |].
        rewrite Hsaved.
        apply wellKeyed_mapSet; [by apply (wellKeyed_plugins pm) |].
        by repeat split.
      * apply (wellKeyed_plugins
                 {| HelpersPluginManager.plugins :=
                      HelpersPluginManager.plugins pm3;
                    HelpersPluginManager.persisted :=
                      HelpersPluginManager.persisted pm |}); [done |].
        rewrite Hsaved.
        apply wellKeyed_mapSet; [by apply (wellKeyed_plugins pm) |].
        by repeat split.
    + by apply (wellKeyed_plugins pm).
  - unfold HelpersPluginManagerLifecycle.removePlugin.
    destruct (HelpersPluginManager.get pm pluginId); [| done].
    destruct deleteFile; [| done]. destruct remove; [| done]. simpl.
    destruct Hw as [Hd Hf]. split; simpl.
    + by apply NoDup_map_keep.
    + by apply Forall_keep.
  - unfold HelpersPluginManager.setPluginEnabled.
    destruct (HelpersPluginManager.get pm pluginId); [| done].
    eapply wellKeyed_plugins; [apply plugins_savePluginConfig |].
    by apply wellKeyed_mutateUserConfig.
  - unfold HelpersPluginManager.setPluginUserVariable.
    destruct (HelpersPluginManager.get pm pluginId); [| done].
    eapply wellKeyed_plugins; [apply plugins_savePluginConfig |].
    by apply wellKeyed_mutateUserConfig.
Qed.

(** Whatever calls of [loadPlugins], [addPluginFromScript], [removePlugin],
    [setPluginEnabled] and [setPluginUserVariable] have settled on a new
    manager, returning or throwing, and whatever the device and the
    environment answered: the map holds at most one plugin per key, no key
    is empty, and the plugin held under a key has that key as its id and its
    platform and carries the evaluated module as its instance (so that only
    its enabled state can keep it out of [getActivePlugins]). *)
Theorem manager_map_is_keyed_by_platform
  (device : HelpersPluginManagerLifecycle.Device) (calls : list ManagerCall)
  (store : gmap string HelpersPluginManager.PluginUserConfig) :
  wellKeyed (manageAll device calls (newManager store)).
Proof.
  unfold manageAll.
  assert (wellKeyed (newManager store)) as H0 by (split; simpl; constructor).
  revert H0. generalize (newManager store).
  induction calls as [|call calls IH]; intros pm Hw; simpl; [done |].
  by apply IH, wellKeyed_manage.
Qed.

(** * [helpers/pluginDataFetchers.ts] *)

Section FetcherFacts.
Variable methods :
  HelpersPluginManager.IPluginDefine -> PluginDataFetchers.OtherMethods.
Variable pm : HelpersPluginManager.PluginManager.

Lemma usable_Some {M} (m : PluginDataFetchers.OtherMethods -> option M)
  platform plugin method :
  PluginDataFetchers.usable methods m pm platform = Some (plugin, method) ->
  HelpersPluginManager.get pm platform = Some plugin
  /\ SearchAll.notDisabled plugin = true
  /\ PluginDataFetchers.member methods m plugin = Some method.
Proof.
  unfold PluginDataFetchers.usable.
  destruct (HelpersPluginManager.get pm platform) as [p|]; [| done].
  destruct (PluginDataFetchers.member methods m p) as [f|] eqn:Hm; [| done].
  destruct (SearchAll.notDisabled p) eqn:Hn; [| done].
  intros H. assert (p = plugin /\ f = method) as [<- <-]
    by (split; congruence).
  done.
Qed.

Lemma guarded_call_answeredBy {R M}
  (m : PluginDataFetchers.OtherMethods -> option M) platform
  (call : M -> Outcome (option R)) :
  platform <> "" ->
  answeredBy methods m pm platform call
    match PluginDataFetchers.usable methods m pm platform with
    | Some (_, method) => try_catch (call method) (fun _ => Returned None)
    | None => Returned None
    end.
Proof.
  intros Hplatform.
  destruct (PluginDataFetchers.usable methods m pm platform)
    as [[plugin method]|] eqn:Hu.
  - apply usable_Some in Hu as (Hget & Hn & Hm).
    destruct (call method) as [v|e] eqn:Hcall; simpl.
    + exists v. split; [done |]. intros x ->. split; [done |].
      by exists plugin, method.
    + by exists None.
  - by exists None.
Qed.

Lemma null_answeredBy {R M}
  (m : PluginDataFetchers.OtherMethods -> option M) platform
  (call : M -> Outcome (option R)) :
  answeredBy methods m pm platform call (Returned None).
Proof. by exists None. Qed.

Lemma truthy_default (v : option string) :
  truthy v = true -> default "" v <> "".
Proof.
  destruct v as [s|]; simpl; [| done]. intros H.
  apply negb_true_iff in H. by apply String.eqb_neq.
Qed.

Lemma stampIfMissing_hasPlatform platform item :
  platform <> "" ->
  hasPlatform (PluginDataFetchers.stampIfMissing platform item).
Proof.
  intros Hp. unfold hasPlatform, PluginDataFetchers.stampIfMissing.
  destruct (truthy (item_platform item)) eqn:Ht; [done |]. simpl.
  apply negb_true_iff. by apply String.eqb_neq.
Qed.

Lemma topListsOf_contribution aggregated plugin :
  SearchAll.notDisabled plugin = true ->
  PluginDataFetchers.topListsOf methods aggregated plugin
  = Returned (aggregated ++ topListsContribution methods plugin).
Proof.
  intros Hn. unfold PluginDataFetchers.topListsOf, topListsContribution.
  destruct (PluginDataFetchers.member methods _ plugin) as [[[groups|]|e]|];
    rewrite ?Hn; simpl; by rewrite ?app_nil_r.
Qed.

Lemma forEachM_topListsOf plugins aggregated :
  Forall (fun p => SearchAll.notDisabled p = true) plugins ->
  forEachM (PluginDataFetchers.topListsOf methods) plugins aggregated
  = Returned
      (aggregated ++ concat (map (topListsContribution methods) plugins)).
Proof.
  intros Hall. revert aggregated.
  induction Hall as [|p plugins Hp Hall IH]; intros aggregated; simpl.
  - by rewrite app_nil_r.
  - rewrite topListsOf_contribution by done. simpl. rewrite IH.
    by rewrite app_assoc.
Qed.

Lemma tagsOf_contribution aggregated plugin :
  SearchAll.notDisabled plugin = true ->
  PluginDataFetchers.tagsOf methods aggregated plugin
  = Returned (aggregated ++ tagsContribution methods plugin).
Proof.
  intros Hn. unfold PluginDataFetchers.tagsOf, tagsContribution.
  destruct (PluginDataFetchers.member methods _ plugin) as [[[tags|]|e]|];
    rewrite ?Hn; simpl; by rewrite ?app_nil_r.
Qed.

Lemma forEachM_tagsOf plugins aggregated :
  Forall (fun p => SearchAll.notDisabled p = true) plugins ->
  forEachM (PluginDataFetchers.tagsOf methods) plugins aggregated
  = Returned (aggregated ++ concat (map (tagsContribution methods) plugins)).
Proof.
  intros Hall. revert aggregated.
  induction Hall as [|p plugins Hp Hall IH]; intros aggregated; simpl.
  - by rewrite app_nil_r.
  - rewrite tagsOf_contribution by done. simpl. rewrite IH.
    by rewrite app_assoc.
Qed.

Lemma active_all_notDisabled :
  Forall (fun p => SearchAll.notDisabled p = true)
    (HelpersPluginManager.getActivePlugins pm).
Proof. apply Forall_forall. intros p Hp. by apply (active_notDisabled pm). Qed.

End FetcherFacts.

(** The four fetchers that ask the plugin of an item's platform
    ([fetchPluginAlbumInfo], [fetchPluginMusicSheetInfo],
    [fetchPluginArtistWorks], [fetchPluginTopListDetail]) never throw.  They
    return [null] or, unmodified, what the corresponding method of the
    plugin held under the item's (non-empty) platform returned for the same
    arguments, and only when that plugin is not disabled: a missing or
    disabled plugin, a missing method and a method that throws all give
    [null]. *)
Theorem single_plugin_fetchers_pass_the_enabled_plugins_answer
  (methods : HelpersPluginManager.IPluginDefine
             -> PluginDataFetchers.OtherMethods)
  (pm : HelpersPluginManager.PluginManager) (item : MediaItem) (page : Z)
  (type : ICommon.SupportMediaType) :
  answeredBy methods PluginDataFetchers.getAlbumInfo pm
    (default "" (item_platform item)) (fun method => method item page)
    (PluginDataFetchers.fetchPluginAlbumInfo methods pm item page)
  /\ answeredBy methods PluginDataFetchers.getMusicSheetInfo pm
       (default "" (item_platform item)) (fun method => method item page)
       (PluginDataFetchers.fetchPluginMusicSheetInfo methods pm item page)
  /\ answeredBy methods PluginDataFetchers.getArtistWorks pm
       (default "" (item_platform item)) (fun method => method item page type)
       (PluginDataFetchers.fetchPluginArtistWorks methods pm item page type)
  /\ answeredBy methods PluginDataFetchers.getTopListDetail pm
       (default "" (item_platform item)) (fun method => method item page)
       (PluginDataFetchers.fetchPluginTopListDetail methods pm item page).
Proof.
  unfold PluginDataFetchers.fetchPluginAlbumInfo,
    PluginDataFetchers.fetchPluginMusicSheetInfo,
    PluginDataFetchers.fetchPluginArtistWorks,
    PluginDataFetchers.fetchPluginTopListDetail.
  destruct (truthy (item_platform item)) eqn:Ht; simpl.
  - apply truthy_default in Ht.
    split; [| split; [| split]];
      by apply (guarded_call_answeredBy methods pm).
  - split; [| split; [| split]]; apply null_answeredBy.
Qed.

Lemma handedOn_stampIfMissing platform original :
  handedOn platform original
    (PluginDataFetchers.stampIfMissing platform original).
Proof.
  unfold handedOn, PluginDataFetchers.stampIfMissing.
  destruct (truthy (item_platform original)) eqn:Ht; by rewrite ?Ht.
Qed.

Lemma handedOn_all platform originals :
  Forall2 (handedOn platform) originals
    (map (PluginDataFetchers.stampIfMissing platform) originals).
Proof.
  induction originals as [|x l IH]; simpl; constructor;
    [apply handedOn_stampIfMissing | done].
Qed.

(** The fetchers that import from a named plugin
    ([importMusicItemFromPlugin], [importMusicSheetFromPlugin],
    [fetchPluginRecommendSheetsByTag]) never throw.  What they return when
    it is not [null] is what the method of the plugin held under the named,
    non-empty platform returned, that plugin not being disabled, with every
    item handed on under the platform the plugin gave it, or else under the
    platform the caller named, and otherwise as the plugin returned it; so
    every item returned carries a non-empty platform.  The page of
    [fetchPluginRecommendSheetsByTag] keeps its [isEnd], and is asked for
    only with a tag that has an id. *)
Theorem imported_items_carry_a_platform
  (methods : HelpersPluginManager.IPluginDefine
             -> PluginDataFetchers.OtherMethods)
  (pm : HelpersPluginManager.PluginManager) (platform urlLike : string)
  (tag : option MediaItem) (page : Z) :
  let asked {M : Type} (m : PluginDataFetchers.OtherMethods -> option M)
        (method : M) :=
    platform <> ""
    /\ exists plugin,
         HelpersPluginManager.get pm platform = Some plugin
         /\ SearchAll.notDisabled plugin = true
         /\ PluginDataFetchers.member methods m plugin = Some method in
  (exists v,
     PluginDataFetchers.importMusicItemFromPlugin methods pm platform urlLike
     = Returned v
     /\ forall item, v = Some item ->
          hasPlatform item
          /\ exists method original,
               asked PluginDataFetchers.importMusicItem method
               /\ method urlLike = Returned (Some original)
               /\ handedOn platform original item)
  /\ (exists v,
        PluginDataFetchers.importMusicSheetFromPlugin methods pm platform urlLike
        = Returned v
        /\ forall items, v = Some items ->
             Forall hasPlatform items
             /\ exists method originals,
                  asked PluginDataFetchers.importMusicSheet method
                  /\ method urlLike = Returned (Some originals)
                  /\ Forall2 (handedOn platform) originals items)
  /\ (exists v,
        PluginDataFetchers.fetchPluginRecommendSheetsByTag methods pm tag page
          platform = Returned v
        /\ forall response,
             v = Some response ->
             (forall items,
                PluginDataFetchers.page_data response = Some items ->
                Forall hasPlatform items)
             /\ exists method theTag original,
                  asked PluginDataFetchers.getRecommendSheetsByTag method
                  /\ tag = Some theTag
                  /\ item_id theTag <> ""
                  /\ method theTag page = Returned (Some original)
                  /\ PluginDataFetchers.page_isEnd response
                     = PluginDataFetchers.page_isEnd original
                  /\ match PluginDataFetchers.page_data original with
                     | Some originals =>
                         exists items,
                           PluginDataFetchers.page_data response = Some items
                           /\ Forall2 (handedOn platform) originals items
                     | None => PluginDataFetchers.page_data response = None
                     end).
Proof.
  simpl.
  unfold PluginDataFetchers.importMusicItemFromPlugin,
    PluginDataFetchers.importMusicSheetFromPlugin,
    PluginDataFetchers.fetchPluginRecommendSheetsByTag.
  destruct (String.eqb platform "") eqn:Hp.
  { split; [| split]; by exists None. }
  apply String.eqb_neq in Hp.
  assert (forall items,
            Forall hasPlatform
              (map (PluginDataFetchers.stampIfMissing platform) items))
    as Hall.
  { intros items. apply Forall_forall. intros x Hx.
    apply elem_of_map in Hx as (y & -> & _).
    by apply stampIfMissing_hasPlatform. }
  split; [| split].
  - destruct (PluginDataFetchers.usable methods _ pm platform)
      as [[plugin method]|] eqn:Hu; [| by exists None].
    apply usable_Some in Hu as (Hget & Hn & Hm).
    destruct (method urlLike) as [[original|]|e] eqn:Hcall; simpl;
      [| by exists None | by exists None].
    eexists. split; [done |]. intros item [= <-].
    split; [by apply stampIfMissing_hasPlatform |].
    exists method, original. split; [split; [done | by exists plugin] |].
    split; [done | apply handedOn_stampIfMissing].
  - destruct (PluginDataFetchers.usable methods _ pm platform)
      as [[plugin method]|] eqn:Hu; [| by exists None].
    apply usable_Some in Hu as (Hget & Hn & Hm).
    destruct (method urlLike) as [[originals|]|e] eqn:Hcall; simpl;
      [| by exists None | by exists None].
    eexists. split; [done |]. intros items [= <-].
    split; [done |].
    exists method, originals. split; [split; [done | by exists plugin] |].
    split; [done | apply handedOn_all].
  - destruct tag as [theTag|]; [| by exists None].
    destruct (String.eqb (item_id theTag) "") eqn:Hid; [by exists None |].
    apply String.eqb_neq in Hid.
    destruct (PluginDataFetchers.usable methods _ pm platform)
      as [[plugin method]|] eqn:Hu; [| by exists None].
    apply usable_Some in Hu as (Hget & Hn & Hm).
    destruct (method theTag page) as [[original|]|e] eqn:Hcall; simpl;
      [| by exists None | by exists None].
    eexists. split; [done |]. intros response [= <-]. simpl. split.
    + destruct (PluginDataFetchers.page_data original); [| done].
      by intros items [= <-].
    + exists method, theTag, original.
      split; [split; [done | by exists plugin] |].
      split; [done |]. split; [done |]. split; [done |]. split; [done |].
      destruct (PluginDataFetchers.page_data original) as [originals|];
        [| done].
      eexists. split; [done |]. apply handedOn_all.
Qed.


(** * [searchAll]: the page as a whole *)

Lemma at_most_one_per_key_NoDup (l : list SearchAll.Track) :
  (forall t, (length (keep (SearchAll.sameTrack t) l) <= 1)%nat) ->
  NoDup (map trackKey l).
Proof.
  induction l as [|x l IH]; intros Hone; simpl; [constructor |].
  apply NoDup_cons. split.
  - intros Hin. apply elem_of_map in Hin as (y & Hkey & Hy).
    specialize (Hone x). simpl in Hone. rewrite sameTrack_refl in Hone.
    simpl in Hone.
    assert (keep (SearchAll.sameTrack x) l <> []) as Hne.
    { apply (keep_hit _ _ y); [done |]. by apply sameTrack_key. }
    destruct (keep (SearchAll.sameTrack x) l); [done | simpl in Hone; lia].
  - apply IH. intros t. specialize (Hone t). simpl in Hone.
    destruct (SearchAll.sameTrack t x); simpl in Hone; lia.
Qed.

Lemma uniqueResults_NoDup l : NoDup (map trackKey (SearchAll.uniqueResults l)).
Proof.
  apply at_most_one_per_key_NoDup. intros t. rewrite keep_uniqueResults.
  rewrite length_take. lia.
Qed.

Lemma uniqueResults_elem_of l t : t ∈ SearchAll.uniqueResults l -> t ∈ l.
Proof.
  rewrite uniqueResults_firstSeen. generalize (@nil SearchAll.Track).
  induction l as [|x l IH]; intros seen; simpl; [done |].
  destruct (existsb _ seen).
  - intros H. right. by apply (IH (seen ++ [x])).
  - intros H. apply elem_of_cons in H as [-> | H]; [by left |].
    right. by apply (IH (seen ++ [x])).
Qed.

(** The page that [searchAll] returns.  The call always returns; every track
    of the page was made from an item that the search of an active plugin
    returned for the same text, page and type, and carries that plugin's
    platform; and no two tracks of the page have the same id and
    platform. *)
Theorem searchAll_page_is_sound (pm : HelpersPluginManager.PluginManager)
  (searchText : string) (page : Z) (type : SearchAll.SearchAllType) :
  exists result,
    SearchAll.searchAll pm searchText page type = Returned result
    /\ (forall t, t ∈ SearchAll.data result ->
          exists plugin search answer items item,
            plugin ∈ HelpersPluginManager.getActivePlugins pm
            /\ SearchAll.instanceSearch plugin = Some search
            /\ search searchText page (SearchAll.mapSearchType type)
               = Returned answer
            /\ IPlugin.data answer = Some items
            /\ item ∈ items
            /\ t = SearchAll.toTrack plugin (SearchAll.mapSearchType type) item)
    /\ NoDup (map trackKey (SearchAll.data result)).
Proof.
  eexists. split; [apply searchAll_contributions |]. simpl.
  split; [| apply uniqueResults_NoDup].
  intros t Ht. apply uniqueResults_elem_of in Ht.
  apply elem_of_concat_map in Ht as (plugin & Hplugin & Ht).
  apply contribution_tracks in Ht
    as (search & answer & items & item & H1 & H2 & H3 & H4 & H5).
  by exists plugin, search, answer, items, item.
Qed.

(** * [PluginLoader.loadFromCode]: what a result always satisfies *)

Lemma Forall_keep_true {A} (p : A -> bool) l :
  Forall (fun x => p x = true) (keep p l).
Proof.
  induction l as [|x l IH]; simpl; [constructor |].
  destruct (p x) eqn:Hp; [by constructor | done].
Qed.

(** The result of [loadFromCode] is coherent.  Its hash is the id drawn,
    its path the path given, its name the platform of its instance.  Its
    state is never [Loading]: it is [Mounted] with no error reason, or
    [Error] with one.  A mounted instance has a non-empty platform, declares
    no version or one that the host version satisfies, and has no user
    variable without a key. *)
Theorem loadFromCode_result_is_coherent (host : PluginLoader.Host)
  (pluginCode pluginPath nanoid : string) :
  let r := PluginLoader.loadFromCode host pluginCode pluginPath nanoid in
  let inst := PluginLoader.instance r in
  PluginLoader.hash r = nanoid
  /\ PluginLoader.path r = pluginPath
  /\ PluginLoader.name r = PluginLoader.platform inst
  /\ ((PluginLoader.state r = PluginLoader.Mounted
       /\ PluginLoader.errorReason r = None
       /\ truthy (PluginLoader.platform inst) = true
       /\ (truthy (PluginLoader.version inst) = true ->
           PluginLoader.satisfies host (PluginLoader.getVersion host)
             (default "" (PluginLoader.version inst)) = true)
       /\ (forall vars,
             PluginLoader.userVariables inst = Some vars ->
             Forall (fun it => truthy (PluginLoader.key it) = true) vars))
      \/ (PluginLoader.state r = PluginLoader.Error
          /\ is_Some (PluginLoader.errorReason r))).
Proof.
  simpl. unfold PluginLoader.loadFromCode, PluginLoader.tryLoad.
  destruct (PluginLoader.evalSource host pluginCode) as [[inst|]|e]; simpl;
    try (repeat split; right; by eauto).
  unfold PluginLoader.validatePlugin.
  destruct (truthy (PluginLoader.version inst)) eqn:Hv; simpl.
  - destruct (PluginLoader.satisfies host _ _) eqn:Hs; simpl;
      [| repeat split; right; by eauto].
    destruct (truthy (PluginLoader.platform inst)) eqn:Hp; simpl;
      [| repeat split; right; by eauto].
    split; [done |]. split; [done |]. split; [done |]. left.
    unfold PluginLoader.filterUserVariables.
    destruct (PluginLoader.userVariables inst) as [vars|] eqn:Hu; simpl.
    + repeat split; try done. intros vars' [= <-]. apply Forall_keep_true.
    + rewrite Hu. repeat split; try done.
  - destruct (truthy (PluginLoader.platform inst)) eqn:Hp; simpl;
      [| repeat split; right; by eauto].
    split; [done |]. split; [done |]. split; [done |]. left.
    unfold PluginLoader.filterUserVariables.
    destruct (PluginLoader.userVariables inst) as [vars|] eqn:Hu; simpl.
    + repeat split; try done; try congruence.
      intros vars' [= <-]. apply Forall_keep_true.
    + rewrite Hu. repeat split; try done; congruence.
Qed.

(** * [LocalFilesPlugin] *)

Lemma addFileScheme_prefix path :
  String.prefix "file://" (LocalFilesPlugin.addFileScheme path) = true.
Proof.
  unfold LocalFilesPlugin.addFileScheme.
  destruct (String.prefix "file://" path) eqn:Hp; [done |].
  apply String.prefix_correct. simpl. by destruct ("" +:+ path).
Qed.

Lemma orNull_Some v path :
  LocalFilesPlugin.orNull v = Some path -> v = Some path /\ truthy v = true.
Proof.
  unfold LocalFilesPlugin.orNull. destruct (truthy v) eqn:Ht; [| done].
  by intros ->.
Qed.

Lemma orNull_falsy v :
  truthy (LocalFilesPlugin.orNull v) = false -> LocalFilesPlugin.orNull v = None.
Proof.
  unfold LocalFilesPlugin.orNull. destruct (truthy v) eqn:Ht; [congruence | done].
Qed.

Lemma js_or_truthy_r a b : truthy b = true -> truthy (js_or a b) = true.
Proof. unfold js_or. by destruct (truthy a) eqn:Ha. Qed.

(** [getMediaSource] of the local plugin.  Whatever it returns as a source
    is a [file://] url.  When the item has a local path and the file
    exists, the source is that path and the item's media extra holds the
    path afterwards; when the file does not exist, the media extra holds no
    path afterwards.  Without an existing file, only quality [128k] can give
    a source.  The call throws only if the existence check throws, or if,
    at quality [128k], the item has no url to fall back to. *)
Theorem local_getMediaSource_serves_file_urls_and_tracks_the_path
  (musicItem : LocalFilesPlugin.LocalMusicItem) (quality : string)
  (exists_ : Outcome bool) :
  let result := LocalFilesPlugin.getMediaSource musicItem quality exists_ in
  (forall source, fst result = Returned (Some source) ->
     String.prefix "file://" (IPlugin.url source) = true)
  /\ (forall path,
        LocalFilesPlugin.getLocalPath musicItem = Some path ->
        exists_ = Returned true ->
        fst result
        = Returned (Some {| IPlugin.url := LocalFilesPlugin.addFileScheme path |})
        /\ LocalFilesPlugin.getMediaExtraProperty (snd result) = Some path
        /\ LocalFilesPlugin.url (snd result) = LocalFilesPlugin.url musicItem)
  /\ (forall path,
        LocalFilesPlugin.getLocalPath musicItem = Some path ->
        exists_ = Returned false ->
        LocalFilesPlugin.getMediaExtraProperty (snd result) = None)
  /\ (quality <> "128k" ->
      LocalFilesPlugin.getLocalPath musicItem = None
      \/ exists_ = Returned false ->
      fst result = Returned None)
  /\ (forall e, fst result = Threw e ->
        exists_ = Threw e
        \/ (quality = "128k"
            /\ truthy (LocalFilesPlugin.url musicItem) = false)).
Proof.
  simpl. unfold LocalFilesPlugin.getMediaSource.
  set (fallThrough :=
         if (quality =? "128k")%string
         then match js_or _ _ with Some _ => _ | None => _ end
         else _).
  assert (forall source, fst fallThrough = Returned (Some source) ->
            String.prefix "file://" (IPlugin.url source) = true) as Hfall_url.
  { subst fallThrough. intros source.
    destruct (String.eqb quality "128k"); [| done].
    destruct (js_or _ _); [| done]. simpl. intros [= <-]. simpl.
    apply addFileScheme_prefix. }
  assert (LocalFilesPlugin.getMediaExtraProperty (snd fallThrough) = None)
    as Hfall_extra.
  { subst fallThrough.
    destruct (truthy (LocalFilesPlugin.getMediaExtraProperty musicItem))
      eqn:Ht.
    - destruct (String.eqb quality "128k"); [| done].
      by destruct (js_or _ _).
    - apply orNull_falsy in Ht.
      destruct (String.eqb quality "128k"); [| done].
      by destruct (js_or _ _). }
  assert (quality <> "128k" -> fst fallThrough = Returned None) as Hfall_null.
  { subst fallThrough. intros Hq. apply String.eqb_neq in Hq. by rewrite Hq. }
  assert (forall e, fst fallThrough = Threw e ->
            quality = "128k"
            /\ truthy (LocalFilesPlugin.url musicItem) = false) as Hfall_throw.
  { subst fallThrough. intros e.
    destruct (String.eqb quality "128k") eqn:Hq; [| done].
    apply String.eqb_eq in Hq. split; [done |].
    destruct (truthy (LocalFilesPlugin.url musicItem)) eqn:Hu; [| done].
    exfalso. revert H.
    destruct (truthy (LocalFilesPlugin.getMediaExtraProperty musicItem)).
    - simpl. unfold js_or. simpl.
      by destruct (LocalFilesPlugin.url musicItem).
    - pose proof (js_or_truthy_r
                    (LocalFilesPlugin.extraLocalPath musicItem) _ Hu) as Hor.
      by destruct (js_or _ _). }
  clearbody fallThrough.
  destruct (LocalFilesPlugin.getLocalPath musicItem) as [path|] eqn:Hpath.
  - apply orNull_Some in Hpath as [Hor Htruthy]. rewrite Hor in Htruthy.
    destruct exists_ as [[|]|e]; simpl.
    + split; [intros source [= <-]; apply addFileScheme_prefix |].
      split; [| split; [done | split; [by intros ? [|] | done]]].
      intros ? [= <-] _. split; [done |].
      destruct (js_eq _ _) eqn:Heq; simpl.
      * apply js_eq_true in Heq. by split.
      * unfold LocalFilesPlugin.getMediaExtraProperty,
          LocalFilesPlugin.extraLocalPath, LocalFilesPlugin.orNull. simpl.
        change (negb (path =? "")%string) with (truthy (Some path)).
        by rewrite Htruthy.
    + split; [done |]. split; [done |]. split; [done |].
      split; [by intros Hq _; apply Hfall_null |].
      intros e He. right. by apply (Hfall_throw e).
    + split; [done |]. split; [done |]. split; [done |].
      split; [by intros ? [|] |]. intros e' [= ->]. by left.
  - split; [done |]. split; [done |]. split; [done |].
    split; [by intros Hq _; apply Hfall_null |].
    intros e He. right. by apply (Hfall_throw e).
Qed.

(** * Adding a plugin and loading the directory again *)

Lemma string_app_cons x (a b : string) : String x a +:+ b = String x (a +:+ b).
Proof. reflexivity. Qed.

Lemma string_app_assoc (a b c : string) : (a +:+ b) +:+ c = a +:+ (b +:+ c).
Proof.
  induction a as [|x a IH]; [done |]. by rewrite !string_app_cons, IH.
Qed.

Lemma string_app_length (a b : string) :
  String.length (a +:+ b) = (String.length a + String.length b)%nat.
Proof.
  induction a as [|x a IH]; [done |]. rewrite string_app_cons. simpl.
  by rewrite IH.
Qed.

Lemma substring_all (b : string) : substring 0 (String.length b) b = b.
Proof. induction b as [|x b IH]; simpl; [done |]. by rewrite IH. Qed.

Lemma substring_app_suffix (a b : string) :
  substring (String.length a) (String.length b) (a +:+ b) = b.
Proof.
  induction a as [|x a IH]; [apply substring_all |].
  rewrite string_app_cons. simpl. exact IH.
Qed.

Lemma endsWith_app (a suffix : string) : endsWith (a +:+ suffix) suffix = true.
Proof.
  unfold endsWith. rewrite string_app_length. apply andb_true_iff. split.
  - apply Nat.leb_le. lia.
  - replace (String.length a + String.length suffix - String.length suffix)%nat
      with (String.length a) by lia.
    rewrite substring_app_suffix. apply String.eqb_refl.
Qed.

Lemma fileNameFor_generated pluginId now :
  endsWith (HelpersPluginManagerLifecycle.fileNameFor pluginId None now) ".js"
  = true.
Proof.
  unfold HelpersPluginManagerLifecycle.fileNameFor. simpl.
  rewrite <- !string_app_assoc. apply endsWith_app.
Qed.



(** * The file that [addPluginFromScript] writes *)

Lemma noSlash_app (a b : string) : noSlash (a +:+ b) = noSlash a && noSlash b.
Proof.
  induction a as [|x a IH]; [done |]. rewrite string_app_cons. simpl.
  by rewrite IH, andb_assoc.
Qed.

Lemma noSlash_replacementFor c : noSlash (replacementFor c) = true.
Proof.
  unfold replacementFor.
  destruct (isAlphaNumeric c) eqn:Hc.
  - simpl. destruct (Ascii.eqb c "/"%char) eqn:Heq; [| done].
    apply Ascii.eqb_eq in Heq. subst c. discriminate Hc.
  - by repeat case_match.
Qed.

Lemma noSlash_replaceNonAlphaNumeric s : noSlash (replaceNonAlphaNumeric s) = true.
Proof.
  induction s as [|c s IH]; simpl; [done |].
  by rewrite noSlash_app, noSlash_replacementFor, IH.
Qed.

Lemma noSlash_lastSegmentFrom cur s :
  noSlash cur = true -> noSlash (lastSegmentFrom cur s) = true.
Proof.
  revert cur. induction s as [|c s IH]; intros cur Hcur; simpl; [done |].
  destruct (Ascii.eqb c "/"%char) eqn:Hc; [by apply IH |].
  apply IH. rewrite noSlash_app, Hcur. simpl. by rewrite Hc.
Qed.

Lemma string_app_nonempty (a b : string) : b <> "" -> a +:+ b <> "".
Proof. intros Hb. by destruct a. Qed.

(** The name of the file that [addPluginFromScript] writes the script to
    is not empty and holds no [/], whatever the platform and the file path
    hint are ([Date.now()] printing digits only): the script is written
    to an entry of the plugin directory itself, which is where [loadPlugins]
    looks. *)
Theorem plugin_file_name_is_one_path_segment (pluginId : string)
  (filePathHint : option string) (now : string) :
  noSlash now = true ->
  let name :=
    HelpersPluginManagerLifecycle.fileNameFor pluginId filePathHint now in
  name <> "" /\ noSlash name = true.
Proof.
  intros Hnow. simpl.
  assert (let generated :=
            replaceNonAlphaNumeric pluginId +:+ "_" +:+ now +:+ ".js" in
          generated <> "" /\ noSlash generated = true) as [Hg1 Hg2].
  { simpl. split.
    - by apply string_app_nonempty.
    - by rewrite !noSlash_app, noSlash_replaceNonAlphaNumeric, Hnow. }
  unfold HelpersPluginManagerLifecycle.fileNameFor.
  destruct (truthy filePathHint); [| done].
  destruct (String.eqb (lastSegment _) "") eqn:Hlast; [done |].
  apply String.eqb_neq in Hlast. split; [done |].
  by apply noSlash_lastSegmentFrom.
Qed.

(** A hint that tries to leave the plugin directory. *)
Lemma plugin_file_name_is_one_path_segment_witness :
  HelpersPluginManagerLifecycle.fileNameFor "A" (Some "../../etc/passwd.js")
    "1700000000000" <> ""
  /\ noSlash (HelpersPluginManagerLifecycle.fileNameFor "A"
                (Some "../../etc/passwd.js") "1700000000000") = true.
Proof.
  exact (plugin_file_name_is_one_path_segment "A" (Some "../../etc/passwd.js")
           "1700000000000" eq_refl).
Defined.

(** * The hash that [installPlugin] returns *)

Lemma removeOld_elem_of existing current x :
  x ∈ PluginRegistry.removeOld existing current -> x ∈ current.
Proof.
  destruct existing as [e|]; simpl; [| done].
  intros H. by apply elem_of_keep in H as [H _].
Qed.

(** The hash that a successful [installPlugin] returns identifies the
    entry: provided the id drawn for the hash is not the hash of a built-in
    entry, [getPluginByHash] finds an entry with that hash in the registry
    that the call leaves behind; and when the call did install (no message),
    that entry is the installed one: it has the name returned, is mounted and
    enabled, and its path is the copy in the plugin directory. *)
Theorem returned_hash_identifies_the_installed_entry
  (host : PluginLoader.Host) (reg reg' : PluginRegistry.Registry)
  (pluginCode pluginPath : string)
  (config : option PluginRegistry.IInstallPluginConfig)
  (nanoid1 nanoid2 : string) (copyFile : Outcome ())
  (result : PluginRegistry.IInstallPluginResult) :
  PluginRegistry.installPlugin host reg pluginCode pluginPath config nanoid1
    nanoid2 copyFile = (Returned result, reg') ->
  PluginRegistry.success result = true ->
  (forall b, b ∈ PluginRegistry.builtinPlugins reg ->
     PluginRegistry.hash b <> nanoid1) ->
  PluginRegistry.pluginHash result = Some nanoid1
  /\ exists entry,
       PluginRegistryEntry.getPluginByHash reg' nanoid1 = Some entry
       /\ PluginRegistry.hash entry = nanoid1
       /\ (PluginRegistry.message result = None ->
           PluginRegistry.name entry = PluginRegistry.pluginName result
           /\ PluginRegistry.state entry = PluginLoader.Mounted
           /\ PluginRegistry.enabled (PluginRegistry.meta entry) = true
           /\ PluginRegistry.path entry
              = PluginLoader.pluginPath host +:+ nanoid2 +:+ ".js").
Proof.
  intros Hinstall Hsuccess Hbuiltin.
  assert (find (PluginRegistry.hasHash nanoid1)
            (PluginRegistry.builtinPlugins reg) = None) as Hb.
  { apply find_None. intros b Hin. apply String.eqb_neq. by apply Hbuiltin. }
  unfold PluginRegistry.installPlugin in Hinstall.
  rewrite loadFromCode_hash in Hinstall.
  destruct (String.eqb pluginCode "").
  { injection Hinstall as <- _. discriminate Hsuccess. }
  destruct (find (PluginRegistry.hasHash nanoid1) (PluginRegistry.plugins reg))
    as [x|] eqn:Hfind.
  - injection Hinstall as <- <-. split; [done |]. exists x.
    unfold PluginRegistryEntry.getPluginByHash, PluginRegistry.getAllPlugins.
    rewrite find_app, Hb. split; [done |].
    apply find_Some in Hfind as [_ Hx]. apply String.eqb_eq in Hx.
    by split.
  - destruct (PluginRegistry.newerInstalled host _ config _) as [[|]|e];
      [injection Hinstall as <- _; discriminate Hsuccess | | discriminate].
    destruct (PluginLoader.state _) eqn:Hstate;
      try (injection Hinstall as <- _; discriminate Hsuccess).
    destruct copyFile as [u|e]; [| discriminate].
    injection Hinstall as <- <-. split; [done |].
    eexists.
    unfold PluginRegistryEntry.getPluginByHash, PluginRegistry.getAllPlugins.
    simpl. rewrite find_app, Hb, find_app.
    assert (find (PluginRegistry.hasHash nanoid1)
              (PluginRegistry.removeOld
                 (find (PluginRegistry.hasName
                          (PluginLoader.name
                             (PluginLoader.loadFromCode host pluginCode
                                pluginPath nanoid1)))
                    (PluginRegistry.plugins reg))
                 (PluginRegistry.plugins reg)) = None) as ->.
    { apply find_None. intros y Hy. apply removeOld_elem_of in Hy.
      revert y Hy. by apply find_None. }
    simpl. unfold PluginRegistry.hasHash. simpl. rewrite String.eqb_refl.
    split; [done |]. simpl. split; [done |]. intros _. by repeat split.
Qed.

(** Source [B] installed over the sample registry. *)
Lemma returned_hash_identifies_the_installed_entry_witness :
  exists entry,
    PluginRegistryEntry.getPluginByHash
      (snd (PluginRegistry.installPlugin (Reference.host "1.0.0")
              Sample.registry Reference.sourceB "/downloads/b.js" None
              "hashB2" "fileB2" (Returned ()))) "hashB2" = Some entry
    /\ PluginRegistry.hash entry = "hashB2".
Proof.
  assert (forall b, b ∈ PluginRegistry.builtinPlugins Sample.registry ->
                    PluginRegistry.hash b <> "hashB2") as Hfresh.
  { intros b Hb. simpl in Hb.
    repeat (apply elem_of_cons in Hb as [-> | Hb]; [discriminate |]).
    inversion Hb. }
  destruct (returned_hash_identifies_the_installed_entry
              (Reference.host "1.0.0") Sample.registry _
              Reference.sourceB "/downloads/b.js" None "hashB2" "fileB2"
              (Returned ()) _ eq_refl eq_refl Hfresh)
    as (_ & entry & Hget & Hhash & _).
  exists entry. exact (conj Hget Hhash).
Defined.
